(** * DynamicStruct: declarative binary messages over Python's [struct]

    A shallow embedding of [dynamicstruct/schemas.py] and
    [dynamicstruct/dynamicstruct.py], followed by the properties of the
    engine: layout and size derivation, attribute access, match-length
    resolution, packing, unpacking, validation and instance isolation.

    Organisation of the definitions:
    - [Py]:            the Python values a field can hold, truthiness,
                       exceptions, and the state-and-exception monad in
                       which methods of an instance run;
    - [PyStruct]:      the part of the standard [struct] module the engine
                       calls ([calcsize], [pack], [unpack]) for the
                       little-endian standard table;
    - [Schemas]:       the [DynamicStructField] dataclass;
    - [DynamicStruct]: the engine class, method by method;
    - [Objects]:       object identity: descriptors live in a store, a
                       class holds references to its templates and an
                       instance holds references to its own clones;
    - [Shape]:         the vocabulary of the statements (descriptors of
                       the data model, static size, positional
                       assignment);
    - [Frame]:         what a method leaves in a descriptor, and decoding
                       field by field;
    - [Examples], [ObjectExamples], [MoreExamples]: concrete message
                       types, instances and stores.

    The facts and theorems follow the definitions. *)

From Stdlib Require Import ZArith String Ascii List Lia.
From Stdlib Require Import DecimalString DecimalPos DecimalN DecimalZ.
From Stdlib Require Import Strings.Byte.
From stdpp Require Import base list gmap.
Import ListNotations.

Open Scope string_scope.
Open Scope list_scope.
Open Scope Z_scope.

(* ================================================================== *)
(** ** Python values, exceptions and the method monad                  *)
(* ================================================================== *)

Module Py.

(** The values that reach a field: [Union[int, bytes, None]] by
    annotation, plus what Python lets through ([bool], [str]) and what
    [struct.unpack] can produce ([float]).  A float is kept as the
    little-endian IEEE-754 image it was decoded from. *)
Inductive pyval : Type :=
| PyNone
| PyBool (b : bool)
| PyInt (z : Z)
| PyBytes (bs : list byte)
| PyStr (s : string)
| PyFloat (raw : list byte).

(** The magnitude bits of a little-endian IEEE image are all zero. *)
Fixpoint float_is_zero (raw : list byte) : bool :=
  match raw with
  | [] => true
  | [b] => (Byte.to_N b =? 0)%N || (Byte.to_N b =? 128)%N
  | b :: rest => (Byte.to_N b =? 0)%N && float_is_zero rest
  end.

(** Python truth value testing. *)
Definition truthy (v : pyval) : bool :=
  match v with
  | PyNone => false
  | PyBool b => b
  | PyInt z => negb (z =? 0)
  | PyBytes bs => negb (Nat.eqb (List.length bs) 0)
  | PyStr s => negb (Nat.eqb (String.length s) 0)
  | PyFloat raw => negb (float_is_zero raw)
  end.

(** [a or b]. *)
Definition py_or (a b : pyval) : pyval := if truthy a then a else b.

(** Reasons for a [struct.error]. *)
Inductive struct_error : Type :=
| bad_char                (* bad char in struct format *)
| repeat_without_format   (* repeat count given without format specifier *)
| wrong_buffer_size (expected : Z)  (* unpack requires a buffer of n bytes *)
| wrong_item_count (expected : Z)   (* pack expected n items for packing *)
| not_an_integer          (* required argument is not an integer *)
| out_of_range            (* format requires lo <= number <= hi *)
| not_bytes               (* argument for 's' must be a bytes object *)
| not_a_float             (* required argument is not a float *)
| too_long                (* total struct size too long *)
| embedded_null           (* embedded null character *)
| other_byte_order.       (* a format not starting with "<": outside the model *)

(** [UnicodeEncodeError]: a format string with a character that is not
    ASCII.  [RecursionError]: a call that re-enters itself without end. *)
Inductive exn : Type :=
| NameError (msg : string)
| ValueError (msg : string)
| TypeError (msg : string)
| StructError (why : struct_error)
| UnicodeEncodeError
| RecursionError
| Unmodelled (what : string).

Inductive result (A : Type) : Type :=
| Ok (a : A)
| Raise (e : exn).
Arguments Ok {A} a.
Arguments Raise {A} e.

Definition rbind {A B} (r : result A) (k : A -> result B) : result B :=
  match r with
  | Ok a => k a
  | Raise e => Raise e
  end.

(** [len(v)]. *)
Definition py_len (v : pyval) : result Z :=
  match v with
  | PyBytes bs => Ok (Z.of_nat (List.length bs))
  | PyStr s => Ok (Z.of_nat (String.length s))
  | _ => Raise (TypeError "object has no len()")
  end.

(** [v()]: no value of [pyval] is callable. *)
Definition py_call (v : pyval) : result pyval :=
  Raise (TypeError "object is not callable").

(** [str(n)] / [f"{n}"] for an [int]. *)
Definition str (n : Z) : string := NilEmpty.string_of_int (Z.to_int n).

(** Methods run against the mutable state [S] of [self]; an exception
    ends the method but keeps every mutation made before it. *)
Definition M (S A : Type) : Type := S -> S * result A.

Definition ret {S A} (a : A) : M S A := fun s => (s, Ok a).
Definition raise {S A} (e : exn) : M S A := fun s => (s, Raise e).
Definition bind {S A B} (m : M S A) (k : A -> M S B) : M S B :=
  fun s => match m s with
           | (s', Ok a) => k a s'
           | (s', Raise e) => (s', Raise e)
           end.
Definition get {S} : M S S := fun s => (s, Ok s).
Definition put {S} (s : S) : M S unit := fun _ => (s, Ok tt).
Definition lift {S A} (r : result A) : M S A := fun s => (s, r).

(** [for x in xs: body(x)]. *)
Fixpoint for_each {S A} (xs : list A) (body : A -> M S unit) : M S unit :=
  match xs with
  | [] => ret tt
  | x :: rest => bind (body x) (fun _ => for_each rest body)
  end.

End Py.
Import Py.

Notation "'let*' x ':=' m 'in' k" := (bind m (fun x => k))
  (at level 10, x name, m at level 100, k at level 200).
Notation "'do' m 'then' k" := (bind m (fun _ => k))
  (at level 10, m at level 100, k at level 200).

(* ================================================================== *)
(** ** The [struct] module, little-endian standard table               *)
(* ================================================================== *)

(** The engine always hands [struct] a format that starts with its
    [endian_struct] marker ["<"]: standard sizes, no alignment.  A format
    of type [str] is first encoded as ASCII, then refused if it holds a
    null character, then scanned.  Counts and the running size are
    [Py_ssize_t] values: the scanner refuses a count or a total above
    [PY_SSIZE_T_MAX].  Failure to allocate (a [MemoryError], also the one
    raised for a format of more than [PY_SSIZE_T_MAX / 32] codes) is not
    part of the model. *)
Module PyStruct.

(** The largest [Py_ssize_t] of a 64-bit interpreter. *)
Definition PY_SSIZE_T_MAX : Z := 9223372036854775807.

Inductive kind : Type :=
| Pad | SInt | UInt | Char | Bytes | Pascal | Bool | Float.

Record formatdef : Type :=
  { format : ascii; size : Z; knd : kind }.

Definition lilendian_table : list formatdef :=
  [ {| format := "x"; size := 1; knd := Pad |};
    {| format := "b"; size := 1; knd := SInt |};
    {| format := "B"; size := 1; knd := UInt |};
    {| format := "c"; size := 1; knd := Char |};
    {| format := "s"; size := 1; knd := Bytes |};
    {| format := "p"; size := 1; knd := Pascal |};
    {| format := "h"; size := 2; knd := SInt |};
    {| format := "H"; size := 2; knd := UInt |};
    {| format := "i"; size := 4; knd := SInt |};
    {| format := "I"; size := 4; knd := UInt |};
    {| format := "l"; size := 4; knd := SInt |};
    {| format := "L"; size := 4; knd := UInt |};
    {| format := "q"; size := 8; knd := SInt |};
    {| format := "Q"; size := 8; knd := UInt |};
    {| format := "?"; size := 1; knd := Bool |};
    {| format := "e"; size := 2; knd := Float |};
    {| format := "f"; size := 4; knd := Float |};
    {| format := "d"; size := 8; knd := Float |} ].

Definition getentry (c : ascii) : option formatdef :=
  List.find (fun e => Ascii.eqb (format e) c) lilendian_table.

Definition isspace (c : ascii) : bool :=
  let n := N_of_ascii c in
  ((n =? 32) || ((9 <=? n) && (n <=? 13)))%N.

Definition isdigit (c : ascii) : bool :=
  let n := N_of_ascii c in ((48 <=? n) && (n <=? 57))%N.

Definition digit (c : ascii) : Z := Z.of_N (N_of_ascii c) - 48.

(** One [count code] segment of a format. *)
Record formatcode : Type :=
  { fmtdef : formatdef; repeat : Z }.

(** The guard of the digit loop: [num * 10 + d] would exceed
    [PY_SSIZE_T_MAX]. *)
Definition count_overflows (num d : Z) : bool :=
  (PY_SSIZE_T_MAX / 10 <=? num)
  && ((PY_SSIZE_T_MAX / 10 <? num) || (PY_SSIZE_T_MAX mod 10 <? d)).

(** The guard of the size accumulation: [total + num * itemsize] would
    exceed [PY_SSIZE_T_MAX]. *)
Definition size_overflows (total num itemsize : Z) : bool :=
  (PY_SSIZE_T_MAX - total) / itemsize <? num.

(** The format scanner.  [total] is the size of the codes scanned so far;
    [num] is the repeat count read so far for the segment under the cursor
    ([None]: no digit seen yet).  Whitespace is skipped between segments
    only; a count must be followed by a code. *)
Fixpoint prepare (total : Z) (num : option Z) (s : string)
  : result (list formatcode) :=
  match s with
  | EmptyString =>
      match num with
      | None => Ok []
      | Some _ => Raise (StructError repeat_without_format)
      end
  | String c s' =>
      if match num with None => isspace c | Some _ => false end
      then prepare total None s'
      else if isdigit c
      then match num with
           | None => prepare total (Some (digit c)) s'
           | Some n =>
               if count_overflows n (digit c)
               then Raise (StructError too_long)
               else prepare total (Some (n * 10 + digit c)) s'
           end
      else match getentry c with
           | None => Raise (StructError bad_char)
           | Some e =>
               let n := match num with None => 1 | Some n => n end in
               if size_overflows total n (size e)
               then Raise (StructError too_long)
               else
                 rbind (prepare (total + n * size e) None s')
                       (fun codes =>
                          Ok ({| fmtdef := e; repeat := n |} :: codes))
           end
  end.

(** Every character is ASCII; some character is the null character. *)
Fixpoint is_ascii (s : string) : bool :=
  match s with
  | EmptyString => true
  | String c s' => (N_of_ascii c <? 128)%N && is_ascii s'
  end.

Fixpoint has_null (s : string) : bool :=
  match s with
  | EmptyString => false
  | String c s' => (N_of_ascii c =? 0)%N || has_null s'
  end.

(** A [Struct] object for [fmt].  Byte-order selection: only ["<"] is
    modelled. *)
Definition prepare_s (fmt : string) : result (list formatcode) :=
  if negb (is_ascii fmt) then Raise UnicodeEncodeError
  else if has_null fmt then Raise (StructError embedded_null)
  else match fmt with
       | String "<" body => prepare 0 None body
       | _ => Raise (StructError other_byte_order)
       end.

Definition code_size (c : formatcode) : Z := repeat c * size (fmtdef c).

Definition total_size (codes : list formatcode) : Z :=
  fold_right (fun c acc => code_size c + acc) 0 codes.

(** [struct.calcsize(fmt)]. *)
Definition calcsize (fmt : string) : result Z :=
  rbind (prepare_s fmt) (fun codes => Ok (total_size codes)).

(** *** Decoding *)

Definition le_unsigned (bs : list byte) : Z :=
  fold_right (fun b acc => Z.of_N (Byte.to_N b) + 256 * acc) 0 bs.

Definition le_signed (bs : list byte) : Z :=
  let u := le_unsigned bs in
  let w := 8 * Z.of_nat (List.length bs) in
  if u <? 2 ^ (w - 1) then u else u - 2 ^ w.

(** One unit of a code that is neither ['s'], ['p'] nor ['x']. *)
Definition unpack_one (e : formatdef) (chunk : list byte) : pyval :=
  match knd e with
  | SInt => PyInt (le_signed chunk)
  | UInt => PyInt (le_unsigned chunk)
  | Bool => PyBool (negb (le_unsigned chunk =? 0))
  | Float => PyFloat chunk
  | _ => PyBytes chunk
  end.

Fixpoint unpack_repeat (e : formatdef) (j : nat) (buf : list byte)
  : list pyval :=
  match j with
  | O => []
  | S j' =>
      let w := Z.to_nat (size e) in
      unpack_one e (take w buf) :: unpack_repeat e j' (drop w buf)
  end.

(** A Pascal string: a length byte, then that many bytes of the chunk.
    (The empty chunk of a ['p'] code with count 0 has no length byte; it
    is read here as the empty byte string.  Interpreters differ on it,
    and the statements about decoding leave that code out.) *)
Definition unpack_pascal (chunk : list byte) : pyval :=
  match chunk with
  | [] => PyBytes []
  | b :: rest =>
      let n := N.to_nat (Byte.to_N b) in
      PyBytes (take (Nat.min n (List.length rest)) rest)
  end.

Fixpoint unpack_codes (codes : list formatcode) (buf : list byte)
  : list pyval :=
  match codes with
  | [] => []
  | c :: rest =>
      let n := Z.to_nat (code_size c) in
      let tail := unpack_codes rest (drop n buf) in
      match knd (fmtdef c) with
      | Pad => tail
      | Bytes => PyBytes (take n buf) :: tail
      | Pascal => unpack_pascal (take n buf) :: tail
      | _ => unpack_repeat (fmtdef c) (Z.to_nat (repeat c)) buf ++ tail
      end
  end.

(** [struct.unpack(fmt, buffer)]. *)
Definition unpack (fmt : string) (buffer : list byte)
  : result (list pyval) :=
  rbind (prepare_s fmt) (fun codes =>
    if Z.of_nat (List.length buffer) =? total_size codes
    then Ok (unpack_codes codes buffer)
    else Raise (StructError (wrong_buffer_size (total_size codes)))).

(** *** Encoding *)

Definition byte_of_Z (z : Z) : byte :=
  match Byte.of_N (Z.to_N (z mod 256)) with
  | Some b => b
  | None => x00
  end.

Fixpoint le_bytes (w : nat) (z : Z) : list byte :=
  match w with
  | O => []
  | S w' => byte_of_Z z :: le_bytes w' (z / 256)
  end.

Definition pack_int (e : formatdef) (v : pyval) : result (list byte) :=
  let w := 8 * size e in
  let enc (z : Z) : result (list byte) :=
    let lo := match knd e with SInt => - 2 ^ (w - 1) | _ => 0 end in
    let hi := match knd e with SInt => 2 ^ (w - 1) - 1 | _ => 2 ^ w - 1 end in
    if (lo <=? z) && (z <=? hi)
    then Ok (le_bytes (Z.to_nat (size e)) (z mod 2 ^ w))
    else Raise (StructError out_of_range) in
  match v with
  | PyInt z => enc z
  | PyBool b => enc (if b then 1 else 0)
  | _ => Raise (StructError not_an_integer)
  end.

(** One unit of a code that is neither ['s'], ['p'] nor ['x'].  Encoding a
    number as an IEEE float is outside the model. *)
Definition pack_one (e : formatdef) (v : pyval) : result (list byte) :=
  match knd e with
  | SInt | UInt => pack_int e v
  | Bool => Ok [if truthy v then x01 else x00]
  | Float =>
      match v with
      | PyFloat _ | PyInt _ | PyBool _ => Raise (Unmodelled "float encoding")
      | _ => Raise (StructError not_a_float)
      end
  | _ =>
      match v with
      | PyBytes [b] => Ok [b]
      | _ => Raise (StructError not_bytes)
      end
  end.

Fixpoint pack_repeat (e : formatdef) (j : nat) (args : list pyval)
  : result (list byte * list pyval) :=
  match j with
  | O => Ok ([], args)
  | S j' =>
      match args with
      | [] => Raise (StructError (wrong_item_count 0))
      | v :: args' =>
          rbind (pack_one e v) (fun bs =>
          rbind (pack_repeat e j' args') (fun '(bs', args'') =>
          Ok (bs ++ bs', args'')))
      end
  end.

(** Copy at most [n] bytes, zero-filled up to [n]. *)
Definition pad_to (n : nat) (bs : list byte) : list byte :=
  take n bs ++ List.repeat x00 (n - List.length bs).

Definition pack_pascal (n : nat) (bs : list byte) : list byte :=
  match n with
  | O => []
  | S m =>
      let k := Nat.min (List.length bs) m in
      byte_of_Z (Z.of_nat (Nat.min k 255)) :: pad_to m (take k bs)
  end.

Fixpoint pack_codes (codes : list formatcode) (args : list pyval)
  : result (list byte) :=
  match codes with
  | [] => Ok []
  | c :: rest =>
      let n := Z.to_nat (code_size c) in
      match knd (fmtdef c) with
      | Pad => rbind (pack_codes rest args) (fun bs => Ok (List.repeat x00 n ++ bs))
      | Bytes | Pascal =>
          match args with
          | PyBytes v :: args' =>
              rbind (pack_codes rest args') (fun bs =>
                Ok (match knd (fmtdef c) with
                    | Pascal => pack_pascal n v
                    | _ => pad_to n v
                    end ++ bs))
          | _ => Raise (StructError not_bytes)
          end
      | _ =>
          rbind (pack_repeat (fmtdef c) (Z.to_nat (repeat c)) args)
            (fun '(bs, args') =>
               rbind (pack_codes rest args') (fun bs' => Ok (bs ++ bs')))
      end
  end.

(** The number of arguments a format consumes. *)
Definition item_count (codes : list formatcode) : Z :=
  fold_right (fun c acc =>
                match knd (fmtdef c) with
                | Pad => 0
                | Bytes | Pascal => 1
                | _ => repeat c
                end + acc) 0 codes.

(** [struct.pack(fmt, *args)]. *)
Definition pack (fmt : string) (args : list pyval) : result (list byte) :=
  rbind (prepare_s fmt) (fun codes =>
    if Z.of_nat (List.length args) =? item_count codes
    then pack_codes codes args
    else Raise (StructError (wrong_item_count (item_count codes)))).

End PyStruct.

(* ================================================================== *)
(** ** [schemas.py]                                                    *)
(* ================================================================== *)

Module Schemas.

Record DynamicStructField : Type :=
  { name : string;
    struct : string;
    length : Z;
    default : pyval;
    value : pyval;
    match_length : bool }.

(** The dataclass constructor with its declared defaults. *)
Definition new (name : string) : DynamicStructField :=
  {| name := name; struct := "B"; length := 1;
     default := PyInt 0; value := PyNone; match_length := false |}.

(** [field.value = v] and [field.length = n]. *)
Definition set_value (v : pyval) (f : DynamicStructField) : DynamicStructField :=
  {| name := name f; struct := struct f; length := length f;
     default := default f; value := v; match_length := match_length f |}.

Definition set_length (n : Z) (f : DynamicStructField) : DynamicStructField :=
  {| name := name f; struct := struct f; length := n;
     default := default f; value := value f; match_length := match_length f |}.

(** [dataclasses.replace(k)]: the attributes of a new object equal to [k]
    (its identity is the business of [Objects]). *)
Definition replace (k : DynamicStructField) : DynamicStructField :=
  {| name := name k; struct := struct k; length := length k;
     default := default k; value := value k; match_length := match_length k |}.

End Schemas.

(* ================================================================== *)
(** ** [dynamicstruct.py]                                              *)
(* ================================================================== *)

Module DynamicStruct.

Abbreviation DynamicStructField := Schemas.DynamicStructField.

(** [collections.OrderedDict] keyed by field name: keys are unique and
    keep the position of their first insertion. *)
Definition odict (V : Type) : Type := list (string * V).

Fixpoint od_get {V} (k : string) (d : odict V) : option V :=
  match d with
  | [] => None
  | (k', v) :: rest => if String.eqb k k' then Some v else od_get k rest
  end.

(** [k in d]. *)
Definition od_in {V} (k : string) (d : odict V) : bool :=
  match od_get k d with Some _ => true | None => false end.

(** [d[k] = v]. *)
Fixpoint od_set {V} (k : string) (v : V) (d : odict V) : odict V :=
  match d with
  | [] => [(k, v)]
  | (k', v') :: rest =>
      if String.eqb k k' then (k', v) :: rest else (k', v') :: od_set k v rest
  end.

(** [OrderedDict(pairs)]. *)
Definition od_of_pairs {V} (pairs : list (string * V)) : odict V :=
  fold_left (fun d kv => od_set (fst kv) (snd kv) d) pairs [].

Definition od_keys {V} (d : odict V) : list string := map fst d.
Definition od_values {V} (d : odict V) : list V := map snd d.

(** The state of an instance: [self._fields] with the descriptors it
    refers to. *)
Definition OrderedDict : Type := odict DynamicStructField.

(** An attribute assignment on the descriptor object stored under [k]. *)
Fixpoint od_alter (g : DynamicStructField -> DynamicStructField) (k : string)
  (d : OrderedDict) : OrderedDict :=
  match d with
  | [] => []
  | (k', f) :: rest =>
      if String.eqb k k' then (k', g f) :: rest
      else (k', f) :: od_alter g k rest
  end.

(** Methods of an instance run on its [_fields]. *)
Definition Method (A : Type) : Type := M OrderedDict A.

(** A message type: the class attribute [fields] and the two hooks a
    subclass may override.  [on_pack] may assign to fields of [self];
    [is_valid] inspects [self] and answers. *)
Record Class : Type :=
  { fields : list DynamicStructField;
    on_pack : Method unit;
    is_valid : OrderedDict -> bool }.

(** The base class: no fields, [on_pack] does nothing, [is_valid] is
    [True]. *)
Definition base : Class :=
  {| fields := []; on_pack := ret tt; is_valid := fun _ => true |}.

(** A subclass that only declares [fields]. *)
Definition declare (fs : list DynamicStructField) : Class :=
  {| fields := fs; on_pack := on_pack base; is_valid := is_valid base |}.

Definition endian_struct : string := "<".

Definition not_defined (name : string) : exn :=
  NameError ("Field '" ++ name ++ "' is not defined")%string.

Definition _fields : Method OrderedDict := get.

(** Assignment to an attribute of the descriptor [self._fields[k]]. *)
Definition assign (k : string) (g : DynamicStructField -> DynamicStructField)
  : Method unit :=
  let* d := _fields in put (od_alter g k d).

(** [__getattr__]: reached for every name that ordinary lookup on the
    instance and its class does not resolve. *)
Definition __getattr__ (name : string) : Method pyval :=
  let* d := _fields in
  match od_get name d with
  | Some f => ret (py_or (Schemas.value f) (Schemas.default f))
  | None => raise (not_defined name)
  end.

Definition __setattr__ (name : string) (value : pyval) : Method unit :=
  let* d := _fields in
  if od_in name d
  then assign name (Schemas.set_value value)
  else raise (not_defined name).

(** The segment [f"{f.length if f.length != 1 else ''}{f.struct}"]. *)
Definition segment (f : DynamicStructField) : string :=
  ((if (Schemas.length f =? 1)%Z then "" else str (Schemas.length f))
   ++ Schemas.struct f)%string.

(** Property [struct]. *)
Definition struct : Method string :=
  let* d := _fields in
  ret (endian_struct ++ String.concat "" (map segment (od_values d)))%string.

(** Property [size]. *)
Definition size : Method Z :=
  let* fmt := struct in lift (PyStruct.calcsize fmt).

(** The names that ordinary attribute lookup resolves on an instance:
    what the class body defines, what the class statement adds, what
    [object] provides (CPython 3.11), and the one entry of the instance's
    own [__dict__]. *)
Definition class_attributes : list string :=
  [ "fields"; "_fields"; "endian_struct";
    "__init__"; "__getattr__"; "__setattr__"; "__str__";
    "struct"; "size"; "values"; "from_buffer";
    "_set_length"; "_set_match_length_pack"; "_set_match_length_unpack";
    "on_pack"; "is_valid"; "pack"; "unpack";
    "__module__"; "__doc__"; "__annotations__"; "__dict__"; "__weakref__";
    "__class__"; "__delattr__"; "__dir__"; "__eq__"; "__format__";
    "__ge__"; "__getattribute__"; "__getstate__"; "__gt__"; "__hash__";
    "__init_subclass__"; "__le__"; "__lt__"; "__ne__"; "__new__";
    "__reduce__"; "__reduce_ex__"; "__repr__"; "__sizeof__";
    "__subclasshook__" ].

Definition is_attribute (name : string) : bool :=
  existsb (String.eqb name) class_attributes.

(** [getattr(self, name)]: ordinary lookup first, [__getattr__] for the
    names it does not resolve.  The properties [size] and [struct] and the
    class attribute [endian_struct] are read as they are; [values]
    re-enters the property that is asking, without end; the remaining
    attributes are objects that are no field values. *)
Definition getattr (name : string) : Method pyval :=
  if negb (is_attribute name) then __getattr__ name
  else if String.eqb name "size" then let* n := size in ret (PyInt n)
  else if String.eqb name "struct" then let* s := struct in ret (PyStr s)
  else if String.eqb name "endian_struct" then ret (PyStr endian_struct)
  else if String.eqb name "values" then raise RecursionError
  else raise (Unmodelled "an attribute that is no field value").

(** Property [values]: [{k: getattr(self, k) for k in self._fields}]. *)
Fixpoint getattr_all (ks : list string) : Method (list (string * pyval)) :=
  match ks with
  | [] => ret []
  | k :: rest =>
      let* v := getattr k in
      let* vs := getattr_all rest in
      ret ((k, v) :: vs)
  end.

Definition values : Method (list (string * pyval)) :=
  let* d := _fields in getattr_all (od_keys d).

(** The descriptor currently stored under [k] (the loop variable [field]
    of the methods below). *)
Definition field (k : string) : Method DynamicStructField :=
  let* d := _fields in
  match od_get k d with
  | Some f => ret f
  | None => raise (not_defined k)
  end.

Definition _set_length : Method unit :=
  let* d := _fields in
  for_each (od_keys d) (fun k =>
    let* f := field k in
    if Schemas.match_length f
    then let* n := size in assign k (Schemas.set_value (PyInt n))
    else ret tt).

Definition _set_match_length_pack : Method unit :=
  let* d := _fields in
  for_each (od_keys d) (fun k =>
    let* f := field k in
    if Schemas.match_length f
    then let* n := lift (py_len (Schemas.value f)) in
         assign k (Schemas.set_length n)
    else ret tt).

Definition only_one : exn :=
  ValueError "Only one field can have match_length set to True".

Definition _set_match_length_unpack (buffer_length : Z) : Method unit :=
  let* d := _fields in
  let match_fields :=
    List.filter (fun kf => Schemas.match_length (snd kf)) d in
  if (1 <? Z.of_nat (List.length match_fields))
  then raise only_one
  else
    match match_fields with
    | [(k, _)] =>
        do assign k (Schemas.set_length 0) then
        let* n := size in
        assign k (Schemas.set_length (buffer_length - n))
    | _ => ret tt
    end.

Section Methods.

Variable cls : Class.

(** Instantiation with keyword arguments: the instance, or the exception
    that ended [__init__]. *)
Definition __init__ (kwargs : list (string * pyval)) : result OrderedDict :=
  let self :=
    od_of_pairs
      (map (fun k => (Schemas.name k, Schemas.replace k)) (fields cls)) in
  match for_each kwargs (fun kv => __setattr__ (fst kv) (snd kv)) self with
  | (self', Ok _) => Ok self'
  | (_, Raise e) => Raise e
  end.

(** [pack].  The class has no attribute [_set_match_length], so the
    lookup [self._set_match_length] goes through [__getattr__]; its result
    is then called.  [*self.values] spreads the keys of the dict. *)
Definition pack : Method (list byte) :=
  let* m := __getattr__ "_set_match_length" in
  let* _r := lift (py_call m) in
  do on_pack cls then
  let* fmt := struct in
  let* vs := values in
  lift (PyStruct.pack fmt (map (fun kv => PyStr (fst kv)) vs)).

Definition failed_to_validate : exn :=
  ValueError "Failed to validate instance".

(** [unpack]: [zip] pairs descriptors and decoded units as far as both
    go. *)
Definition unpack (buffer : list byte) (validate : bool) : Method unit :=
  do _set_match_length_unpack (Z.of_nat (List.length buffer)) then
  let* fmt := struct in
  let* vals := lift (PyStruct.unpack fmt buffer) in
  let* d := _fields in
  do for_each (combine (od_keys d) vals)
       (fun kv => assign (fst kv) (Schemas.set_value (snd kv))) then
  let* d' := _fields in
  if validate && negb (is_valid cls d')
  then raise failed_to_validate
  else ret tt.

Definition from_buffer (buffer : list byte) (validate : bool)
  : result OrderedDict :=
  rbind (__init__ [])
    (fun instance =>
       match unpack buffer validate instance with
       | (instance', Ok _) => Ok instance'
       | (_, Raise e) => Raise e
       end).

End Methods.

End DynamicStruct.

(* ================================================================== *)
(** ** Object identity                                                 *)
(* ================================================================== *)

(** Descriptors are objects.  The class attribute [fields] is one list of
    references shared by every instance; [self._fields] maps names to the
    references of the instance's own descriptors.  A method of
    [DynamicStruct] reads and assigns descriptors only through
    [self._fields], so it runs here on the descriptors [self] refers to
    and writes them back in place. *)
Module Objects.
Import DynamicStruct.

Abbreviation ref := positive.
Abbreviation Store := (gmap positive DynamicStructField).

Definition Instance : Type := odict ref.

Definition dangling : exn := Unmodelled "dangling reference".

(** A constructor call: a new object at an unused reference. *)
Definition alloc (f : DynamicStructField) : M Store ref :=
  fun h => let r := fresh (dom h) in (<[r := f]> h, Ok r).

(** Evaluating the list display of a class body:
    [fields = [DynamicStructField(...), ...]]. *)
Fixpoint alloc_all (fs : list DynamicStructField) : M Store (list ref) :=
  match fs with
  | [] => ret []
  | f :: rest =>
      let* r := alloc f in
      let* rs := alloc_all rest in
      ret (r :: rs)
  end.

Definition deref (r : ref) : M Store DynamicStructField :=
  fun h => match h !! r with
           | Some f => (h, Ok f)
           | None => (h, Raise dangling)
           end.

(** [dataclasses.replace(k)] on an object. *)
Definition replace (k : ref) : M Store ref :=
  let* f := deref k in alloc (Schemas.replace f).

(** The descriptors [self._fields] refers to. *)
Fixpoint load (self : Instance) (h : Store) : option OrderedDict :=
  match self with
  | [] => Some []
  | (k, r) :: rest =>
      match h !! r, load rest h with
      | Some f, Some d => Some ((k, f) :: d)
      | _, _ => None
      end
  end.

Fixpoint write_back (self : Instance) (d : OrderedDict) (h : Store) : Store :=
  match self, d with
  | (_, r) :: rest, (_, f) :: d' => write_back rest d' (<[r := f]> h)
  | _, _ => h
  end.

(** A method call [self.m(...)]. *)
Definition call {A} (m : Method A) (self : Instance) : M Store A :=
  fun h => match load self h with
           | Some d => let (d', res) := m d in (write_back self d' h, res)
           | None => (h, Raise dangling)
           end.

(** [OrderedDict((k.name, replace(k)) for k in self.fields)]. *)
Fixpoint clone_fields (templates : list ref) (acc : Instance)
  : M Store Instance :=
  match templates with
  | [] => ret acc
  | k :: rest =>
      let* f := deref k in
      let* r := replace k in
      clone_fields rest (od_set (Schemas.name f) r acc)
  end.

Definition __init__ (templates : list ref) (kwargs : list (string * pyval))
  : M Store Instance :=
  let* self := clone_fields templates [] in
  do for_each kwargs
       (fun kv => call (__setattr__ (fst kv) (snd kv)) self) then
  ret self.

(** What a client can do with an instance. *)
Inductive op : Type :=
| Assign (name : string) (value : pyval)
| Read (name : string)
| Pack
| Unpack (buffer : list byte) (validate : bool).

Definition run_op (cls : Class) (self : Instance) (o : op) (h : Store)
  : Store :=
  match o with
  | Assign name value => fst (call (__setattr__ name value) self h)
  | Read name => fst (call (__getattr__ name) self h)
  | Pack => fst (call (pack cls) self h)
  | Unpack buffer validate => fst (call (unpack cls buffer validate) self h)
  end.

Definition run_ops (cls : Class) (self : Instance) (ops : list op)
  (h : Store) : Store :=
  fold_left (fun h' o => run_op cls self o h') ops h.

End Objects.

(* ================================================================== *)
(** ** Vocabulary for the statements                                   *)
(* ================================================================== *)

Module Shape.
Import DynamicStruct.

(** The value the digit loop accumulates over a decimal numeral. *)
Fixpoint count (acc : Z) (d : Decimal.uint) : Z :=
  match d with
  | Decimal.Nil => acc
  | Decimal.D0 d => count (acc * 10 + 0) d
  | Decimal.D1 d => count (acc * 10 + 1) d
  | Decimal.D2 d => count (acc * 10 + 2) d
  | Decimal.D3 d => count (acc * 10 + 3) d
  | Decimal.D4 d => count (acc * 10 + 4) d
  | Decimal.D5 d => count (acc * 10 + 5) d
  | Decimal.D6 d => count (acc * 10 + 6) d
  | Decimal.D7 d => count (acc * 10 + 7) d
  | Decimal.D8 d => count (acc * 10 + 8) d
  | Decimal.D9 d => count (acc * 10 + 9) d
  end.

(** The table entry a descriptor selects when its [struct] attribute is a
    single code character. *)
Definition code_of (f : DynamicStructField) : option PyStruct.formatdef :=
  match Schemas.struct f with
  | String c EmptyString => PyStruct.getentry c
  | _ => None
  end.

Definition coded (f : DynamicStructField) : bool :=
  match code_of f with Some _ => true | None => false end.

(** A descriptor of the data model: one code character and a repeat count
    that is not negative. *)
Definition wf (f : DynamicStructField) : bool :=
  coded f && (0 <=? Schemas.length f).

Definition unit_size (f : DynamicStructField) : Z :=
  match code_of f with Some e => PyStruct.size e | None => 0 end.

Definition field_bytes (f : DynamicStructField) : Z :=
  Schemas.length f * unit_size f.

(** Total byte length of a run of descriptors: no padding between them. *)
Definition layout_bytes (fs : list DynamicStructField) : Z :=
  fold_right (fun f acc => field_bytes f + acc) 0 fs.

(** Aggregate size of the descriptors not marked match-length. *)
Definition static_size (d : OrderedDict) : Z :=
  layout_bytes
    (List.filter (fun f => negb (Schemas.match_length f)) (od_values d)).

Fixpoint codes_of (fs : list DynamicStructField) : list PyStruct.formatcode :=
  match fs with
  | [] => []
  | f :: rest =>
      match code_of f with
      | Some e => {| PyStruct.fmtdef := e; PyStruct.repeat := Schemas.length f |} :: codes_of rest
      | None => codes_of rest
      end
  end.

(** A descriptor that decodes to exactly one unit: a byte sequence of any
    length, a Pascal string with room for its length byte, or a single
    non-padding unit. *)
Definition one_unit (f : DynamicStructField) : bool :=
  match code_of f with
  | Some e =>
      match PyStruct.knd e with
      | PyStruct.Bytes => 0 <=? Schemas.length f
      | PyStruct.Pascal => 1 <=? Schemas.length f
      | PyStruct.Pad => false
      | _ => Schemas.length f =? 1
      end
  | None => false
  end.

(** A descriptor of the data model that [struct.unpack] reads without
    regard to the interpreter: not a Pascal string of count 0. *)
Definition readable (f : DynamicStructField) : bool :=
  match code_of f with
  | Some e =>
      match PyStruct.knd e with
      | PyStruct.Pascal => negb (Schemas.length f =? 0)
      | _ => true
      end
  | None => true
  end.

(** The size of a run of descriptors is a [Py_ssize_t]. *)
Definition fits (fs : list DynamicStructField) : bool :=
  layout_bytes fs <=? PyStruct.PY_SSIZE_T_MAX.

(** A [bytes] object: its length is a [Py_ssize_t]. *)
Definition is_bytes (b : list byte) : Prop :=
  Z.of_nat (List.length b) <= PyStruct.PY_SSIZE_T_MAX.

(** A descriptor whose [struct] attribute holds ASCII characters only,
    none of them null: what a format string may be made of. *)
Definition plain (f : DynamicStructField) : bool :=
  PyStruct.is_ascii (Schemas.struct f)
  && negb (PyStruct.has_null (Schemas.struct f)).

(** Positional assignment of decoded units to descriptors, as far as both
    lists go. *)
Fixpoint assign_values (d : OrderedDict) (vals : list pyval) : OrderedDict :=
  match d, vals with
  | (k, f) :: d', v :: vals' =>
      (k, Schemas.set_value v f) :: assign_values d' vals'
  | _, _ => d
  end.

(** The representation invariant of [self._fields]: keys are unique. *)
Definition is_odict {V} (d : odict V) : Prop := List.NoDup (od_keys d).

(** A descriptor of the data model whose repeat count, if it is the
    match-length one, is left to the engine. *)
Definition wf_static (f : DynamicStructField) : bool :=
  coded f && (Schemas.match_length f || (0 <=? Schemas.length f)).

(** The descriptors marked match-length, with their names. *)
Definition match_fields (d : OrderedDict) : OrderedDict :=
  List.filter (fun kf => Schemas.match_length (snd kf)) d.

(** The layout string of a run of descriptors. *)
Definition layout (fs : list DynamicStructField) : string :=
  (endian_struct ++ String.concat "" (map segment fs))%string.

End Shape.

(* ================================================================== *)
(** ** Message types used in examples                                  *)
(* ================================================================== *)

Module Examples.
Import DynamicStruct.

Definition hi : list byte := ["h"%byte; "i"%byte].

(** The message of the specification's example: [hello] (unsigned byte,
    default 1), [world] (unsigned byte), [payload] (byte sequence,
    match-length). *)
Definition HelloMessage : Class :=
  declare
    [ {| Schemas.name := "hello"; Schemas.struct := "B"; Schemas.length := 1;
         Schemas.default := PyInt 1; Schemas.value := PyNone;
         Schemas.match_length := false |};
      Schemas.new "world";
      {| Schemas.name := "payload"; Schemas.struct := "s"; Schemas.length := 1;
         Schemas.default := PyInt 0; Schemas.value := PyNone;
         Schemas.match_length := true |} ].

(** [HelloMessage(world=1, payload=b"hi")]. *)
Definition hello_kwargs : list (string * pyval) :=
  [("world", PyInt 1); ("payload", PyBytes hi)].

(** The instance [HelloMessage(world=1, payload=b"hi")], and the same
    after the pack-side match-length resolution. *)
Definition hello_m : OrderedDict :=
  Eval vm_compute in
    match __init__ HelloMessage hello_kwargs with
    | Ok m => m
    | Raise _ => []
    end.

Definition hello_resolved : OrderedDict :=
  Eval vm_compute in fst (_set_match_length_pack hello_m).

(** The four bytes [1, 1, 'h', 'i']. *)
Definition hello_bytes : list byte := [x01; x01; "h"%byte; "i"%byte].

(** Two unsigned bytes in one field, then one more. *)
Definition Pair : Class :=
  declare
    [ {| Schemas.name := "a"; Schemas.struct := "B"; Schemas.length := 2;
         Schemas.default := PyInt 0; Schemas.value := PyNone;
         Schemas.match_length := false |};
      Schemas.new "b" ].

(** [Pair] with a validation hook that always reports failure. *)
Definition RejectingPair : Class :=
  {| fields := fields Pair;
     on_pack := on_pack Pair;
     is_valid := fun _ => false |}.

(** One field whose default is not zero. *)
Definition Flag : Class :=
  declare
    [ {| Schemas.name := "hello"; Schemas.struct := "B"; Schemas.length := 1;
         Schemas.default := PyInt 1; Schemas.value := PyNone;
         Schemas.match_length := false |} ].

Definition bytes_field (name : string) : DynamicStructField :=
  {| Schemas.name := name; Schemas.struct := "s"; Schemas.length := 1;
     Schemas.default := PyInt 0; Schemas.value := PyNone;
     Schemas.match_length := true |}.

(** Two fields marked match-length. *)
Definition TwoPayloads : Class :=
  declare [bytes_field "head"; bytes_field "tail"].

(** The match-length field declared first. *)
Definition Leading : Class :=
  declare [bytes_field "payload"; Schemas.new "tail"].

End Examples.

Module ObjectExamples.
Import DynamicStruct Examples.

(** The store after the class statement of [HelloMessage], and the
    references its [fields] list holds. *)
Definition class_store : Objects.Store :=
  fst (Objects.alloc_all (fields HelloMessage) ∅).

Definition hello_templates : list Objects.ref :=
  match snd (Objects.alloc_all (fields HelloMessage) ∅) with
  | Ok ts => ts
  | Raise _ => []
  end.

(** [first = HelloMessage(world=1, payload=b"hi")], then
    [second = HelloMessage()]. *)
Definition store1 : Objects.Store :=
  fst (Objects.__init__ hello_templates hello_kwargs class_store).

Definition first : Objects.Instance :=
  match snd (Objects.__init__ hello_templates hello_kwargs class_store) with
  | Ok i => i
  | Raise _ => []
  end.

Definition store2 : Objects.Store :=
  fst (Objects.__init__ hello_templates [] store1).

Definition second : Objects.Instance :=
  match snd (Objects.__init__ hello_templates [] store1) with
  | Ok i => i
  | Raise _ => []
  end.

Definition some_ops : list Objects.op :=
  [ Objects.Assign "world" (PyInt 7);
    Objects.Unpack hello_bytes true;
    Objects.Pack;
    Objects.Read "hello" ].

End ObjectExamples.

(* ================================================================== *)
(** ** Vocabulary for the frame and decoding properties                *)
(* ================================================================== *)

Module Frame.
Import DynamicStruct Shape.

(** What reading a field answers: [value or default]. *)
Definition effective (f : DynamicStructField) : pyval :=
  py_or (Schemas.value f) (Schemas.default f).

(** The same function applied to every descriptor, keys kept. *)
Definition od_map (g : DynamicStructField -> DynamicStructField)
  (d : OrderedDict) : OrderedDict :=
  map (fun kf => (fst kf, g (snd kf))) d.

(** What [_set_length] leaves in a descriptor when the size is [n]. *)
Definition stamp (n : Z) (f : DynamicStructField) : DynamicStructField :=
  if Schemas.match_length f then Schemas.set_value (PyInt n) f else f.

(** What [_set_match_length_pack] leaves in a descriptor. *)
Definition resolve_pack (f : DynamicStructField) : DynamicStructField :=
  if Schemas.match_length f
  then match py_len (Schemas.value f) with
       | Ok n => Schemas.set_length n f
       | Raise _ => f
       end
  else f.

(** A match-length descriptor whose value has a length. *)
Definition sized (f : DynamicStructField) : bool :=
  negb (Schemas.match_length f)
  || match py_len (Schemas.value f) with Ok _ => true | Raise _ => false end.

(** Two descriptors that differ at most in their value, and in their
    repeat count if they are match-length ones. *)
Definition same_declaration (f f' : DynamicStructField) : Prop :=
  Schemas.name f' = Schemas.name f
  /\ Schemas.struct f' = Schemas.struct f
  /\ Schemas.default f' = Schemas.default f
  /\ Schemas.match_length f' = Schemas.match_length f
  /\ (Schemas.match_length f = false -> Schemas.length f' = Schemas.length f).

(** Two instances with the same keys in the same order and, key by key,
    the same declaration. *)
Definition same_schema (d d' : OrderedDict) : Prop :=
  Forall2 (fun kf kf' => fst kf' = fst kf
                         /\ same_declaration (snd kf) (snd kf')) d d'.

(** The unit a one-unit descriptor decodes from its own bytes. *)
Definition decode_field (f : DynamicStructField) (chunk : list byte) : pyval :=
  match code_of f with
  | Some e =>
      match PyStruct.knd e with
      | PyStruct.Bytes => PyBytes chunk
      | PyStruct.Pascal => PyStruct.unpack_pascal chunk
      | _ => PyStruct.unpack_one e chunk
      end
  | None => PyNone
  end.

(** Each descriptor decodes the bytes at its own offset. *)
Fixpoint decode_fields (fs : list DynamicStructField) (buf : list byte)
  : list pyval :=
  match fs with
  | [] => []
  | f :: rest =>
      let n := Z.to_nat (field_bytes f) in
      decode_field f (take n buf) :: decode_fields rest (drop n buf)
  end.

(** The last template declared under a name. *)
Definition last_declared (k : string) (fs : list DynamicStructField)
  : option DynamicStructField :=
  List.find (fun f => String.eqb k (Schemas.name f)) (rev fs).

(** Some descriptor is marked match-length. *)
Definition has_match_length (d : OrderedDict) : bool :=
  existsb (fun kf => Schemas.match_length (snd kf)) d.

End Frame.

Module MoreExamples.
Import DynamicStruct.

(** A fixed-size message: a 16-bit unsigned [magic], a signed byte
    [level] and a three-byte [tag]. *)
Definition Header : Class :=
  declare
    [ {| Schemas.name := "magic"; Schemas.struct := "H"; Schemas.length := 1;
         Schemas.default := PyInt 0; Schemas.value := PyNone;
         Schemas.match_length := false |};
      {| Schemas.name := "level"; Schemas.struct := "b"; Schemas.length := 1;
         Schemas.default := PyInt 0; Schemas.value := PyNone;
         Schemas.match_length := false |};
      {| Schemas.name := "tag"; Schemas.struct := "s"; Schemas.length := 3;
         Schemas.default := PyBytes []; Schemas.value := PyNone;
         Schemas.match_length := false |} ].

(** [Header()]. *)
Definition header_m : OrderedDict :=
  Eval vm_compute in
    match __init__ Header [] with
    | Ok m => m
    | Raise _ => []
    end.

(** [02 01 ff 'a' 'b' 'c']: magic 258, level -1, tag b"abc". *)
Definition header_bytes : list byte :=
  [x02; x01; xff; "a"%byte; "b"%byte; "c"%byte].

(** Two pad bytes, then an unsigned byte [n], with a validation hook that
    always reports failure. *)
Definition RejectingPadded : Class :=
  {| fields :=
       [ {| Schemas.name := "pad"; Schemas.struct := "x"; Schemas.length := 2;
            Schemas.default := PyInt 0; Schemas.value := PyNone;
            Schemas.match_length := false |};
         Schemas.new "n" ];
     on_pack := ret tt;
     is_valid := fun _ => false |}.

(** A message whose [count] has a negative repeat count. *)
Definition negative_m : OrderedDict :=
  [ ("kind", Schemas.new "kind");
    ("count", Schemas.set_length (-2) (Schemas.new "count")) ].

(** The example message before any value is given to [payload]. *)
Definition hello_fresh : OrderedDict :=
  Eval vm_compute in
    match __init__ Examples.HelloMessage [] with
    | Ok m => m
    | Raise _ => []
    end.

End MoreExamples.

(* ================================================================== *)
(** ** Facts about the format scanner                                  *)
(* ================================================================== *)

Module PyStructFacts.
Import PyStruct Shape.

(** A code character is neither white space nor a digit. *)
Lemma getentry_plain c e :
  getentry c = Some e -> isspace c = false /\ isdigit c = false.
Proof.
  destruct c as [[] [] [] [] [] [] [] []]; vm_compute;
    intros H; try discriminate H; split; reflexivity.
Qed.

(** A code character is ASCII and not the null character. *)
Lemma getentry_ascii c e :
  getentry c = Some e ->
  (N_of_ascii c <? 128)%N = true /\ (N_of_ascii c =? 0)%N = false.
Proof.
  destruct c as [[] [] [] [] [] [] [] []]; vm_compute;
    intros H; try discriminate H; split; reflexivity.
Qed.

Lemma getentry_format c e : getentry c = Some e -> format e = c.
Proof.
  unfold getentry. intros H. apply find_some in H as [_ H].
  now apply Ascii.eqb_eq in H.
Qed.

Lemma getentry_size_pos c e : getentry c = Some e -> 0 < size e.
Proof.
  unfold getentry. intros H. apply find_some in H as [H _].
  simpl in H. repeat (destruct H as [<- | H]; [reflexivity |]). destruct H.
Qed.

(** *** The two overflow guards *)

Lemma count_overflows_spec n d :
  0 <= d <= 9 ->
  count_overflows n d = negb (n * 10 + d <=? PY_SSIZE_T_MAX).
Proof.
  intros Hd. unfold count_overflows.
  change (PY_SSIZE_T_MAX / 10) with 922337203685477580.
  change (PY_SSIZE_T_MAX mod 10) with 7.
  unfold PY_SSIZE_T_MAX.
  destruct (Z.leb_spec 922337203685477580 n);
    destruct (Z.ltb_spec 922337203685477580 n);
    destruct (Z.ltb_spec 7 d);
    destruct (Z.leb_spec (n * 10 + d) 9223372036854775807);
    cbn; try reflexivity; lia.
Qed.

Lemma size_overflows_spec total n b :
  0 < b ->
  size_overflows total n b = negb (total + n * b <=? PY_SSIZE_T_MAX).
Proof.
  intros Hb. unfold size_overflows.
  pose proof (Z.mul_div_le (PY_SSIZE_T_MAX - total) b Hb) as Hlo.
  pose proof (Z.mul_succ_div_gt (PY_SSIZE_T_MAX - total) b Hb) as Hhi.
  destruct (Z.ltb_spec ((PY_SSIZE_T_MAX - total) / b) n);
    destruct (Z.leb_spec (total + n * b) PY_SSIZE_T_MAX);
    cbn; try reflexivity; exfalso; nia.
Qed.

Lemma digit_range c : isdigit c = true -> 0 <= digit c <= 9.
Proof.
  unfold isdigit, digit. intros H. apply andb_true_iff in H as [H1 H2].
  apply N.leb_le in H1, H2. lia.
Qed.

(** Scanning a code character, with or without a pending count. *)
Lemma prepare_code total num c e rest :
  getentry c = Some e ->
  let n := match num with None => 1 | Some n => n end in
  prepare total num (String c rest) =
  if total + n * size e <=? PY_SSIZE_T_MAX
  then rbind (prepare (total + n * size e) None rest)
             (fun codes => Ok ({| fmtdef := e; repeat := n |} :: codes))
  else Raise (StructError too_long).
Proof.
  intros H n. destruct (getentry_plain _ _ H) as [Hs Hd].
  cbn [prepare]. rewrite Hs, Hd, H.
  replace (if match num with None => false | Some _ => false end
           then prepare total None rest else _)
    with (if size_overflows total n (size e)
          then Raise (StructError too_long)
          else rbind (prepare (total + n * size e) None rest)
                 (fun codes => Ok ({| fmtdef := e; repeat := n |} :: codes)))
    by (now destruct num).
  rewrite (size_overflows_spec _ _ _ (getentry_size_pos _ _ H)).
  now destruct (_ <=? _).
Qed.

Lemma prepare_digit total acc c s :
  isdigit c = true ->
  prepare total (Some acc) (String c s) =
  if acc * 10 + digit c <=? PY_SSIZE_T_MAX
  then prepare total (Some (acc * 10 + digit c)) s
  else Raise (StructError too_long).
Proof.
  intros H. cbn [prepare]. rewrite H.
  rewrite (count_overflows_spec _ _ (digit_range _ H)).
  now destruct (_ <=? _).
Qed.

Lemma of_lu_rev_digit d :
  Unsigned.of_lu (Decimal.rev d) =
  (Unsigned.of_lu (Decimal.rev (Unsigned.tl d))
   + Unsigned.hd d * 10 ^ Unsigned.usize (Unsigned.tl d))%N.
Proof.
  destruct d; unfold Decimal.rev at 1; cbn [Decimal.revapp];
    try (rewrite Unsigned.of_lu_revapp; reflexivity).
  reflexivity.
Qed.

Lemma count_value d : forall acc,
  count acc d =
  acc * 10 ^ Z.of_N (Unsigned.usize d)
  + Z.of_N (Unsigned.of_lu (Decimal.rev d)).
Proof.
  induction d; intros acc;
    try (cbn [count]; rewrite IHd, (of_lu_rev_digit (_ d));
         cbn [Unsigned.tl Unsigned.hd Unsigned.usize];
         rewrite N2Z.inj_succ, Z.pow_succ_r by apply N2Z.is_nonneg;
         rewrite N2Z.inj_add, N2Z.inj_mul, N2Z.inj_pow;
         change (Z.of_N 10) with 10; simpl Z.of_N at 2; ring).
  simpl. ring.
Qed.

(** The digit loop never lowers the count. *)
Lemma count_ge d : forall acc, 0 <= acc -> acc <= count acc d.
Proof.
  induction d; intros acc H; cbn [count]; [lia | ..];
    (etransitivity; [| apply IHd]; lia).
Qed.

(** Scanning the remaining digits of a count, then its code: the count
    is refused as soon as it leaves [Py_ssize_t]. *)
Lemma prepare_digits d : forall total acc c e rest,
  getentry c = Some e ->
  0 <= acc <= PY_SSIZE_T_MAX ->
  prepare total (Some acc) (NilEmpty.string_of_uint d ++ String c rest)%string =
  if count acc d <=? PY_SSIZE_T_MAX
  then prepare total (Some (count acc d)) (String c rest)
  else Raise (StructError too_long).
Proof.
  induction d; intros total acc c e rest H Hacc;
    try (cbn [NilEmpty.string_of_uint count];
         match goal with
         | |- context [(String ?a ?x ++ ?y)%string] =>
             change (String a x ++ y)%string with (String a (x ++ y)%string)
         end;
         rewrite prepare_digit by reflexivity;
         match goal with
         | |- context [acc * 10 + digit ?a] =>
             change (digit a) with (Z.of_N (N_of_ascii a) - 48);
             set (k := Z.of_N (N_of_ascii a) - 48);
             assert (Hk : 0 <= k <= 9) by (subst k; cbn; lia);
             match goal with
             | |- context [count (acc * 10 + ?j) d] =>
                 change j with k
             end
         end;
         destruct (Z.leb_spec (acc * 10 + k) PY_SSIZE_T_MAX) as [Hle | Hgt];
         [ apply (IHd _ _ c e rest H); lia
         | pose proof (count_ge d (acc * 10 + k) ltac:(lia));
           destruct (Z.leb_spec (count (acc * 10 + k) d) PY_SSIZE_T_MAX);
           [lia | reflexivity] ]).
  cbn [NilEmpty.string_of_uint count].
  change ("" ++ String c rest)%string with (String c rest).
  destruct (Z.leb_spec acc PY_SSIZE_T_MAX); [reflexivity | lia].
Qed.

Lemma prepare_start total d s :
  d <> Decimal.Nil ->
  prepare total None (NilEmpty.string_of_uint d ++ s)%string =
  prepare total (Some 0) (NilEmpty.string_of_uint d ++ s)%string.
Proof. destruct d; intros H; [now destruct H | reflexivity ..]. Qed.

Lemma count_to_uint n :
  0 <= n -> count 0 (N.to_uint (Z.to_N n)) = n.
Proof.
  intros H. rewrite count_value, Z.mul_0_l, Z.add_0_l.
  rewrite <- Unsigned.of_uint_alt.
  change (Pos.of_uint ?d) with (N.of_uint d).
  rewrite DecimalN.Unsigned.of_to. now apply Z2N.id.
Qed.

Lemma str_nonneg n :
  0 <= n -> str n = NilEmpty.string_of_uint (N.to_uint (Z.to_N n)).
Proof. destruct n; intros H; [reflexivity | reflexivity | lia]. Qed.

Lemma to_uint_not_nil n : N.to_uint n <> Decimal.Nil.
Proof.
  destruct n; [discriminate |]. apply Unsigned.to_uint_nonnil.
Qed.

(** A printed count followed by a code scans to that count of that code,
    unless the size leaves [Py_ssize_t]. *)
Lemma prepare_count total n c e rest :
  0 <= total -> 0 <= n -> getentry c = Some e ->
  prepare total None (str n ++ String c rest)%string =
  if total + n * size e <=? PY_SSIZE_T_MAX
  then rbind (prepare (total + n * size e) None rest)
             (fun codes => Ok ({| fmtdef := e; repeat := n |} :: codes))
  else Raise (StructError too_long).
Proof.
  intros Ht Hn He. rewrite (str_nonneg n Hn).
  rewrite prepare_start by apply to_uint_not_nil.
  rewrite (prepare_digits _ _ _ _ _ _ He)
    by (unfold PY_SSIZE_T_MAX; lia).
  rewrite (count_to_uint n Hn).
  pose proof (getentry_size_pos _ _ He) as Hs.
  destruct (Z.leb_spec n PY_SSIZE_T_MAX) as [Hle | Hgt].
  - apply (prepare_code total (Some n) c e rest He).
  - destruct (Z.leb_spec (total + n * size e) PY_SSIZE_T_MAX);
      [nia | reflexivity].
Qed.

(** A printed negative count stops the scanner at its sign. *)
Lemma prepare_negative total n rest :
  n < 0 ->
  prepare total None (str n ++ rest)%string = Raise (StructError bad_char).
Proof. destruct n; intros H; try lia. reflexivity. Qed.

(** *** The checks that precede the scan *)

Lemma is_ascii_app a b : is_ascii (a ++ b) = is_ascii a && is_ascii b.
Proof.
  induction a as [| c a IH]; [reflexivity |].
  change (String c a ++ b)%string with (String c (a ++ b)%string).
  cbn [is_ascii]. now rewrite IH, andb_assoc.
Qed.

Lemma has_null_app a b : has_null (a ++ b) = has_null a || has_null b.
Proof.
  induction a as [| c a IH]; [reflexivity |].
  change (String c a ++ b)%string with (String c (a ++ b)%string).
  cbn [has_null]. now rewrite IH, orb_assoc.
Qed.

Lemma string_of_uint_plain d :
  is_ascii (NilEmpty.string_of_uint d) = true
  /\ has_null (NilEmpty.string_of_uint d) = false.
Proof.
  induction d; cbn [NilEmpty.string_of_uint is_ascii has_null];
    [now split | ..]; destruct IHd as [-> ->]; split; reflexivity.
Qed.

(** A printed integer is made of ASCII characters, none of them null. *)
Lemma str_plain n : is_ascii (str n) = true /\ has_null (str n) = false.
Proof.
  unfold str. destruct (Z.to_int n) as [d | d];
    cbn [NilEmpty.string_of_int is_ascii has_null];
    destruct (string_of_uint_plain d) as [-> ->]; split; reflexivity.
Qed.

(** The model on a few formats. *)
Example calcsize_mixed : calcsize "<h 2H3xq?5p" = Ok 23.
Proof. reflexivity. Qed.

Example calcsize_space_after_count :
  calcsize "<2 B" = Raise (StructError bad_char).
Proof. reflexivity. Qed.

Example calcsize_dangling_count :
  calcsize "<2" = Raise (StructError repeat_without_format).
Proof. reflexivity. Qed.

Example calcsize_largest : calcsize "<4611686018427387903Hx" = Ok PY_SSIZE_T_MAX.
Proof. reflexivity. Qed.

Example calcsize_too_long :
  calcsize "<4611686018427387903Hxx" = Raise (StructError too_long)
  /\ calcsize "<9223372036854775808x" = Raise (StructError too_long)
  /\ calcsize "<99999999999999999999?" = Raise (StructError too_long).
Proof. repeat split; reflexivity. Qed.

Example calcsize_checks_before_scanning :
  calcsize ("<-1" ++ String zero "") = Raise (StructError embedded_null)
  /\ calcsize ("<-2B" ++ String (ascii_of_nat 128) "") = Raise UnicodeEncodeError.
Proof. split; reflexivity. Qed.

Example unpack_mixed :
  unpack "<h2H?3s" [xff; xff; x01; x00; x02; x01; x05; "a"; "b"; "c"]%byte
  = Ok [PyInt (-1); PyInt 1; PyInt 258; PyBool true;
        PyBytes ["a"; "b"; "c"]%byte].
Proof. reflexivity. Qed.

Example unpack_short_buffer :
  unpack "<BB" [x01] = Raise (StructError (wrong_buffer_size 2)).
Proof. reflexivity. Qed.

Example pack_mixed :
  pack "<hQ3p" [PyInt (-2); PyInt 258; PyBytes ["a"; "b"; "c"; "d"]%byte]
  = Ok [xfe; xff; x02; x01; x00; x00; x00; x00; x00; x00; x02; "a"; "b"]%byte.
Proof. reflexivity. Qed.

Example pack_out_of_range :
  pack "<B" [PyInt 256] = Raise (StructError out_of_range).
Proof. reflexivity. Qed.

End PyStructFacts.

(* ================================================================== *)
(** ** Facts about layouts                                             *)
(* ================================================================== *)

Module LayoutFacts.
Import DynamicStruct Shape PyStructFacts.

Lemma append_cons a (s t : string) :
  (String a s ++ t = String a (s ++ t))%string.
Proof. reflexivity. Qed.

Lemma append_assoc (a b c : string) :
  ((a ++ b) ++ c = a ++ (b ++ c))%string.
Proof.
  induction a; [reflexivity | now rewrite !append_cons, IHa].
Qed.

Lemma append_nil_r (a : string) : (a ++ "" = a)%string.
Proof. induction a; [reflexivity | now rewrite append_cons, IHa]. Qed.

Lemma concat_cons x xs :
  String.concat "" (x :: xs) = (x ++ String.concat "" xs)%string.
Proof. destruct xs; simpl; [now rewrite append_nil_r | reflexivity]. Qed.

Lemma code_of_struct f e :
  code_of f = Some e ->
  exists c, Schemas.struct f = String c "" /\ PyStruct.getentry c = Some e.
Proof.
  unfold code_of. destruct (Schemas.struct f) as [| c [| ? ?]];
    try discriminate. eauto.
Qed.

Lemma wf_inv f :
  wf f = true -> exists e, code_of f = Some e /\ 0 <= Schemas.length f.
Proof.
  unfold wf, coded. destruct (code_of f) as [e |]; [| discriminate].
  simpl. intros H. exists e. split; [reflexivity | lia].
Qed.

Lemma wf_coded f : wf f = true -> coded f = true.
Proof. unfold wf. intros H. now apply andb_true_iff in H as [H _]. Qed.

Lemma field_bytes_code f e :
  code_of f = Some e -> field_bytes f = Schemas.length f * PyStruct.size e.
Proof. intros H. unfold field_bytes, unit_size. now rewrite H. Qed.

Lemma field_bytes_nonneg f : wf f = true -> 0 <= field_bytes f.
Proof.
  intros H. destruct (wf_inv _ H) as (e & He & Hn).
  rewrite (field_bytes_code _ _ He).
  destruct (code_of_struct _ _ He) as (c & _ & Hc).
  pose proof (getentry_size_pos _ _ Hc). nia.
Qed.

Lemma layout_bytes_cons f fs :
  layout_bytes (f :: fs) = field_bytes f + layout_bytes fs.
Proof. reflexivity. Qed.

Lemma layout_bytes_nonneg fs :
  Forall (fun f => wf f = true) fs -> 0 <= layout_bytes fs.
Proof.
  induction 1 as [| f fs Hf _ IH]; [reflexivity |].
  rewrite layout_bytes_cons. pose proof (field_bytes_nonneg _ Hf). lia.
Qed.

(** One segment of a well-formed descriptor scans to its code, unless the
    running size leaves [Py_ssize_t]. *)
Lemma prepare_segment total f e rest :
  code_of f = Some e -> 0 <= Schemas.length f -> 0 <= total ->
  PyStruct.prepare total None (segment f ++ rest)%string =
  if total + field_bytes f <=? PyStruct.PY_SSIZE_T_MAX
  then rbind (PyStruct.prepare (total + field_bytes f) None rest)
         (fun codes =>
            Ok ({| PyStruct.fmtdef := e; PyStruct.repeat := Schemas.length f |}
                  :: codes))
  else Raise (StructError too_long).
Proof.
  intros He Hn Ht. destruct (code_of_struct _ _ He) as (c & Hs & Hc).
  rewrite (field_bytes_code _ _ He).
  unfold segment. rewrite Hs, append_assoc.
  change (String c "" ++ rest)%string with (String c rest).
  destruct (Z.eqb_spec (Schemas.length f) 1) as [-> | Hne].
  - apply (prepare_code total None _ _ _ Hc).
  - now apply prepare_count.
Qed.

Lemma prepare_segment_negative total f rest :
  Schemas.length f < 0 ->
  PyStruct.prepare total None (segment f ++ rest)%string =
  Raise (StructError bad_char).
Proof.
  intros Hn. unfold segment.
  destruct (Z.eqb_spec (Schemas.length f) 1) as [E | _]; [lia |].
  rewrite append_assoc. now apply prepare_negative.
Qed.

Lemma codes_of_app fs gs : codes_of (fs ++ gs) = codes_of fs ++ codes_of gs.
Proof.
  induction fs as [| f fs IH]; simpl; [reflexivity |].
  destruct (code_of f); simpl; now rewrite IH.
Qed.

(** Segments of well-formed descriptors scan one after the other, up to
    the first one that takes the running size out of [Py_ssize_t]. *)
Lemma prepare_prefix fs : forall total gs,
  Forall (fun f => wf f = true) fs ->
  0 <= total <= PyStruct.PY_SSIZE_T_MAX ->
  PyStruct.prepare total None (String.concat "" (map segment (fs ++ gs))) =
  if total + layout_bytes fs <=? PyStruct.PY_SSIZE_T_MAX
  then rbind (PyStruct.prepare (total + layout_bytes fs) None
                (String.concat "" (map segment gs)))
         (fun codes => Ok (codes_of fs ++ codes))
  else Raise (StructError too_long).
Proof.
  induction fs as [| f fs IH]; intros total gs H Ht.
  - cbn [List.app layout_bytes fold_right codes_of]. rewrite Z.add_0_r.
    destruct (Z.leb_spec total PyStruct.PY_SSIZE_T_MAX); [| lia].
    now destruct (PyStruct.prepare total None _).
  - inversion H as [| ? ? Hf Hfs]; subst.
    destruct (wf_inv _ Hf) as (e & He & Hn).
    pose proof (field_bytes_nonneg _ Hf) as Hb.
    pose proof (layout_bytes_nonneg _ Hfs) as Hl.
    cbn [List.app map]. rewrite concat_cons.
    rewrite (prepare_segment _ _ _ _ He Hn) by lia.
    rewrite layout_bytes_cons.
    destruct (Z.leb_spec (total + field_bytes f) PyStruct.PY_SSIZE_T_MAX)
      as [Hle | Hgt].
    + rewrite (IH _ gs Hfs) by lia. rewrite Z.add_assoc.
      destruct (_ <=? _); [| reflexivity].
      cbn [codes_of]. rewrite He.
      now destruct (PyStruct.prepare _ None _).
    + destruct (Z.leb_spec (total + (field_bytes f + layout_bytes fs))
                  PyStruct.PY_SSIZE_T_MAX); [lia | reflexivity].
Qed.

(** *** The checks that precede the scan *)

Lemma coded_plain f : coded f = true -> plain f = true.
Proof.
  unfold coded, plain. destruct (code_of f) as [e |] eqn:He; [| discriminate].
  intros _. destruct (code_of_struct _ _ He) as (c & Hs & Hc).
  destruct (getentry_ascii _ _ Hc) as [Ha Hz].
  rewrite Hs. cbn [PyStruct.is_ascii PyStruct.has_null].
  now rewrite Ha, Hz.
Qed.

Lemma segment_plain f :
  plain f = true ->
  PyStruct.is_ascii (segment f) = true
  /\ PyStruct.has_null (segment f) = false.
Proof.
  unfold plain. intros H. apply andb_true_iff in H as [Ha Hz].
  apply negb_true_iff in Hz.
  unfold segment. rewrite is_ascii_app, has_null_app, Ha, Hz.
  destruct (Schemas.length f =? 1); [now split |].
  destruct (str_plain (Schemas.length f)) as [-> ->]. now split.
Qed.

Lemma segments_plain fs :
  Forall (fun f => plain f = true) fs ->
  PyStruct.is_ascii (String.concat "" (map segment fs)) = true
  /\ PyStruct.has_null (String.concat "" (map segment fs)) = false.
Proof.
  induction 1 as [| f fs Hf _ [IH1 IH2]]; [now split |].
  cbn [map]. rewrite concat_cons, is_ascii_app, has_null_app, IH1, IH2.
  destruct (segment_plain _ Hf) as [-> ->]. now split.
Qed.

(** The layout of plain descriptors passes the checks on its characters
    and reaches the scanner. *)
Lemma prepare_s_layout fs :
  Forall (fun f => plain f = true) fs ->
  PyStruct.prepare_s (layout fs)
  = PyStruct.prepare 0 None (String.concat "" (map segment fs)).
Proof.
  intros H. destruct (segments_plain _ H) as [Ha Hz].
  unfold layout, endian_struct. rewrite append_cons.
  change ("" ++ ?x)%string with x.
  unfold PyStruct.prepare_s. cbn [PyStruct.is_ascii PyStruct.has_null].
  rewrite Ha, Hz. reflexivity.
Qed.

Lemma wf_all_plain fs :
  Forall (fun f => wf f = true) fs -> Forall (fun f => plain f = true) fs.
Proof.
  apply List.Forall_impl. intros f H. now apply coded_plain, wf_coded.
Qed.

(** A negative repeat count after well-formed descriptors stops the
    scanner at its sign, unless the size has left [Py_ssize_t] before. *)
Lemma prepare_s_negative fs f gs :
  Forall (fun g => wf g = true) fs ->
  Forall (fun g => plain g = true) (f :: gs) ->
  Schemas.length f < 0 ->
  PyStruct.prepare_s (layout (fs ++ f :: gs))
  = Raise (StructError (if fits fs then bad_char else too_long)).
Proof.
  intros Hw Hp Hn.
  rewrite prepare_s_layout
    by (apply Forall_app; split; [now apply wf_all_plain | exact Hp]).
  rewrite (prepare_prefix fs 0 _ Hw) by (unfold PyStruct.PY_SSIZE_T_MAX; lia).
  rewrite Z.add_0_l. unfold fits.
  destruct (_ <=? _); [| reflexivity].
  cbn [map]. rewrite concat_cons.
  now rewrite prepare_segment_negative.
Qed.

Lemma prepare_layout fs :
  Forall (fun f => wf f = true) fs ->
  PyStruct.prepare_s (layout fs)
  = if fits fs then Ok (codes_of fs) else Raise (StructError too_long).
Proof.
  intros H. rewrite (prepare_s_layout _ (wf_all_plain _ H)).
  rewrite <- (app_nil_r fs) at 1.
  rewrite (prepare_prefix fs 0 [] H) by (unfold PyStruct.PY_SSIZE_T_MAX; lia).
  rewrite Z.add_0_l. unfold fits.
  destruct (_ <=? _); [| reflexivity].
  cbn. now rewrite app_nil_r.
Qed.

Lemma total_size_app cs ds :
  PyStruct.total_size (cs ++ ds) = PyStruct.total_size cs + PyStruct.total_size ds.
Proof.
  induction cs as [| c cs IH]; simpl; [reflexivity |].
  unfold PyStruct.total_size in *. simpl. rewrite IH. ring.
Qed.

Lemma layout_bytes_app fs gs :
  layout_bytes (fs ++ gs) = layout_bytes fs + layout_bytes gs.
Proof.
  induction fs as [| f fs IH]; simpl; [reflexivity |].
  unfold layout_bytes in *. simpl. rewrite IH. ring.
Qed.

Lemma total_size_codes fs :
  PyStruct.total_size (codes_of fs) = layout_bytes fs.
Proof.
  induction fs as [| f fs IH]; [reflexivity |].
  unfold layout_bytes, field_bytes, unit_size in *. cbn [codes_of fold_right].
  destruct (code_of f) as [e |].
  - unfold PyStruct.total_size in *. cbn [fold_right]. rewrite IH.
    reflexivity.
  - rewrite IH. ring.
Qed.

(** [calcsize] of the layout of well-formed descriptors: their total
    byte length when it is a [Py_ssize_t], [struct.error] otherwise. *)
Lemma calcsize_layout fs :
  Forall (fun f => wf f = true) fs ->
  PyStruct.calcsize (layout fs)
  = if fits fs then Ok (layout_bytes fs) else Raise (StructError too_long).
Proof.
  intros H. unfold PyStruct.calcsize. rewrite (prepare_layout fs H).
  destruct (fits fs); [| reflexivity].
  simpl. now rewrite total_size_codes.
Qed.

Lemma calcsize_layout_fits fs :
  Forall (fun f => wf f = true) fs ->
  fits fs = true ->
  PyStruct.calcsize (layout fs) = Ok (layout_bytes fs).
Proof. intros H Hf. now rewrite (calcsize_layout _ H), Hf. Qed.

Lemma prepare_layout_fits fs :
  Forall (fun f => wf f = true) fs ->
  fits fs = true ->
  PyStruct.prepare_s (layout fs) = Ok (codes_of fs).
Proof. intros H Hf. now rewrite (prepare_layout _ H), Hf. Qed.

Lemma fits_le fs : fits fs = true <-> layout_bytes fs <= PyStruct.PY_SSIZE_T_MAX.
Proof. unfold fits. apply Z.leb_le. Qed.

End LayoutFacts.

(* ================================================================== *)
(** ** Facts about the engine                                          *)
(* ================================================================== *)

Module EngineFacts.
Import DynamicStruct Shape PyStructFacts LayoutFacts.

Ltac run := unfold _fields, bind, ret, raise, get, put, lift in *.

Lemma od_keys_app {V} (a b : odict V) : od_keys (a ++ b) = od_keys a ++ od_keys b.
Proof. apply map_app. Qed.

Lemma od_values_app {V} (a b : odict V) :
  od_values (a ++ b) = od_values a ++ od_values b.
Proof. apply map_app. Qed.

Lemma od_get_skip {V} k (pre d : odict V) :
  ~ In k (od_keys pre) -> od_get k (pre ++ d) = od_get k d.
Proof.
  induction pre as [| [k' v] pre IH]; intros H; [reflexivity |].
  simpl in *. destruct (String.eqb_spec k k') as [-> | _].
  - exfalso. apply H. now left.
  - apply IH. intros Hin. apply H. now right.
Qed.

Lemma od_get_here {V} k v (pre d : odict V) :
  ~ In k (od_keys pre) -> od_get k (pre ++ (k, v) :: d) = Some v.
Proof.
  intros H. rewrite (od_get_skip _ _ _ H). simpl.
  now rewrite String.eqb_refl.
Qed.

Lemma od_get_in {V} k (d : odict V) : In k (od_keys d) <-> od_in k d = true.
Proof.
  unfold od_in. induction d as [| [k' v] d IH]; simpl.
  - split; [tauto | discriminate].
  - destruct (String.eqb_spec k k') as [-> | Hne]; [tauto |].
    rewrite <- IH. split; [intros [E | H]; [congruence | exact H] | tauto].
Qed.

Lemma od_alter_keys g k d : od_keys (od_alter g k d) = od_keys d.
Proof.
  induction d as [| [k' f] d IH]; [reflexivity |].
  simpl. destruct (String.eqb k k'); simpl; [reflexivity | now rewrite IH].
Qed.

Lemma od_alter_here g k f pre d :
  ~ In k (od_keys pre) ->
  od_alter g k (pre ++ (k, f) :: d) = pre ++ (k, g f) :: d.
Proof.
  induction pre as [| [k' v] pre IH]; intros H; simpl in *.
  - now rewrite String.eqb_refl.
  - destruct (String.eqb_spec k k') as [-> | _].
    + exfalso. apply H. now left.
    + rewrite IH; [reflexivity |]. intros Hin. apply H. now right.
Qed.

Lemma is_odict_split {V} (pre d : odict V) k v :
  is_odict (pre ++ (k, v) :: d) -> ~ In k (od_keys pre).
Proof.
  unfold is_odict. rewrite od_keys_app. simpl. intros H Hin.
  apply NoDup_remove_2 in H. apply H. apply in_or_app. now left.
Qed.

Lemma assign_values_keys d : forall vals,
  od_keys (assign_values d vals) = od_keys d.
Proof.
  induction d as [| [k f] d IH]; intros [| v vals]; simpl; try reflexivity.
  now rewrite IH.
Qed.

Lemma assign_run k g d : assign k g d = (od_alter g k d, Ok tt).
Proof. reflexivity. Qed.

(** The assignment loop of [unpack] is the positional assignment. *)
Lemma assign_loop d : forall pre vals,
  is_odict (pre ++ d) ->
  for_each (combine (od_keys d) vals)
    (fun kv => assign (fst kv) (Schemas.set_value (snd kv))) (pre ++ d)
  = (pre ++ assign_values d vals, Ok tt).
Proof.
  induction d as [| [k f] d IH]; intros pre [| v vals] H; try reflexivity.
  change (od_keys ((k, f) :: d)) with (k :: od_keys d).
  cbn [combine fst for_each assign_values].
  unfold bind at 1. rewrite assign_run. cbn [fst snd].
  rewrite (od_alter_here _ _ _ _ _ (is_odict_split _ _ _ _ H)).
  change (pre ++ (k, Schemas.set_value v f) :: d)
    with (pre ++ [(k, Schemas.set_value v f)] ++ d).
  rewrite app_assoc. rewrite (IH (pre ++ [(k, Schemas.set_value v f)]) vals).
  - now rewrite <- app_assoc.
  - unfold is_odict in *. rewrite <- app_assoc.
    rewrite od_keys_app in *. exact H.
Qed.

Lemma struct_run d : struct d = (d, Ok (layout (od_values d))).
Proof. reflexivity. Qed.

Lemma size_run d : size d = (d, PyStruct.calcsize (layout (od_values d))).
Proof. reflexivity. Qed.

(** *** Match-length resolution on the unpack side *)

Lemma match_fields_app a b : match_fields (a ++ b) = match_fields a ++ match_fields b.
Proof. apply List.filter_app. Qed.

Lemma match_fields_single d k mf :
  match_fields d = [(k, mf)] ->
  exists d1 d2,
    d = d1 ++ (k, mf) :: d2 /\ match_fields d1 = [] /\ match_fields d2 = []
    /\ Schemas.match_length mf = true.
Proof.
  induction d as [| [k' f] d IH]; [discriminate |].
  unfold match_fields in *. cbn [List.filter snd].
  destruct (Schemas.match_length f) eqn:E.
  - intros [= -> -> Hd]. exists [], d. now rewrite Hd.
  - intros H. destruct (IH H) as (d1 & d2 & -> & H1 & H2 & H3).
    exists ((k', f) :: d1), d2. cbn [List.filter snd]. now rewrite E, H1.
Qed.

Lemma match_fields_around d1 k mf d2 :
  match_fields (d1 ++ (k, mf) :: d2) = [(k, mf)] ->
  match_fields d1 = [] /\ match_fields d2 = []
  /\ Schemas.match_length mf = true.
Proof.
  intros Hm.
  assert (E : Schemas.match_length mf = true).
  { assert (Hin : In (k, mf) (match_fields (d1 ++ (k, mf) :: d2)))
      by (rewrite Hm; now left).
    unfold match_fields in Hin. now apply List.filter_In in Hin as [_ Hin]. }
  rewrite match_fields_app in Hm. unfold match_fields in Hm at 2.
  cbn [List.filter snd] in Hm. fold (match_fields d2) in Hm.
  rewrite E in Hm.
  destruct (match_fields d1) as [| x l]; simpl in Hm.
  - injection Hm as Hm. auto.
  - injection Hm as _ Hm. now destruct l.
Qed.

Lemma no_match_static d :
  match_fields d = [] ->
  List.filter (fun f => negb (Schemas.match_length f)) (od_values d)
  = od_values d.
Proof.
  induction d as [| [k f] d IH]; [reflexivity |].
  unfold match_fields in *. cbn [List.filter snd od_values map].
  destruct (Schemas.match_length f); [discriminate |].
  intros H. cbn [negb]. f_equal. now apply IH.
Qed.

Lemma static_size_split d1 k mf d2 :
  match_fields d1 = [] -> match_fields d2 = [] ->
  Schemas.match_length mf = true ->
  static_size (d1 ++ (k, mf) :: d2)
  = layout_bytes (od_values d1) + layout_bytes (od_values d2).
Proof.
  intros H1 H2 Hm. unfold static_size.
  rewrite od_values_app. cbn [od_values map snd]. rewrite List.filter_app.
  cbn [List.filter]. rewrite Hm. cbn [negb].
  fold (od_values d1) (od_values d2).
  rewrite (no_match_static _ H1), (no_match_static _ H2).
  apply layout_bytes_app.
Qed.

Lemma wf_static_no_match d :
  match_fields d = [] ->
  Forall (fun f => wf_static f = true) (od_values d) ->
  Forall (fun f => wf f = true) (od_values d).
Proof.
  induction d as [| [k f] d IH]; [constructor |].
  unfold match_fields in *. cbn [List.filter snd od_values map].
  destruct (Schemas.match_length f) eqn:E; [discriminate |].
  intros H Hw. inversion Hw as [| ? ? Hf Hr]; subst. constructor.
  - unfold wf_static in Hf. unfold wf. now rewrite E in Hf.
  - now apply IH.
Qed.

Lemma wf_set_length n f :
  wf_static f = true -> 0 <= n -> wf (Schemas.set_length n f) = true.
Proof.
  unfold wf_static, wf, coded, code_of. cbn [Schemas.set_length Schemas.struct Schemas.length].
  intros H Hn. apply andb_true_iff in H as [H _]. rewrite H. simpl. lia.
Qed.

(** The layout of a message around its match-length descriptor, whatever
    repeat count the latter carries. *)
Lemma layout_around d1 k mf d2 n :
  match_fields d1 = [] -> match_fields d2 = [] ->
  Forall (fun f => wf_static f = true) (od_values (d1 ++ (k, mf) :: d2)) ->
  0 <= n ->
  Forall (fun f => wf f = true)
    (od_values (d1 ++ (k, Schemas.set_length n mf) :: d2)).
Proof.
  intros H1 H2 Hw Hn. rewrite od_values_app in *. cbn [od_values map snd] in *.
  apply Forall_app in Hw as [Hw1 Hw2].
  inversion Hw2 as [| ? ? Hmf Hw3]; subst.
  apply Forall_app. split; [now apply wf_static_no_match |].
  constructor; [now apply wf_set_length | now apply wf_static_no_match].
Qed.

Lemma layout_bytes_around d1 k mf d2 n :
  layout_bytes (od_values (d1 ++ (k, Schemas.set_length n mf) :: d2))
  = layout_bytes (od_values d1) + n * unit_size mf
    + layout_bytes (od_values d2).
Proof.
  rewrite od_values_app, layout_bytes_app. cbn [od_values map snd].
  unfold layout_bytes at 2. cbn [fold_right].
  fold (layout_bytes (map snd d2)). unfold field_bytes at 1.
  cbn [Schemas.set_length Schemas.length].
  replace (unit_size (Schemas.set_length n mf)) with (unit_size mf)
    by reflexivity.
  unfold od_values. ring.
Qed.

Lemma set_match_length_unpack_none n d :
  match_fields d = [] -> _set_match_length_unpack n d = (d, Ok tt).
Proof.
  intros H. unfold _set_match_length_unpack. run.
  fold (match_fields d). now rewrite H.
Qed.

Lemma set_match_length_unpack_many n d :
  (1 < List.length (match_fields d))%nat ->
  _set_match_length_unpack n d = (d, Raise only_one).
Proof.
  intros H. unfold _set_match_length_unpack. run.
  fold (match_fields d).
  destruct (Z.ltb_spec 1 (Z.of_nat (List.length (match_fields d))));
    [reflexivity | lia].
Qed.

Lemma set_match_length_unpack_one n d1 k mf d2 :
  is_odict (d1 ++ (k, mf) :: d2) ->
  match_fields (d1 ++ (k, mf) :: d2) = [(k, mf)] ->
  _set_match_length_unpack n (d1 ++ (k, mf) :: d2) =
  let d0 := d1 ++ (k, Schemas.set_length 0 mf) :: d2 in
  match PyStruct.calcsize (layout (od_values d0)) with
  | Ok sz =>
      (d1 ++ (k, Schemas.set_length (n - sz) (Schemas.set_length 0 mf)) :: d2,
       Ok tt)
  | Raise e => (d0, Raise e)
  end.
Proof.
  intros Hd Hm. pose proof (is_odict_split _ _ _ _ Hd) as Hk.
  unfold _set_match_length_unpack.
  unfold bind at 1. unfold _fields at 1, get at 1.
  fold (match_fields (d1 ++ (k, mf) :: d2)). rewrite Hm.
  change (1 <? Z.of_nat (List.length [(k, mf)])) with false. cbv iota.
  unfold bind at 1. rewrite assign_run, (od_alter_here _ _ _ _ _ Hk).
  unfold bind at 1. rewrite size_run.
  destruct (PyStruct.calcsize _) as [sz | e]; cbv zeta; [| reflexivity].
  now rewrite assign_run, (od_alter_here _ _ _ _ _ Hk).
Qed.

(** With well-formed static descriptors the resolution computes the
    static size and stores the remainder of the buffer length; a static
    size that is no [Py_ssize_t] ends it with the repeat count at 0. *)
Lemma set_match_length_unpack_static n d1 k mf d2 :
  is_odict (d1 ++ (k, mf) :: d2) ->
  match_fields (d1 ++ (k, mf) :: d2) = [(k, mf)] ->
  Forall (fun f => wf_static f = true) (od_values (d1 ++ (k, mf) :: d2)) ->
  _set_match_length_unpack n (d1 ++ (k, mf) :: d2) =
  if static_size (d1 ++ (k, mf) :: d2) <=? PyStruct.PY_SSIZE_T_MAX
  then (d1 ++ (k, Schemas.set_length
                    (n - static_size (d1 ++ (k, mf) :: d2))
                    (Schemas.set_length 0 mf)) :: d2,
        Ok tt)
  else (d1 ++ (k, Schemas.set_length 0 mf) :: d2,
        Raise (StructError too_long)).
Proof.
  intros Hd Hm Hw. rewrite (set_match_length_unpack_one _ _ _ _ _ Hd Hm).
  cbv zeta.
  destruct (match_fields_around _ _ _ _ Hm) as (H1 & H2 & H3).
  rewrite (calcsize_layout _ (layout_around _ _ _ _ 0 H1 H2 Hw (Z.le_refl 0))).
  unfold fits.
  rewrite layout_bytes_around, (static_size_split _ _ _ _ H1 H2 H3).
  rewrite Z.mul_0_l, Z.add_0_r.
  now destruct (_ <=? _).
Qed.

Lemma set_match_length_unpack_fits n d1 k mf d2 :
  is_odict (d1 ++ (k, mf) :: d2) ->
  match_fields (d1 ++ (k, mf) :: d2) = [(k, mf)] ->
  Forall (fun f => wf_static f = true) (od_values (d1 ++ (k, mf) :: d2)) ->
  static_size (d1 ++ (k, mf) :: d2) <= PyStruct.PY_SSIZE_T_MAX ->
  _set_match_length_unpack n (d1 ++ (k, mf) :: d2) =
  (d1 ++ (k, Schemas.set_length
                (n - static_size (d1 ++ (k, mf) :: d2))
                (Schemas.set_length 0 mf)) :: d2,
   Ok tt).
Proof.
  intros Hd Hm Hw Hs.
  rewrite (set_match_length_unpack_static _ _ _ _ _ Hd Hm Hw).
  now apply Z.leb_le in Hs as ->.
Qed.

(** Resolution assigns attributes only: the keys stay. *)
Lemma set_match_length_unpack_keys n d :
  od_keys (fst (_set_match_length_unpack n d)) = od_keys d.
Proof.
  unfold _set_match_length_unpack. unfold bind at 1, _fields at 1, get at 1.
  destruct (1 <? _); [reflexivity |].
  destruct (List.filter _ d) as [| [k mf] [| ? ?]]; try reflexivity.
  unfold bind at 1. rewrite assign_run. unfold bind at 1. rewrite size_run.
  destruct (PyStruct.calcsize _); cbn [fst]; [rewrite assign_run |];
    cbn [fst]; now rewrite ?od_alter_keys.
Qed.

(** *** [unpack], step by step *)

Lemma unpack_resolution_fails cls buffer validate d dr e :
  _set_match_length_unpack (Z.of_nat (List.length buffer)) d = (dr, Raise e) ->
  unpack cls buffer validate d = (dr, Raise e).
Proof. intros H. unfold unpack. unfold bind at 1. now rewrite H. Qed.

Lemma unpack_run cls buffer validate d dr :
  is_odict d ->
  _set_match_length_unpack (Z.of_nat (List.length buffer)) d = (dr, Ok tt) ->
  unpack cls buffer validate d =
  match PyStruct.unpack (layout (od_values dr)) buffer with
  | Ok vals =>
      let decoded := assign_values dr vals in
      (decoded,
       if validate && negb (is_valid cls decoded)
       then Raise failed_to_validate else Ok tt)
  | Raise e => (dr, Raise e)
  end.
Proof.
  intros Hd H. unfold unpack. unfold bind at 1. rewrite H.
  unfold bind at 1. rewrite struct_run.
  unfold bind at 1, lift at 1.
  destruct (PyStruct.unpack _ buffer) as [vals | e]; [| reflexivity].
  unfold bind at 1, _fields at 1, get at 1. unfold bind at 1.
  assert (Hdr : is_odict dr).
  { unfold is_odict.
    pose proof (set_match_length_unpack_keys
                  (Z.of_nat (List.length buffer)) d) as Hk.
    rewrite H in Hk. cbn [fst] in Hk. now rewrite Hk. }
  pose proof (assign_loop dr [] vals Hdr) as Hloop. cbn [List.app] in Hloop.
  rewrite Hloop.
  unfold bind at 1, _fields at 1, get at 1. cbv zeta.
  now destruct (validate && negb (is_valid cls (assign_values dr vals))).
Qed.

Lemma assign_values_value d : forall vals i k f v,
  nth_error (assign_values d vals) i = Some (k, f) ->
  nth_error vals i = Some v ->
  Schemas.value f = v.
Proof.
  induction d as [| [k0 f0] d IH]; intros [| v0 vals] [| i] k f v H1 H2;
    simpl in *; try discriminate.
  - now injection H1 as _ <-; injection H2 as <-.
  - eapply IH; eassumption.
Qed.

Lemma assign_values_app d1 d2 u1 u2 :
  List.length u1 = List.length d1 ->
  assign_values (d1 ++ d2) (u1 ++ u2)
  = assign_values d1 u1 ++ assign_values d2 u2.
Proof.
  revert u1. induction d1 as [| [k f] d1 IH]; intros [| v u1] H;
    try discriminate; [reflexivity |].
  simpl. f_equal. apply IH. simpl in H. lia.
Qed.

Lemma assign_values_get_length d : forall vals k f,
  od_get k d = Some f ->
  exists f', od_get k (assign_values d vals) = Some f'
             /\ Schemas.length f' = Schemas.length f.
Proof.
  induction d as [| [k0 f0] d IH]; intros vals k f H; [discriminate |].
  destruct vals as [| v vals]; [eauto |].
  simpl in *. destruct (String.eqb k k0).
  - injection H as <-. eauto.
  - now apply IH.
Qed.

(** A negative repeat count on the match-length descriptor makes the
    layout unreadable. *)
Lemma unpack_negative_layout d1 k mf d2 n buffer :
  Forall (fun f => wf f = true) (od_values d1) ->
  Forall (fun f => plain f = true) (mf :: od_values d2) ->
  n < 0 ->
  PyStruct.unpack
    (layout (od_values (d1 ++ (k, Schemas.set_length n mf) :: d2))) buffer
  = Raise (StructError (if fits (od_values d1) then bad_char else too_long)).
Proof.
  intros Hw Hp Hn. unfold PyStruct.unpack.
  rewrite od_values_app. cbn [od_values map snd].
  rewrite prepare_s_negative; [reflexivity | exact Hw | | exact Hn].
  inversion Hp; subst. now constructor.
Qed.

Lemma wf_static_plain f : wf_static f = true -> plain f = true.
Proof.
  unfold wf_static. intros H. apply andb_true_iff in H as [H _].
  now apply coded_plain.
Qed.

(** *** Decoding a run of codes *)

Lemma codes_of_nonneg fs :
  Forall (fun f => wf f = true) fs ->
  Forall (fun c => 0 <= PyStruct.code_size c) (codes_of fs).
Proof.
  induction 1 as [| f fs Hf _ IH]; [constructor |].
  destruct (wf_inv _ Hf) as (e & He & Hn). cbn [codes_of]. rewrite He.
  constructor; [| exact IH]. unfold PyStruct.code_size. cbn.
  destruct (code_of_struct _ _ He) as (c & _ & Hc).
  pose proof (getentry_size_pos _ _ Hc). nia.
Qed.

Lemma unpack_codes_app cs1 cs2 : forall buf,
  Forall (fun c => 0 <= PyStruct.code_size c) cs1 ->
  PyStruct.unpack_codes (cs1 ++ cs2) buf
  = PyStruct.unpack_codes cs1 buf
    ++ PyStruct.unpack_codes cs2
         (drop (Z.to_nat (PyStruct.total_size cs1)) buf).
Proof.
  induction cs1 as [| c cs1 IH]; intros buf H; [reflexivity |].
  inversion H as [| ? ? Hc Hcs]; subst.
  cbn [List.app PyStruct.unpack_codes]. rewrite (IH _ Hcs).
  assert (Hsz : 0 <= PyStruct.total_size cs1).
  { clear -Hcs. induction Hcs; unfold PyStruct.total_size in *; simpl; lia. }
  replace (Z.to_nat (PyStruct.total_size (c :: cs1)))
    with (Z.to_nat (PyStruct.code_size c)
          + Z.to_nat (PyStruct.total_size cs1))%nat
    by (unfold PyStruct.total_size; cbn [fold_right];
        fold (PyStruct.total_size cs1); lia).
  rewrite <- drop_drop.
  destruct (PyStruct.knd (PyStruct.fmtdef c)); cbn [List.app];
    rewrite ?app_assoc; reflexivity.
Qed.

Lemma unpack_codes_one_unit fs : forall buf,
  Forall (fun f => one_unit f = true) fs ->
  List.length (PyStruct.unpack_codes (codes_of fs) buf) = List.length fs.
Proof.
  induction fs as [| f fs IH]; intros buf H; [reflexivity |].
  inversion H as [| ? ? Hf Hfs]; subst. unfold one_unit in Hf.
  cbn [codes_of]. destruct (code_of f) as [e |]; [| discriminate].
  cbn [PyStruct.unpack_codes PyStruct.fmtdef PyStruct.repeat].
  destruct (PyStruct.knd e); try discriminate;
    try (apply Z.eqb_eq in Hf; rewrite Hf;
         change (Z.to_nat 1) with 1%nat; cbn [PyStruct.unpack_repeat]);
    cbn [List.app List.length]; now rewrite IH.
Qed.

Lemma one_unit_wf f : one_unit f = true -> wf f = true.
Proof.
  unfold one_unit, wf, coded. destruct (code_of f) as [e |]; [| discriminate].
  destruct (PyStruct.knd e); try discriminate; simpl; lia.
Qed.

(** *** Match-length resolution on the pack side *)

Lemma for_each_app {S A} (xs ys : list A) (body : A -> M S unit) s :
  for_each (xs ++ ys) body s
  = bind (for_each xs body) (fun _ => for_each ys body) s.
Proof.
  revert s. induction xs as [| x xs IH]; intros s.
  - reflexivity.
  - cbn [List.app for_each]. unfold bind in *.
    destruct (body x s) as [s' [[] | e]]; [apply IH | reflexivity].
Qed.

Lemma field_run k f pre d :
  ~ In k (od_keys pre) -> field k (pre ++ (k, f) :: d) = (pre ++ (k, f) :: d, Ok f).
Proof.
  intros H. unfold field. run. now rewrite (od_get_here k f pre d H).
Qed.

(** The pack-side loop leaves descriptors that are not match-length
    alone. *)
Lemma pack_loop_skips ds : forall pre post,
  is_odict (pre ++ ds ++ post) ->
  match_fields ds = [] ->
  for_each (od_keys ds) (fun k =>
    let* f := field k in
    if Schemas.match_length f
    then let* n := lift (py_len (Schemas.value f)) in
         assign k (Schemas.set_length n)
    else ret tt) (pre ++ ds ++ post)
  = (pre ++ ds ++ post, Ok tt).
Proof.
  induction ds as [| [k f] ds IH]; intros pre post Hd Hm; [reflexivity |].
  unfold match_fields in Hm. cbn [List.filter snd] in Hm.
  destruct (Schemas.match_length f) eqn:E; [discriminate |].
  change (od_keys ((k, f) :: ds)) with (k :: od_keys ds).
  cbn [for_each List.app]. unfold bind at 1. unfold bind at 1.
  rewrite (field_run k f pre (ds ++ post) (is_odict_split _ _ _ _ Hd)).
  rewrite E. unfold ret at 1.
  change (pre ++ (k, f) :: ds ++ post) with (pre ++ [(k, f)] ++ ds ++ post).
  rewrite app_assoc. apply IH; [| exact Hm].
  now rewrite <- app_assoc.
Qed.

Lemma set_match_length_pack_run d1 k mf d2 payload :
  is_odict (d1 ++ (k, mf) :: d2) ->
  match_fields d1 = [] -> match_fields d2 = [] ->
  Schemas.match_length mf = true ->
  Schemas.value mf = PyBytes payload ->
  _set_match_length_pack (d1 ++ (k, mf) :: d2)
  = (d1 ++ (k, Schemas.set_length (Z.of_nat (List.length payload)) mf) :: d2,
     Ok tt).
Proof.
  intros Hd H1 H2 Hm Hv. unfold _set_match_length_pack.
  unfold bind at 1, _fields at 1, get at 1.
  rewrite od_keys_app. change (od_keys ((k, mf) :: d2)) with ([k] ++ od_keys d2).
  rewrite for_each_app. unfold bind at 1.
  pose proof (pack_loop_skips d1 [] ((k, mf) :: d2) Hd H1) as L1.
  cbn [List.app] in L1. rewrite L1.
  rewrite for_each_app. unfold bind at 1.
  cbn [for_each]. unfold bind at 1. unfold bind at 1.
  pose proof (is_odict_split _ _ _ _ Hd) as Hk.
  rewrite (field_run k mf d1 d2 Hk), Hm, Hv.
  unfold bind at 1, lift at 1. cbn [py_len].
  rewrite assign_run, (od_alter_here _ _ _ _ _ Hk). unfold ret at 1.
  pose proof (pack_loop_skips d2
    (d1 ++ [(k, Schemas.set_length (Z.of_nat (List.length payload)) mf)]) [])
    as L2.
  rewrite app_nil_r, <- app_assoc in L2. cbn [List.app] in L2.
  apply L2; [| exact H2].
  unfold is_odict in *. rewrite od_keys_app in *. exact Hd.
Qed.

End EngineFacts.

(* ================================================================== *)
(** ** Attribute access                                                *)
(* ================================================================== *)

Module AccessFacts.
Import DynamicStruct Shape EngineFacts Examples.

(** Reading a declared field: its value when that value is truthy, its
    default otherwise. *)
Lemma getattr_declared name d f :
  od_get name d = Some f ->
  __getattr__ name d
  = (d, Ok (if truthy (Schemas.value f) then Schemas.value f
            else Schemas.default f)).
Proof. intros H. unfold __getattr__. run. now rewrite H. Qed.

Lemma getattr_undeclared name d :
  od_get name d = None -> __getattr__ name d = (d, Raise (not_defined name)).
Proof. intros H. unfold __getattr__. run. now rewrite H. Qed.

Lemma setattr_undeclared name v d :
  od_get name d = None -> __setattr__ name v d = (d, Raise (not_defined name)).
Proof. intros H. unfold __setattr__, od_in. run. now rewrite H. Qed.

Lemma setattr_declared name v d f :
  od_get name d = Some f ->
  __setattr__ name v d = (od_alter (Schemas.set_value v) name d, Ok tt).
Proof. intros H. unfold __setattr__, od_in. run. now rewrite H. Qed.

(** A construction keyword that names no declared field is refused. *)
Lemma init_undeclared cls name v :
  ~ In name (map Schemas.name (fields cls)) ->
  __init__ cls [(name, v)] = Raise (not_defined name).
Proof.
  intros H. unfold __init__. cbn [for_each fst snd]. unfold bind at 1.
  assert (Hin : forall ps acc,
            od_in name (fold_left
               (fun d kv => od_set (fst kv) (snd kv) d)
               (map (fun k => (Schemas.name k, Schemas.replace k)) ps) acc)
            = true ->
            In name (map Schemas.name ps) \/ od_in name acc = true).
  { induction ps as [| f ps IH]; intros acc Hacc; [now right |].
    cbn [map fold_left fst snd] in Hacc.
    destruct (IH _ Hacc) as [Hl | Hr]; [left; now right |].
    apply od_get_in in Hr.
    assert (Hk : forall (d : OrderedDict) k x,
              od_keys (od_set k x d) = od_keys d
              \/ od_keys (od_set k x d) = od_keys d ++ [k]).
    { induction d as [| [k' x'] d IHd]; intros k x; [now right |].
      simpl. destruct (String.eqb k k'); [now left |].
      simpl. destruct (IHd k x) as [-> | ->]; [now left | now right]. }
    destruct (Hk acc (Schemas.name f) (Schemas.replace f)) as [E | E];
      rewrite E in Hr.
    - right. now apply od_get_in.
    - apply in_app_or in Hr as [Hr | [<- | []]].
      + right. now apply od_get_in.
      + left. now left. }
  unfold __setattr__ at 1. unfold bind at 1, _fields at 1, get at 1.
  unfold od_of_pairs.
  destruct (od_in name _) eqn:E; [| reflexivity].
  destruct (Hin _ _ E) as [Hl | Hr]; [now destruct H | discriminate].
Qed.

(** C5, at the failing input: [Flag(hello=0)] stores [0] in [hello], and
    reading [hello] answers the default [1] instead of the value that was
    set. *)
Theorem getattr_drops_falsy_value :
  exists m f,
    __init__ Flag [("hello", PyInt 0)] = Ok m
    /\ od_get "hello" m = Some f
    /\ Schemas.value f = PyInt 0
    /\ __getattr__ "hello" m = (m, Ok (PyInt 1)).
Proof. eexists. eexists. repeat split; reflexivity. Qed.

End AccessFacts.

(* ================================================================== *)
(** ** Packing                                                         *)
(* ================================================================== *)

Module PackFacts.
Import DynamicStruct Shape EngineFacts Examples.

(** C1, for every input: [pack] never produces a buffer, so there is
    nothing to unpack.  Its first statement looks up [_set_match_length],
    which the class does not define: the lookup reaches [__getattr__] and
    raises the unknown-field error; were a field so named, its value would
    be called and is not callable.  The instance is left as it was. *)
Theorem pack_raises cls d :
  pack cls d
  = (d, Raise (if od_in "_set_match_length" d
               then TypeError "object is not callable"
               else not_defined "_set_match_length")).
Proof.
  unfold pack, __getattr__, od_in. run.
  now destruct (od_get "_set_match_length" d).
Qed.

(** C2, at the failing input: for the example message built with
    [world=1, payload=b"hi"], [pack()] raises the unknown-field error; the
    four bytes [1, 1, 'h', 'i'] are what [struct.pack] gives for the
    resolved layout and the effective values, which [pack] never reaches. *)
Theorem pack_example_raises :
  exists m,
    __init__ HelloMessage hello_kwargs = Ok m
    /\ pack HelloMessage m
       = (m, Raise (NameError "Field '_set_match_length' is not defined"))
    /\ PyStruct.pack "<BB2s" [PyInt 1; PyInt 1; PyBytes hi]
       = Ok [x01; x01; "h"%byte; "i"%byte].
Proof. eexists. repeat split; reflexivity. Qed.

(** The rest of [pack], run after the pack-side resolution that exists
    under another name: [*self.values] spreads the keys of the dict, so
    [struct.pack] receives the field names. *)
Example pack_tail_passes_names :
  exists m,
    __init__ HelloMessage hello_kwargs = Ok m
    /\ snd ((do _set_match_length_pack then
             do on_pack HelloMessage then
             let* fmt := struct in
             let* vs := values in
             lift (PyStruct.pack fmt (map (fun kv => PyStr (fst kv)) vs))) m)
       = Raise (StructError not_an_integer).
Proof. eexists. split; reflexivity. Qed.

End PackFacts.

(* ================================================================== *)
(** ** Layout and size                                                 *)
(* ================================================================== *)

Module LayoutTheorems.
Import DynamicStruct Shape LayoutFacts EngineFacts Examples.

(** C9.  For every instance, the derived layout is the byte-order marker
    ["<"] followed, for each descriptor in declaration order, by its
    segment: the encoding alone when the repeat count is 1, the decimal
    repeat count and the encoding otherwise.  The derived size is
    [struct.calcsize] of that layout, which for descriptors of the data
    model whose total byte length is a [Py_ssize_t] is the sum of repeat
    count times unit size, nothing added between fields.  Both properties
    return [self] as they found it. *)
Theorem layout_and_size d :
  struct d
  = (d, Ok ("<" ++ String.concat "" (map segment (od_values d)))%string)
  /\ (forall f,
        segment f
        = if Schemas.length f =? 1 then Schemas.struct f
          else (str (Schemas.length f) ++ Schemas.struct f)%string)
  /\ size d = (d, PyStruct.calcsize (layout (od_values d)))
  /\ (Forall (fun f => wf f = true) (od_values d) ->
      layout_bytes (od_values d) <= PyStruct.PY_SSIZE_T_MAX ->
      size d = (d, Ok (layout_bytes (od_values d)))).
Proof.
  split; [reflexivity |]. split.
  - intros f. unfold segment. now destruct (Schemas.length f =? 1).
  - split; [reflexivity |]. intros H Hfit. rewrite size_run.
    now rewrite (calcsize_layout_fits _ H (proj2 (fits_le _) Hfit)).
Qed.

Lemma layout_and_size_witness :
  (Forall (fun f => wf f = true) (od_values hello_resolved)
   /\ layout_bytes (od_values hello_resolved) <= PyStruct.PY_SSIZE_T_MAX)
  /\ size hello_resolved = (hello_resolved, Ok 4).
Proof.
  assert (H : Forall (fun f => wf f = true) (od_values hello_resolved))
    by (repeat constructor).
  assert (Hfit : layout_bytes (od_values hello_resolved)
                 <= PyStruct.PY_SSIZE_T_MAX) by (vm_compute; discriminate).
  split; [split; assumption |].
  exact (proj2 (proj2 (proj2 (layout_and_size hello_resolved))) H Hfit).
Defined.

(** Beyond [Py_ssize_t] there is no size: [struct.calcsize] refuses the
    layout, and the property raises its [struct.error]. *)
Lemma size_too_long d :
  Forall (fun f => wf f = true) (od_values d) ->
  PyStruct.PY_SSIZE_T_MAX < layout_bytes (od_values d) ->
  size d = (d, Raise (StructError too_long)).
Proof.
  intros H Hbig. rewrite size_run, (calcsize_layout _ H). unfold fits.
  now apply Z.leb_gt in Hbig as ->.
Qed.

(** The largest message that has a size, and the first that has none. *)
Example size_at_the_bound :
  let big n := [("blob", Schemas.set_length n (bytes_field "blob"))] in
  size (big PyStruct.PY_SSIZE_T_MAX)
  = (big PyStruct.PY_SSIZE_T_MAX, Ok PyStruct.PY_SSIZE_T_MAX)
  /\ size (big (PyStruct.PY_SSIZE_T_MAX + 1))
     = (big (PyStruct.PY_SSIZE_T_MAX + 1), Raise (StructError too_long)).
Proof. split; reflexivity. Qed.

End LayoutTheorems.

(* ================================================================== *)
(** ** Unpacking                                                       *)
(* ================================================================== *)

Module UnpackTheorems.
Import DynamicStruct Shape LayoutFacts EngineFacts Examples.

(** C6, at the failing input: [RejectingPair] declares [a] with two
    unsigned bytes and [b] with one, and its [is_valid] always answers
    [False].  The buffer [01 02 03] is well sized (the size is 3) and
    decodes to the units 1, 2, 3.  [unpack(buffer, validate=True)] raises
    the validation error and [unpack(buffer, validate=False)] returns
    normally, both leaving the same instance, nothing rolled back; but in
    that instance [b] holds 2, the second unit of [a], not the 3 decoded
    from its own byte, and [a] holds 1 only. *)
Theorem validation_keeps_misplaced_units :
  exists m d,
    __init__ RejectingPair [] = Ok m
    /\ snd ((do _set_match_length_unpack 3 then size) m) = Ok 3
    /\ PyStruct.unpack "<2BB" [x01; x02; x03]
       = Ok [PyInt 1; PyInt 2; PyInt 3]
    /\ unpack RejectingPair [x01; x02; x03] true m
       = (d, Raise failed_to_validate)
    /\ unpack RejectingPair [x01; x02; x03] false m = (d, Ok tt)
    /\ map (fun kf => (fst kf, Schemas.value (snd kf))) d
       = [("a", PyInt 1); ("b", PyInt 2)].
Proof. eexists. eexists. repeat split; reflexivity. Qed.

(** The same with padding, which decodes to no unit: of the buffer
    [00 00 07] the field [pad] receives the 7 decoded for [n], and [n]
    keeps no value at all, whether validation is asked for or not. *)
Example validation_keeps_misplaced_pad :
  exists m d,
    __init__ MoreExamples.RejectingPadded [] = Ok m
    /\ PyStruct.unpack "<2xB" [x00; x00; x07] = Ok [PyInt 7]
    /\ unpack MoreExamples.RejectingPadded [x00; x00; x07] true m
       = (d, Raise failed_to_validate)
    /\ unpack MoreExamples.RejectingPadded [x00; x00; x07] false m
       = (d, Ok tt)
    /\ map (fun kf => (fst kf, Schemas.value (snd kf))) d
       = [("pad", PyInt 7); ("n", PyNone)].
Proof. eexists. eexists. repeat split; reflexivity. Qed.

(** C8.  For every instance with exactly one match-length field, whose
    descriptors are those of the data model and whose static size is a
    [Py_ssize_t]: after [unpack(buffer)], however it ends, that field's
    repeat count is [len(buffer)] minus the aggregate size of the other
    fields; and when that difference is negative [unpack] raises
    [struct.error]. *)
Theorem unpack_resolves_match_length cls buffer validate d k mf :
  is_odict d ->
  match_fields d = [(k, mf)] ->
  Forall (fun f => wf_static f = true) (od_values d) ->
  static_size d <= PyStruct.PY_SSIZE_T_MAX ->
  let n := Z.of_nat (List.length buffer) - static_size d in
  (exists f',
      od_get k (fst (unpack cls buffer validate d)) = Some f'
      /\ Schemas.length f' = n)
  /\ (n < 0 ->
      snd (unpack cls buffer validate d) = Raise (StructError bad_char)).
Proof.
  intros Hd Hm Hw Hs n.
  destruct (match_fields_single _ _ _ Hm) as (d1 & d2 & -> & H1 & H2 & H3).
  pose proof (set_match_length_unpack_fits
                (Z.of_nat (List.length buffer)) _ _ _ _ Hd Hm Hw Hs) as Hr.
  fold n in Hr.
  pose proof (is_odict_split _ _ _ _ Hd) as Hk.
  rewrite (unpack_run cls buffer validate _ _ Hd Hr).
  split.
  - destruct (PyStruct.unpack _ buffer) as [vals | e]; cbn [fst].
    + cbv zeta. cbn [fst].
      destruct (assign_values_get_length _ vals k _
                  (od_get_here k (Schemas.set_length n (Schemas.set_length 0 mf))
                     d1 d2 Hk)) as (f' & Hf & Hl).
      exists f'. split; [exact Hf |]. now rewrite Hl.
    + eexists. split; [apply (od_get_here k _ d1 d2 Hk) | reflexivity].
  - intros Hn.
    rewrite od_values_app in Hw. apply Forall_app in Hw as [Hw1 Hw2].
    assert (Hwf1 : Forall (fun f => wf f = true) (od_values d1))
      by now apply wf_static_no_match.
    assert (Hwf2 : Forall (fun f => wf f = true) (od_values d2)).
    { apply wf_static_no_match; [exact H2 |]. now inversion Hw2. }
    assert (Hp : Forall (fun f => plain f = true) (mf :: od_values d2)).
    { eapply List.Forall_impl; [| exact Hw2]. exact wf_static_plain. }
    change (Schemas.set_length n (Schemas.set_length 0 mf))
      with (Schemas.set_length n mf).
    rewrite (unpack_negative_layout d1 k mf d2 n buffer Hwf1 Hp Hn).
    rewrite (static_size_split _ _ _ _ H1 H2 H3) in Hs.
    pose proof (layout_bytes_nonneg _ Hwf2).
    assert (Hf : fits (od_values d1) = true) by (apply fits_le; lia).
    now rewrite Hf.
Qed.

Lemma unpack_resolves_match_length_witness :
  (is_odict hello_m
   /\ match_fields hello_m
      = [("payload", Schemas.set_value (PyBytes hi) (bytes_field "payload"))]
   /\ Forall (fun f => wf_static f = true) (od_values hello_m)
   /\ static_size hello_m <= PyStruct.PY_SSIZE_T_MAX)
  /\ (exists f',
        od_get "payload" (fst (unpack HelloMessage hello_bytes true hello_m))
        = Some f'
        /\ Schemas.length f' = 2)
  /\ snd (unpack HelloMessage [x01] true hello_m)
     = Raise (StructError bad_char).
Proof.
  assert (Hd : is_odict hello_m).
  { unfold is_odict. simpl. repeat constructor; simpl; intuition discriminate. }
  assert (Hw : Forall (fun f => wf_static f = true) (od_values hello_m))
    by (repeat constructor).
  assert (Hs : static_size hello_m <= PyStruct.PY_SSIZE_T_MAX)
    by (vm_compute; discriminate).
  split; [repeat split; [exact Hd | exact Hw | exact Hs] |]. split.
  - exact (proj1 (unpack_resolves_match_length HelloMessage hello_bytes true
                    hello_m _ _ Hd eq_refl Hw Hs)).
  - apply (proj2 (unpack_resolves_match_length HelloMessage [x01] true
                    hello_m _ _ Hd eq_refl Hw Hs)).
    reflexivity.
Defined.

(** A static size beyond [Py_ssize_t] is refused by [struct.calcsize]
    during the resolution: [unpack] raises its [struct.error], and the
    repeat count of the match-length field is left at 0. *)
Lemma unpack_static_too_long cls buffer validate d k mf :
  is_odict d ->
  match_fields d = [(k, mf)] ->
  Forall (fun f => wf_static f = true) (od_values d) ->
  PyStruct.PY_SSIZE_T_MAX < static_size d ->
  snd (unpack cls buffer validate d) = Raise (StructError too_long)
  /\ exists f',
       od_get k (fst (unpack cls buffer validate d)) = Some f'
       /\ Schemas.length f' = 0.
Proof.
  intros Hd Hm Hw Hs.
  destruct (match_fields_single _ _ _ Hm) as (d1 & d2 & -> & H1 & H2 & H3).
  pose proof (set_match_length_unpack_static
                (Z.of_nat (List.length buffer)) _ _ _ _ Hd Hm Hw) as Hr.
  apply Z.leb_gt in Hs. rewrite Hs in Hr.
  rewrite (unpack_resolution_fails cls buffer validate _ _ _ Hr).
  split; [reflexivity |].
  eexists. split; [apply (od_get_here k _ d1 d2 (is_odict_split _ _ _ _ Hd))
                  | reflexivity].
Qed.

(** C3, at the failing input: [Pair] declares [a] with two unsigned
    bytes and [b] with one.  A buffer of the computed size 3 decodes to
    the units 1, 2, 3; [unpack] pairs units with fields one to one, so
    [a] holds 1 only, [b] holds 2 (the second unit of [a]), and 3 is
    dropped. *)
Theorem unpack_misplaces_repeated_units :
  PyStruct.unpack "<2BB" [x01; x02; x03] = Ok [PyInt 1; PyInt 2; PyInt 3]
  /\ exists m,
       from_buffer Pair [x01; x02; x03] true = Ok m
       /\ size m = (m, Ok 3)
       /\ __getattr__ "a" m = (m, Ok (PyInt 1))
       /\ __getattr__ "b" m = (m, Ok (PyInt 2)).
Proof. split; [reflexivity |]. eexists. repeat split; reflexivity. Qed.

(** A buffer whose length differs from the computed size is refused. *)
Lemma unpack_wrong_size cls buffer validate d dr sz :
  is_odict d ->
  (do _set_match_length_unpack (Z.of_nat (List.length buffer)) then size) d
  = (dr, Ok sz) ->
  Z.of_nat (List.length buffer) <> sz ->
  unpack cls buffer validate d
  = (dr, Raise (StructError (wrong_buffer_size sz))).
Proof.
  intros Hd. unfold bind at 1.
  destruct (_set_match_length_unpack _ d) as [d' [[] | e]] eqn:Hr;
    [| discriminate].
  rewrite size_run. intros [= -> H] Hne.
  rewrite (unpack_run cls buffer validate _ _ Hd Hr).
  unfold PyStruct.calcsize in H. unfold PyStruct.unpack.
  destruct (PyStruct.prepare_s _) as [codes | e]; [| discriminate].
  cbn [rbind] in *. injection H as <-.
  destruct (Z.eqb_spec (Z.of_nat (List.length buffer))
              (PyStruct.total_size codes)) as [E | _];
    [now destruct Hne | reflexivity].
Qed.

(** C4 as stated fails: with the match-length field declared first, the
    bytes it receives are the leading ones.  [Leading(payload=b"hi")] has
    size 3 after resolution; unpacking [b"hi\x07"] gives [payload] the
    value [b"hi"], and the trailing two bytes are [b"i\x07"]. *)
Lemma trailing_bytes_counterexample :
  exists m m',
    __init__ Leading [("payload", PyBytes hi)] = Ok m
    /\ snd ((do _set_match_length_pack then size) m) = Ok 3
    /\ unpack Leading ["h"%byte; "i"%byte; x07] true m = (m', Ok tt)
    /\ __getattr__ "payload" m' = (m', Ok (PyBytes hi))
    /\ PyBytes hi <> PyBytes (drop (3 - 2) ["h"%byte; "i"%byte; x07]).
Proof.
  eexists. eexists. repeat split; try reflexivity. discriminate.
Qed.

(** C4, amended.  Take a message whose descriptors are [d1], then the one
    match-length field [k] (a byte sequence holding [payload]), then [d2],
    all of the data model, every descriptor of [d1] decoding to one unit,
    none of [d2] an empty Pascal string, and the static size plus
    [len(payload)] a [Py_ssize_t] (as the length of any buffer is).
    After the pack-side resolution the size is the static size plus
    [len(payload)].  Unpacking a buffer of exactly that size gives [k] the
    [len(payload)] bytes that follow the bytes of [d1]; these are the
    trailing bytes when nothing is declared after [k]; and with
    [validate=False] the call returns normally. *)
Theorem match_length_payload cls d1 k mf d2 payload :
  is_odict (d1 ++ (k, mf) :: d2) ->
  match_fields (d1 ++ (k, mf) :: d2) = [(k, mf)] ->
  Forall (fun f => wf_static f = true) (od_values (d1 ++ (k, mf) :: d2)) ->
  Forall (fun f => one_unit f = true) (od_values d1) ->
  Forall (fun f => readable f = true) (od_values d2) ->
  Schemas.struct mf = "s" ->
  Schemas.value mf = PyBytes payload ->
  static_size (d1 ++ (k, mf) :: d2) + Z.of_nat (List.length payload)
  <= PyStruct.PY_SSIZE_T_MAX ->
  let d := d1 ++ (k, mf) :: d2 in
  let n := List.length payload in
  snd ((do _set_match_length_pack then size) d)
  = Ok (static_size d + Z.of_nat n)
  /\ forall buffer validate,
       Z.of_nat (List.length buffer) = static_size d + Z.of_nat n ->
       let off := Z.to_nat (layout_bytes (od_values d1)) in
       (exists f',
           od_get k (fst (unpack cls buffer validate d)) = Some f'
           /\ Schemas.value f' = PyBytes (take n (drop off buffer)))
       /\ (d2 = [] ->
           take n (drop off buffer) = drop (List.length buffer - n) buffer)
       /\ snd (unpack cls buffer false d) = Ok tt.
Proof.
  intros Hd Hm Hw Hu _ Hs Hv Hmax d n. subst d. fold n in Hmax.
  destruct (match_fields_around _ _ _ _ Hm) as (H1 & H2 & H3).
  pose proof (is_odict_split _ _ _ _ Hd) as Hk.
  assert (Hunit : unit_size mf = 1)
    by (unfold unit_size, code_of; rewrite Hs; reflexivity).
  assert (Hcode : forall j, code_of (Schemas.set_length j mf)
                            = PyStruct.getentry "s")
    by (intros j; unfold code_of; cbn [Schemas.set_length Schemas.struct];
        rewrite Hs; reflexivity).
  assert (Hn : 0 <= Z.of_nat n) by lia.
  assert (Hfit : fits (od_values
                         (d1 ++ (k, Schemas.set_length (Z.of_nat n) mf) :: d2))
                 = true).
  { apply fits_le. rewrite layout_bytes_around, Hunit.
    rewrite (static_size_split _ _ _ _ H1 H2 H3) in Hmax. lia. }
  split.
  - unfold bind at 1. subst n.
    rewrite (set_match_length_pack_run _ _ _ _ _ Hd H1 H2 H3 Hv).
    rewrite size_run.
    rewrite (calcsize_layout_fits _ (layout_around _ _ _ _ _ H1 H2 Hw Hn) Hfit).
    rewrite layout_bytes_around, (static_size_split _ _ _ _ H1 H2 H3), Hunit.
    cbn [snd]. f_equal. ring.
  - intros buffer validate Hlen off.
    pose proof (set_match_length_unpack_fits
                  (Z.of_nat (List.length buffer)) _ _ _ _ Hd Hm Hw
                  ltac:(lia)) as Hr.
    replace (Z.of_nat (List.length buffer)
             - static_size (d1 ++ (k, mf) :: d2)) with (Z.of_nat n)
      in Hr by lia.
    change (Schemas.set_length (Z.of_nat n) (Schemas.set_length 0 mf))
      with (Schemas.set_length (Z.of_nat n) mf) in Hr.
    set (mf' := Schemas.set_length (Z.of_nat n) mf) in *.
    set (dr := d1 ++ (k, mf') :: d2) in *.
    assert (Hwr : Forall (fun f => wf f = true) (od_values dr))
      by (apply layout_around; assumption).
    assert (Hdec : PyStruct.unpack (layout (od_values dr)) buffer
                   = Ok (PyStruct.unpack_codes (codes_of (od_values dr)) buffer)).
    { unfold PyStruct.unpack. rewrite (prepare_layout_fits _ Hwr Hfit).
      cbn [rbind].
      rewrite total_size_codes. unfold dr, mf'.
      rewrite layout_bytes_around, Hunit, Hlen.
      rewrite (static_size_split _ _ _ _ H1 H2 H3).
      replace (layout_bytes (od_values d1) + layout_bytes (od_values d2)
               + Z.of_nat n)
        with (layout_bytes (od_values d1) + Z.of_nat n * 1
              + layout_bytes (od_values d2)) by ring.
      now rewrite Z.eqb_refl. }
    assert (Hw1 : Forall (fun f => wf f = true) (od_values d1)).
    { eapply List.Forall_impl; [| exact Hu]. apply one_unit_wf. }
    assert (Hunits : PyStruct.unpack_codes (codes_of (od_values dr)) buffer
                     = PyStruct.unpack_codes (codes_of (od_values d1)) buffer
                       ++ PyBytes (take n (drop off buffer))
                       :: PyStruct.unpack_codes (codes_of (od_values d2))
                            (drop n (drop off buffer))).
    { unfold dr. rewrite od_values_app, codes_of_app.
      rewrite (unpack_codes_app _ _ _ (codes_of_nonneg _ Hw1)).
      rewrite total_size_codes. fold off. f_equal.
      cbn [od_values map snd codes_of]. unfold mf'. rewrite Hcode.
      change (PyStruct.getentry "s")
        with (Some {| PyStruct.format := "s"; PyStruct.size := 1;
                      PyStruct.knd := PyStruct.Bytes |}).
      cbn [PyStruct.unpack_codes PyStruct.fmtdef PyStruct.knd].
      unfold PyStruct.code_size. cbn [PyStruct.repeat PyStruct.fmtdef
                                      PyStruct.size Schemas.set_length
                                      Schemas.length].
      now rewrite Z.mul_1_r, Nat2Z.id. }
    assert (Hassign :
      exists a1 a2,
        assign_values dr (PyStruct.unpack_codes (codes_of (od_values dr)) buffer)
        = a1 ++ (k, Schemas.set_value (PyBytes (take n (drop off buffer))) mf')
             :: a2
        /\ od_keys a1 = od_keys d1).
    { rewrite Hunits. unfold dr. rewrite assign_values_app.
      - eexists. eexists. split; [reflexivity | apply assign_values_keys].
      - rewrite (unpack_codes_one_unit _ _ Hu). unfold od_values.
        now rewrite length_map. }
    destruct Hassign as (a1 & a2 & Ha & Hka).
    assert (Hk1 : ~ In k (od_keys a1)) by now rewrite Hka.
    repeat split.
    + rewrite (unpack_run cls buffer validate _ _ Hd Hr), Hdec.
      cbv zeta. cbn [fst]. rewrite Ha.
      eexists. split; [apply (od_get_here k _ a1 a2 Hk1) | reflexivity].
    + intros ->. 
      assert (Hoff : (off + n = List.length buffer)%nat).
      { rewrite (static_size_split _ _ _ _ H1 H2 H3) in Hlen.
        change (layout_bytes (od_values [])) with 0 in Hlen.
        assert (0 <= layout_bytes (od_values d1)).
        { rewrite <- total_size_codes.
          pose proof (codes_of_nonneg _ Hw1) as Hc. clear -Hc.
          induction Hc; unfold PyStruct.total_size in *; simpl; lia. }
        unfold off. lia. }
      replace (List.length buffer - n)%nat with off by lia.
      apply take_ge. rewrite length_drop. lia.
    + rewrite (unpack_run cls buffer false _ _ Hd Hr), Hdec. reflexivity.
Qed.

Lemma match_length_payload_witness :
  (is_odict hello_m
   /\ Forall (fun f => wf_static f = true) (od_values hello_m)
   /\ Forall (fun f => one_unit f = true) (od_values (take 2 hello_m))
   /\ static_size hello_m + 2 <= PyStruct.PY_SSIZE_T_MAX)
  /\ snd ((do _set_match_length_pack then size) hello_m) = Ok (2 + 2)
  /\ exists f',
       od_get "payload" (fst (unpack HelloMessage hello_bytes true hello_m))
       = Some f'
       /\ Schemas.value f' = PyBytes hi.
Proof.
  assert (Hd : is_odict hello_m).
  { unfold is_odict. simpl. repeat constructor; simpl; intuition discriminate. }
  assert (Hw : Forall (fun f => wf_static f = true) (od_values hello_m))
    by (repeat constructor).
  assert (Hu : Forall (fun f => one_unit f = true)
                 (od_values (take 2 hello_m)))
    by (repeat constructor).
  assert (Hs : static_size hello_m + 2 <= PyStruct.PY_SSIZE_T_MAX)
    by (vm_compute; discriminate).
  split; [repeat split; assumption |].
  destruct (match_length_payload HelloMessage (take 2 hello_m) "payload"
              (Schemas.set_value (PyBytes hi) (bytes_field "payload")) []
              hi Hd eq_refl Hw Hu (List.Forall_nil _) eq_refl eq_refl Hs)
    as [H1 H2].
  split; [exact H1 |].
  exact (proj1 (H2 hello_bytes true eq_refl)).
Defined.

End UnpackTheorems.

(* ================================================================== *)
(** ** Construction and schema conflicts                               *)
(* ================================================================== *)

Module SchemaTheorems.
Import DynamicStruct Shape LayoutFacts EngineFacts Examples.

Lemma replace_same k : Schemas.replace k = k.
Proof. now destruct k. Qed.

Lemma od_set_fresh {V} k (v : V) d :
  ~ In k (od_keys d) -> od_set k v d = d ++ [(k, v)].
Proof.
  induction d as [| [k' v'] d IH]; intros H; [reflexivity |].
  simpl in *. destruct (String.eqb_spec k k') as [-> | _].
  - exfalso. apply H. now left.
  - rewrite IH; [reflexivity |]. intros Hin. apply H. now right.
Qed.

(** With unique names the ordered dict is the list of pairs. *)
Lemma od_of_pairs_nodup {V} (ps : list (string * V)) : forall acc,
  List.NoDup (od_keys (acc ++ ps)) ->
  fold_left (fun d kv => od_set (fst kv) (snd kv) d) ps acc = acc ++ ps.
Proof.
  induction ps as [| [k v] ps IH]; intros acc H; simpl.
  - now rewrite app_nil_r.
  - rewrite od_set_fresh by (eapply is_odict_split; exact H).
    rewrite IH; rewrite <- app_assoc; [reflexivity | exact H].
Qed.

Lemma init_fields cls :
  List.NoDup (map Schemas.name (fields cls)) ->
  __init__ cls [] = Ok (map (fun f => (Schemas.name f, f)) (fields cls)).
Proof.
  intros H. unfold __init__, od_of_pairs.
  rewrite od_of_pairs_nodup.
  - cbn [List.app for_each]. unfold ret. f_equal.
    apply map_ext. intros f. now rewrite replace_same.
  - cbn [List.app]. unfold od_keys. rewrite map_map. exact H.
Qed.

Lemma match_fields_set_value v k d :
  List.length (match_fields (od_alter (Schemas.set_value v) k d))
  = List.length (match_fields d).
Proof.
  induction d as [| [k' f] d IH]; [reflexivity |].
  unfold match_fields in *. cbn [od_alter].
  destruct (String.eqb k k'); cbn [List.filter snd Schemas.set_value
                                   Schemas.match_length].
  - now destruct (Schemas.match_length f).
  - destruct (Schemas.match_length f); cbn [List.length]; now rewrite IH.
Qed.

Lemma setattr_loop_match_fields kwargs : forall d,
  List.length
    (match_fields
       (fst (for_each kwargs (fun kv => __setattr__ (fst kv) (snd kv)) d)))
  = List.length (match_fields d).
Proof.
  induction kwargs as [| [k v] kwargs IH]; intros d; [reflexivity |].
  cbn [for_each fst snd]. unfold bind at 1.
  unfold __setattr__ at 1. unfold bind at 1, _fields at 1, get at 1.
  destruct (od_in k d); [| reflexivity].
  rewrite assign_run, IH. apply match_fields_set_value.
Qed.

Lemma init_match_fields cls kwargs m :
  List.NoDup (map Schemas.name (fields cls)) ->
  __init__ cls kwargs = Ok m ->
  List.length (match_fields m)
  = List.length (List.filter Schemas.match_length (fields cls)).
Proof.
  intros Hn. unfold __init__, od_of_pairs.
  rewrite od_of_pairs_nodup
    by (cbn [List.app]; unfold od_keys; now rewrite map_map).
  cbn [List.app].
  pose proof (setattr_loop_match_fields kwargs
                (map (fun k => (Schemas.name k, Schemas.replace k))
                     (fields cls))) as H.
  destruct (for_each kwargs _ _) as [d' [[] | e]]; [| discriminate].
  intros [= <-]. cbn [fst] in H. rewrite H. clear.
  induction (fields cls) as [| f fs IH]; [reflexivity |].
  unfold match_fields in *. cbn [map List.filter snd].
  rewrite replace_same.
  destruct (Schemas.match_length f); cbn [List.length]; now rewrite IH.
Qed.

Lemma setattr_loop_declared kwargs : forall d,
  Forall (fun kv => In (fst kv) (od_keys d)) kwargs ->
  exists d', for_each kwargs (fun kv => __setattr__ (fst kv) (snd kv)) d
             = (d', Ok tt).
Proof.
  induction kwargs as [| [k v] kwargs IH]; intros d H; [now exists d |].
  inversion H as [| ? ? Hk Hr]; subst. cbn [fst] in Hk.
  cbn [for_each fst snd]. unfold bind at 1.
  unfold __setattr__ at 1. unfold bind at 1, _fields at 1, get at 1.
  apply od_get_in in Hk. rewrite Hk, assign_run.
  apply IH. now rewrite od_alter_keys.
Qed.

Lemma init_declared cls kwargs :
  List.NoDup (map Schemas.name (fields cls)) ->
  Forall (fun kv => In (fst kv) (map Schemas.name (fields cls))) kwargs ->
  exists m, __init__ cls kwargs = Ok m.
Proof.
  intros Hn Hk. unfold __init__, od_of_pairs.
  rewrite od_of_pairs_nodup
    by (cbn [List.app]; unfold od_keys; now rewrite map_map).
  cbn [List.app].
  destruct (setattr_loop_declared kwargs
              (map (fun k => (Schemas.name k, Schemas.replace k))
                   (fields cls))) as [d' Hd'].
  - unfold od_keys. now rewrite map_map.
  - rewrite Hd'. eauto.
Qed.

(** C7, at the failing input: [TwoPayloads] declares two match-length
    fields.  On [TwoPayloads(head=b"hi", tail=b"hi")] the unpack-side
    resolution raises the schema error for every buffer length, as the
    claim says; the pack-side resolution, its sibling, has no such check:
    it sets both repeat counts and returns normally; and [pack()] itself
    ends with the unknown-field error of its first statement, not with the
    schema error. *)
Theorem pack_side_misses_the_schema_check :
  exists m m',
    __init__ TwoPayloads [("head", PyBytes hi); ("tail", PyBytes hi)] = Ok m
    /\ List.length (match_fields m) = 2%nat
    /\ (forall n, _set_match_length_unpack n m = (m, Raise only_one))
    /\ _set_match_length_pack m = (m', Ok tt)
    /\ map Schemas.length (od_values m') = [2; 2]
    /\ pack TwoPayloads m = (m, Raise (not_defined "_set_match_length")).
Proof. eexists. eexists. repeat split; reflexivity. Qed.

(** X22.  Where the schema check is made.  For every message type with
    distinct field names that declares more than one match-length field:
    construction succeeds, with any keywords that name declared fields;
    and on every instance of it the unpack-side resolution, hence [unpack]
    and [from_buffer] on any buffer, raises the schema error, leaving the
    instance as it was. *)
Theorem bad_schema_on_unpack cls :
  List.NoDup (map Schemas.name (fields cls)) ->
  (1 < List.length (List.filter Schemas.match_length (fields cls)))%nat ->
  (forall kwargs,
      Forall (fun kv => In (fst kv) (map Schemas.name (fields cls))) kwargs ->
      exists m, __init__ cls kwargs = Ok m)
  /\ (forall kwargs m,
        __init__ cls kwargs = Ok m ->
        (forall n, _set_match_length_unpack n m = (m, Raise only_one))
        /\ (forall buffer validate,
              unpack cls buffer validate m = (m, Raise only_one)))
  /\ (forall buffer validate,
        from_buffer cls buffer validate = Raise only_one).
Proof.
  intros Hn Hc.
  assert (Hall : forall kwargs m,
             __init__ cls kwargs = Ok m ->
             forall n, _set_match_length_unpack n m = (m, Raise only_one)).
  { intros kwargs m Hm n. apply set_match_length_unpack_many.
    now rewrite (init_match_fields _ _ _ Hn Hm). }
  split; [intros kwargs Hk; now apply init_declared |]. split.
  - intros kwargs m Hm. split; [now apply (Hall kwargs) |].
    intros buffer validate. apply unpack_resolution_fails.
    now apply (Hall kwargs).
  - intros buffer validate. unfold from_buffer.
    rewrite (init_fields _ Hn). cbn [rbind].
    rewrite (unpack_resolution_fails _ _ _ _ _ _
               (Hall [] _ (init_fields _ Hn) _)).
    reflexivity.
Qed.

Lemma bad_schema_on_unpack_witness :
  (List.NoDup (map Schemas.name (fields TwoPayloads))
   /\ (1 < List.length
             (List.filter Schemas.match_length (fields TwoPayloads)))%nat)
  /\ (exists m, __init__ TwoPayloads [] = Ok m)
  /\ from_buffer TwoPayloads hello_bytes true = Raise only_one.
Proof.
  assert (Hn : List.NoDup (map Schemas.name (fields TwoPayloads))).
  { simpl. repeat constructor; simpl; intuition discriminate. }
  assert (Hc : (1 < List.length
                      (List.filter Schemas.match_length
                         (fields TwoPayloads)))%nat)
    by (simpl; lia).
  split; [split; assumption |].
  destruct (bad_schema_on_unpack TwoPayloads Hn Hc) as (H1 & _ & H3).
  split; [apply H1; constructor | apply H3].
Defined.

End SchemaTheorems.

(* ================================================================== *)
(** ** Instances do not share descriptors                              *)
(* ================================================================== *)

Module ObjectFacts.
Import DynamicStruct Shape EngineFacts Examples Objects.

(** A method call writes only to the descriptors of [self]. *)
Lemma write_back_other self : forall d (h : Store) l,
  ~ In l (od_values self) -> write_back self d h !! l = h !! l.
Proof.
  induction self as [| [k r] self IH]; intros [| [k' f] d] h l H;
    try reflexivity.
  cbn [write_back]. cbn [od_values map snd] in H.
  rewrite IH by (intros Hin; apply H; now right).
  apply lookup_insert_ne. intros ->. apply H. now left.
Qed.

Lemma write_back_some self : forall d (h : Store) l,
  is_Some (h !! l) -> is_Some (write_back self d h !! l).
Proof.
  induction self as [| [k r] self IH]; intros [| [k' f] d] h l H;
    try exact H.
  cbn [write_back]. apply IH.
  destruct (decide (r = l)) as [-> | Hne].
  - rewrite lookup_insert_eq. eauto.
  - now rewrite lookup_insert_ne.
Qed.

Lemma call_other {A} (m : Method A) self (h : Store) l :
  ~ In l (od_values self) -> fst (call m self h) !! l = h !! l.
Proof.
  intros H. unfold call. destruct (load self h) as [d |]; [| reflexivity].
  destruct (m d) as [d' res]. cbn [fst]. now apply write_back_other.
Qed.

Lemma call_some {A} (m : Method A) self (h : Store) l :
  is_Some (h !! l) -> is_Some (fst (call m self h) !! l).
Proof.
  intros H. unfold call. destruct (load self h) as [d |]; [| exact H].
  destruct (m d) as [d' res]. cbn [fst]. now apply write_back_some.
Qed.

Lemma run_op_other cls self o (h : Store) l :
  ~ In l (od_values self) -> run_op cls self o h !! l = h !! l.
Proof. intros H. destruct o; cbn [run_op]; now apply call_other. Qed.

(** Any sequence of operations on [self] leaves every other object as it
    was. *)
Lemma run_ops_other cls self ops : forall (h : Store) l,
  ~ In l (od_values self) -> run_ops cls self ops h !! l = h !! l.
Proof.
  unfold run_ops. induction ops as [| o ops IH]; intros h l H;
    [reflexivity |].
  cbn [fold_left]. rewrite IH by exact H. now apply run_op_other.
Qed.

Lemma setattr_calls_other kwargs self : forall (h : Store) l,
  ~ In l (od_values self) ->
  fst (for_each kwargs
         (fun kv => call (__setattr__ (fst kv) (snd kv)) self) h) !! l
  = h !! l.
Proof.
  induction kwargs as [| kv kwargs IH]; intros h l H; [reflexivity |].
  cbn [for_each]. unfold bind at 1.
  pose proof (call_other (__setattr__ (fst kv) (snd kv)) self h l H) as Hc.
  destruct (call _ self h) as [h' [[] | e]]; cbn [fst] in *.
  - now rewrite IH.
  - exact Hc.
Qed.

Lemma setattr_calls_some kwargs self : forall (h : Store) l,
  is_Some (h !! l) ->
  is_Some (fst (for_each kwargs
                  (fun kv => call (__setattr__ (fst kv) (snd kv)) self) h)
           !! l).
Proof.
  induction kwargs as [| kv kwargs IH]; intros h l H; [exact H |].
  cbn [for_each]. unfold bind at 1.
  pose proof (call_some (__setattr__ (fst kv) (snd kv)) self h l H) as Hc.
  destruct (call _ self h) as [h' [[] | e]]; cbn [fst] in *.
  - now apply IH.
  - exact Hc.
Qed.

Lemma od_set_values {V} k (v : V) d x :
  In x (od_values (od_set k v d)) -> x = v \/ In x (od_values d).
Proof.
  induction d as [| [k' v'] d IH]; simpl.
  - intros [<- | []]. now left.
  - destruct (String.eqb k k'); simpl.
    + intros [<- | H]; [now left | right; now right].
    + intros [<- | H]; [right; now left |].
      destruct (IH H) as [-> | Hin]; [now left | right; now right].
Qed.

Lemma fresh_unused (h : Store) : h !! fresh (dom h) = None.
Proof. apply not_elem_of_dom, is_fresh. Qed.

(** Cloning the templates: old objects keep their contents and the clones
    are objects that did not exist before. *)
Lemma clone_fields_spec templates : forall acc (h h' : Store) self,
  clone_fields templates acc h = (h', Ok self) ->
  (forall l, is_Some (h !! l) -> h' !! l = h !! l)
  /\ (forall r, In r (od_values self) ->
        In r (od_values acc) \/ (h !! r = None /\ is_Some (h' !! r))).
Proof.
  induction templates as [| t ts IH]; intros acc h h' self.
  - intros [= <- <-]. split; auto.
  - cbn [clone_fields]. unfold bind at 1, deref at 1.
    destruct (h !! t) as [f |] eqn:Ht; [| discriminate].
    unfold bind at 1, replace at 1, bind at 1, deref at 1. rewrite Ht.
    unfold alloc at 1.
    set (r := fresh (dom h)). set (h1 := <[r := Schemas.replace f]> h).
    intros H. destruct (IH _ _ _ _ H) as (A & B).
    assert (Hr : h !! r = None) by apply fresh_unused.
    assert (Hext : forall l, is_Some (h !! l) -> h1 !! l = h !! l).
    { intros l [x Hl]. unfold h1. apply lookup_insert_ne.
      intros <-. congruence. }
    split.
    + intros l Hl. rewrite <- (Hext l Hl). apply A.
      rewrite (Hext l Hl). exact Hl.
    + intros x Hx. destruct (B x Hx) as [Hin | [Hn Hs]].
      * destruct (od_set_values _ _ _ _ Hin) as [-> | Hacc];
          [right | now left].
        split; [exact Hr |].
        rewrite A; unfold h1; rewrite lookup_insert_eq; eauto.
      * right. split; [| exact Hs].
        destruct (h !! x) as [y |] eqn:Hx'; [| reflexivity].
        rewrite (Hext x) in Hn by eauto. congruence.
Qed.

(** Construction: old objects keep their contents and the descriptors of
    the new instance are objects that did not exist before. *)
Lemma init_spec templates kwargs (h h' : Store) self :
  __init__ templates kwargs h = (h', Ok self) ->
  (forall l, is_Some (h !! l) -> h' !! l = h !! l)
  /\ (forall r, In r (od_values self) -> h !! r = None /\ is_Some (h' !! r)).
Proof.
  unfold __init__. unfold bind at 1.
  destruct (clone_fields templates [] h) as [h1 [self1 | e]] eqn:Hc;
    [| discriminate].
  destruct (clone_fields_spec _ _ _ _ _ Hc) as (A & B).
  unfold bind at 1.
  pose proof (setattr_calls_other kwargs self1 h1) as Ho.
  pose proof (setattr_calls_some kwargs self1 h1) as Hs.
  destruct (for_each kwargs _ h1) as [h2 [[] | e]]; [| discriminate].
  cbn [fst] in *. unfold ret. intros [= <- <-].
  assert (Hfresh : forall r, In r (od_values self1) ->
                     h !! r = None /\ is_Some (h1 !! r)).
  { intros r Hr. destruct (B r Hr) as [[] | H]. exact H. }
  split.
  - intros l Hl. rewrite Ho; [now apply A |].
    intros Hin. destruct (Hfresh l Hin) as [Hn _].
    destruct Hl as [x Hx]. congruence.
  - intros r Hr. destruct (Hfresh r Hr) as [Hn Hsome].
    split; [exact Hn | now apply Hs].
Qed.

(** *** The store-level constructor builds the instance of the
    value-level one *)

Lemma load_keys self : forall (h : Store) d,
  load self h = Some d -> od_keys d = od_keys self.
Proof.
  induction self as [| [k r] self IH]; intros h d; cbn [load].
  - now intros [= <-].
  - destruct (h !! r) as [f |]; [| discriminate].
    destruct (load self h) as [d0 |] eqn:E; [| discriminate].
    intros [= <-]. cbn [od_keys map fst]. f_equal. now apply (IH h).
Qed.

Lemma load_live self : forall (h : Store) d,
  load self h = Some d -> forall r, In r (od_values self) -> is_Some (h !! r).
Proof.
  induction self as [| [k r] self IH]; intros h d; cbn [load].
  - intros _ ? [].
  - destruct (h !! r) as [f |] eqn:Hr; [| discriminate].
    destruct (load self h) as [d0 |] eqn:E; [| discriminate].
    intros _ x [<- | Hin]; [exists f; exact Hr | now apply (IH h d0)].
Qed.

Lemma load_insert_other self : forall (h : Store) r f,
  ~ In r (od_values self) -> load self (<[r := f]> h) = load self h.
Proof.
  induction self as [| [k r'] self IH]; intros h r f H; [reflexivity |].
  cbn [load]. cbn [od_values map snd] in H.
  rewrite lookup_insert_ne by (intros ->; apply H; now left).
  rewrite IH by (intros Hin; apply H; now right). reflexivity.
Qed.

Lemma load_od_set acc : forall (h : Store) d k r f,
  load acc h = Some d -> ~ In r (od_values acc) ->
  load (od_set k r acc) (<[r := f]> h) = Some (od_set k f d).
Proof.
  induction acc as [| [k' r'] acc IH]; intros h d k r f; cbn [load].
  - intros [= <-] _. cbn [od_set load]. now rewrite lookup_insert_eq.
  - destruct (h !! r') as [f' |] eqn:Hr'; [| discriminate].
    destruct (load acc h) as [d0 |] eqn:E; [| discriminate].
    intros [= <-] H. cbn [od_values map snd] in H. cbn [od_set].
    destruct (String.eqb k k'); cbn [load].
    + rewrite lookup_insert_eq.
      rewrite load_insert_other by (intros Hin; apply H; now right).
      now rewrite E.
    + rewrite lookup_insert_ne by (intros ->; apply H; now left).
      rewrite Hr'.
      rewrite (IH h d0 k r f E) by (intros Hin; apply H; now right).
      reflexivity.
Qed.

Lemma od_set_nodup (acc : Instance) k r :
  List.NoDup (od_values acc) -> ~ In r (od_values acc) ->
  List.NoDup (od_values (od_set k r acc)).
Proof.
  induction acc as [| [k' r'] acc IH]; intros Hn Hr.
  - cbn. constructor; [intros [] | constructor].
  - cbn [od_set]. cbn [od_values map snd] in *.
    inversion Hn as [| ? ? Hr' Hacc]; subst.
    destruct (String.eqb k k'); cbn [od_values map snd].
    + constructor; [| exact Hacc]. intros Hin. apply Hr. now right.
    + constructor.
      * intros Hin. destruct (od_set_values _ _ _ _ Hin) as [-> | Hin'];
          [apply Hr; now left | now apply Hr'].
      * apply IH; [exact Hacc |]. intros Hin. apply Hr. now right.
Qed.

Lemma load_write_back self : forall d (h : Store),
  List.NoDup (od_values self) -> od_keys d = od_keys self ->
  load self (write_back self d h) = Some d.
Proof.
  induction self as [| [k r] self IH]; intros [| [k' f] d] h Hn Hk;
    try discriminate; [reflexivity |].
  cbn [od_keys map fst] in Hk. injection Hk as -> Hk.
  cbn [od_values map snd] in Hn. inversion Hn as [| ? ? Hr Hs]; subst.
  cbn [write_back load].
  rewrite (write_back_other self d _ r Hr), lookup_insert_eq.
  now rewrite (IH d _ Hs Hk).
Qed.

(** Cloning reads each template and inserts its copy under its name. *)
Lemma clone_fields_refines templates : forall fs acc (h : Store) d,
  Forall2 (fun t f => h !! t = Some f) templates fs ->
  load acc h = Some d ->
  List.NoDup (od_values acc) ->
  exists h' self,
    clone_fields templates acc h = (h', Ok self)
    /\ load self h'
       = Some (fold_left (fun d kv => od_set (fst kv) (snd kv) d)
                 (map (fun k => (Schemas.name k, Schemas.replace k)) fs) d)
    /\ List.NoDup (od_values self).
Proof.
  induction templates as [| t ts IH]; intros fs acc h d HF Hl Hn.
  - inversion HF; subst. exists h, acc. now repeat split.
  - inversion HF as [| ? f ? fs' Ht HF']; subst.
    cbn [clone_fields]. unfold bind at 1, deref at 1. rewrite Ht.
    unfold bind at 1, replace at 1, bind at 1, deref at 1. rewrite Ht.
    unfold alloc at 1.
    set (r := fresh (dom h)).
    assert (Hr : h !! r = None) by apply fresh_unused.
    assert (Hacc : ~ In r (od_values acc)).
    { intros Hin. destruct (load_live _ _ _ Hl r Hin) as [x Hx]. congruence. }
    cbn [map fold_left fst snd].
    apply IH.
    + eapply Forall2_impl; [exact HF' |]. intros t' f' Ht'. cbn.
      rewrite lookup_insert_ne; [exact Ht' |]. intros <-. congruence.
    + now apply load_od_set.
    + now apply od_set_nodup.
Qed.

(** The keyword loop of the constructor, on the store and by value. *)
Lemma setattr_calls_refine kwargs self : forall (h : Store) d,
  load self h = Some d ->
  List.NoDup (od_values self) ->
  let run := for_each kwargs
               (fun kv => DynamicStruct.__setattr__ (fst kv) (snd kv)) d in
  exists h',
    for_each kwargs
      (fun kv => call (DynamicStruct.__setattr__ (fst kv) (snd kv)) self) h
    = (h', snd run)
    /\ load self h' = Some (fst run).
Proof.
  induction kwargs as [| [k v] kwargs IH]; intros h d Hl Hn; cbv zeta.
  - exists h. now split.
  - cbn [for_each fst snd]. unfold bind at 1 2 3. unfold call at 1.
    rewrite Hl.
    assert (Hk : od_keys (fst (DynamicStruct.__setattr__ k v d)) = od_keys d).
    { unfold DynamicStruct.__setattr__. unfold bind, _fields, get.
      destruct (od_in k d); [| reflexivity].
      rewrite assign_run. cbn [fst]. apply od_alter_keys. }
    destruct (DynamicStruct.__setattr__ k v d) as [d1 res] eqn:E.
    cbn [fst] in Hk.
    assert (Hl1 : load self (write_back self d1 h) = Some d1).
    { apply load_write_back; [exact Hn |].
      rewrite Hk. now apply (load_keys self h). }
    destruct res as [[] | e].
    + destruct (IH _ _ Hl1 Hn) as (h' & Hrun & Hload).
      exists h'. now split.
    + eexists. split; [reflexivity | exact Hl1].
Qed.

(** Building an instance from the shared templates gives, in the store,
    the descriptors that the constructor computes from the template
    values; it fails exactly when that one fails, with the same error. *)
Lemma init_refines cls templates kwargs (h : Store) :
  Forall2 (fun t f => h !! t = Some f) templates (fields cls) ->
  match DynamicStruct.__init__ cls kwargs with
  | Ok m =>
      exists h' self,
        __init__ templates kwargs h = (h', Ok self)
        /\ load self h' = Some m
  | Raise e => exists h', __init__ templates kwargs h = (h', Raise e)
  end.
Proof.
  intros HF.
  destruct (clone_fields_refines templates (fields cls) [] h [] HF eq_refl)
    as (h1 & self & Hc & Hl & Hn); [constructor |].
  destruct (setattr_calls_refine kwargs self h1 _ Hl Hn) as (h2 & Hrun & Hl2).
  cbv zeta in Hrun, Hl2.
  unfold DynamicStruct.__init__, od_of_pairs.
  destruct (for_each kwargs
              (fun kv => DynamicStruct.__setattr__ (fst kv) (snd kv)) _)
    as [m [[] | e]]; cbn [fst snd] in *.
  - exists h2, self. split; [| exact Hl2].
    unfold __init__. unfold bind at 1. rewrite Hc.
    unfold bind at 1. now rewrite Hrun.
  - exists h2. unfold __init__. unfold bind at 1. rewrite Hc.
    unfold bind at 1. now rewrite Hrun.
Qed.

(** After the class statement every template exists. *)
Lemma alloc_all_live fs : forall (h h' : Store) ts,
  alloc_all fs h = (h', Ok ts) ->
  (forall l, is_Some (h !! l) -> is_Some (h' !! l))
  /\ (forall t, In t ts -> is_Some (h' !! t)).
Proof.
  induction fs as [| f fs IH]; intros h h' ts.
  - intros [= <- <-]. split; [auto | intros ? []].
  - cbn [alloc_all]. unfold bind at 1, alloc at 1. unfold bind at 1.
    destruct (alloc_all fs _) as [h1 [rs | e]] eqn:Ha; [| discriminate].
    unfold ret. intros [= <- <-]. destruct (IH _ _ _ Ha) as (A & B).
    assert (Hext : forall l, is_Some (h !! l) ->
                     is_Some (<[fresh (dom h) := f]> h !! l)).
    { intros l Hl. destruct (decide (fresh (dom h) = l)) as [<- | Hne];
        [rewrite lookup_insert_eq; eauto | now rewrite lookup_insert_ne]. }
    split.
    + intros l Hl. now apply A, Hext.
    + intros t [<- | Hin]; [| now apply B].
      apply A. rewrite lookup_insert_eq. eauto.
Qed.

(** C10.  Two instances built one after the other from the same shared
    template list hold descriptors of their own.  In whatever store [s] a
    sequence of field assignments, field reads, [pack] calls and [unpack]
    calls runs on one of them, every descriptor of the other instance and
    every template descriptor keeps its whole state.  Building the
    instances changes no template either, and building the second changes
    no descriptor of the first. *)
Theorem instances_are_isolated cls templates kw1 kw2
    (h h1 h2 : Store) i1 i2 ops :
  (forall t, In t templates -> is_Some (h !! t)) ->
  __init__ templates kw1 h = (h1, Ok i1) ->
  __init__ templates kw2 h1 = (h2, Ok i2) ->
  (forall (s : Store) r, In r (od_values i2) ->
     run_ops cls i1 ops s !! r = s !! r)
  /\ (forall (s : Store) r, In r (od_values i1) ->
        run_ops cls i2 ops s !! r = s !! r)
  /\ (forall (s : Store) t, In t templates ->
        run_ops cls i1 ops s !! t = s !! t
        /\ run_ops cls i2 ops s !! t = s !! t)
  /\ (forall t, In t templates -> h2 !! t = h !! t)
  /\ (forall r, In r (od_values i1) -> h2 !! r = h1 !! r).
Proof.
  intros Ht H1 H2.
  destruct (init_spec _ _ _ _ _ H1) as (A1 & B1).
  destruct (init_spec _ _ _ _ _ H2) as (A2 & B2).
  assert (Hdisj : forall r, In r (od_values i1) -> ~ In r (od_values i2)).
  { intros r Hr1 Hr2. destruct (B1 r Hr1) as [_ [x Hx]].
    destruct (B2 r Hr2) as [Hn _]. congruence. }
  assert (Ht1 : forall t, In t templates -> ~ In t (od_values i1)).
  { intros t Hin Hr. destruct (Ht t Hin) as [x Hx].
    destruct (B1 t Hr) as [Hn _]. congruence. }
  assert (Ht2 : forall t, In t templates -> ~ In t (od_values i2)).
  { intros t Hin Hr. destruct (Ht t Hin) as [x Hx].
    destruct (B2 t Hr) as [Hn _]. rewrite A1 in Hn by eauto. congruence. }
  repeat split.
  - intros s r Hr. apply run_ops_other. intros Hr1. now apply (Hdisj r).
  - intros s r Hr. apply run_ops_other. now apply Hdisj.
  - apply run_ops_other. now apply Ht1.
  - apply run_ops_other. now apply Ht2.
  - intros t Hin. rewrite A2; [now apply A1, Ht |].
    rewrite A1 by now apply Ht. now apply Ht.
  - intros r Hr. apply A2. now apply B1.
Qed.

Lemma instances_are_isolated_witness :
  (forall t, In t ObjectExamples.hello_templates ->
     is_Some (ObjectExamples.class_store !! t))
  /\ (forall r, In r (od_values ObjectExamples.first) ->
        run_ops HelloMessage ObjectExamples.second ObjectExamples.some_ops
          ObjectExamples.store2 !! r
        = ObjectExamples.store2 !! r)
  /\ (forall t, In t ObjectExamples.hello_templates ->
        run_ops HelloMessage ObjectExamples.second ObjectExamples.some_ops
          ObjectExamples.store2 !! t
        = ObjectExamples.class_store !! t).
Proof.
  assert (Ht : forall t, In t ObjectExamples.hello_templates ->
                 is_Some (ObjectExamples.class_store !! t)).
  { intros t [<- | [<- | [<- | []]]]; vm_compute; eauto. }
  split; [exact Ht |].
  destruct (instances_are_isolated HelloMessage
              ObjectExamples.hello_templates hello_kwargs []
              ObjectExamples.class_store ObjectExamples.store1
              ObjectExamples.store2 ObjectExamples.first
              ObjectExamples.second ObjectExamples.some_ops
              Ht eq_refl eq_refl) as (_ & H2 & H3 & H4 & _).
  split; [intros r Hr; now apply H2 |].
  intros t Hin. rewrite (proj2 (H3 _ t Hin)). now apply H4.
Defined.

End ObjectFacts.

(* ================================================================== *)
(** ** Further properties: attribute access                            *)
(* ================================================================== *)

Module AccessTheorems.
Import DynamicStruct Shape Frame EngineFacts Examples.

Lemma od_get_alter g k k' d :
  od_get k' (od_alter g k d)
  = if String.eqb k k' then option_map g (od_get k d) else od_get k' d.
Proof.
  induction d as [| [k0 f] d IH]; simpl.
  - now destruct (String.eqb k k').
  - destruct (String.eqb_spec k k0) as [-> | Hne]; simpl.
    + destruct (String.eqb_spec k0 k') as [-> | Hne'].
      * now rewrite String.eqb_refl.
      * destruct (String.eqb_spec k' k0) as [-> | _]; [now destruct Hne' |].
        reflexivity.
    + destruct (String.eqb_spec k' k0) as [-> | Hne'].
      * destruct (String.eqb_spec k k0) as [-> | _]; [now destruct Hne |].
        reflexivity.
      * exact IH.
Qed.

(** X1.  Writing a declared field and reading it back: the read answers
    the written value when that value is truthy and the field's default
    otherwise; the write reaches no other name, whose read answers what
    it answered before. *)
Theorem setattr_then_getattr name v d f :
  od_get name d = Some f ->
  (do __setattr__ name v then __getattr__ name) d
  = (od_alter (Schemas.set_value v) name d,
     Ok (if truthy v then v else Schemas.default f))
  /\ forall other,
       other <> name ->
       snd ((do __setattr__ name v then __getattr__ other) d)
       = snd (__getattr__ other d).
Proof.
  intros H. split.
  - unfold bind at 1. unfold __setattr__, od_in. unfold bind at 1.
    unfold _fields at 1, get at 1. rewrite H, assign_run.
    unfold __getattr__. unfold bind, _fields, get.
    rewrite od_get_alter, String.eqb_refl, H. reflexivity.
  - intros other Hne. unfold bind at 1. unfold __setattr__, od_in.
    unfold bind at 1. unfold _fields at 1, get at 1. rewrite H, assign_run.
    unfold __getattr__. unfold bind, _fields, get.
    rewrite od_get_alter.
    destruct (String.eqb_spec name other) as [-> | _]; [now destruct Hne |].
    now destruct (od_get other d).
Qed.

Lemma setattr_then_getattr_witness :
  od_get "world" hello_m = Some (Schemas.set_value (PyInt 1) (Schemas.new "world"))
  /\ snd ((do __setattr__ "world" (PyInt 7) then __getattr__ "world") hello_m)
     = Ok (PyInt 7)
  /\ snd ((do __setattr__ "world" (PyInt 7) then __getattr__ "hello") hello_m)
     = Ok (PyInt 1).
Proof.
  split; [reflexivity |].
  destruct (setattr_then_getattr "world" (PyInt 7) hello_m _ eq_refl)
    as [H1 H2].
  split; [now rewrite H1 |].
  rewrite (H2 "hello"); [reflexivity | discriminate].
Defined.

Lemma segments_alter_value v k d :
  map segment (od_values (od_alter (Schemas.set_value v) k d))
  = map segment (od_values d).
Proof.
  induction d as [| [k0 f] d IH]; [reflexivity |].
  cbn [od_alter]. destruct (String.eqb k k0); cbn [od_values map snd].
  - reflexivity.
  - f_equal. exact IH.
Qed.

(** X3.  An assignment, accepted or refused, keeps the keys and their
    order, leaves every other descriptor as it was, changes nothing but
    the value of the descriptor it names, and so never changes the layout
    or the size of the message. *)
Theorem setattr_frame name v d :
  let d' := fst (__setattr__ name v d) in
  od_keys d' = od_keys d
  /\ (forall other, other <> name -> od_get other d' = od_get other d)
  /\ (forall f', od_get name d' = Some f' ->
        exists f, od_get name d = Some f /\ f' = Schemas.set_value v f)
  /\ snd (struct d') = snd (struct d)
  /\ snd (size d') = snd (size d).
Proof.
  cbv zeta. unfold __setattr__, od_in, bind, _fields, get.
  destruct (od_get name d) as [f |] eqn:H; cbn [fst].
  - rewrite assign_run. cbn [fst]. repeat split.
    + apply od_alter_keys.
    + intros other Hne. rewrite od_get_alter.
      destruct (String.eqb_spec name other) as [-> | _];
        [now destruct Hne | reflexivity].
    + intros f'. rewrite od_get_alter, String.eqb_refl, H.
      intros [= <-]. eauto.
    + rewrite !struct_run. cbn [snd]. unfold layout.
      now rewrite segments_alter_value.
    + rewrite !size_run. cbn [snd]. unfold layout.
      now rewrite segments_alter_value.
  - repeat split; try reflexivity. intros f' Hf.
    unfold raise in Hf. cbn [fst] in Hf. congruence.
Qed.

(** The [values] loop over a suffix of the keys, none of them the name
    of an attribute. *)
Lemma getattr_all_run d : forall pre,
  is_odict (pre ++ d) ->
  Forall (fun k => is_attribute k = false) (od_keys d) ->
  getattr_all (od_keys d) (pre ++ d)
  = (pre ++ d, Ok (map (fun kf => (fst kf, effective (snd kf))) d)).
Proof.
  induction d as [| [k f] d IH]; intros pre H Ha; [reflexivity |].
  change (od_keys ((k, f) :: d)) with (k :: od_keys d) in *.
  inversion Ha as [| ? ? Hk Hr]; subst.
  cbn [getattr_all]. unfold bind at 1.
  unfold getattr at 1. rewrite Hk. cbn [negb].
  unfold __getattr__ at 1. unfold bind at 1, _fields at 1, get at 1.
  rewrite (od_get_here k f pre d (is_odict_split _ _ _ _ H)).
  unfold ret at 1. unfold bind at 1.
  change (pre ++ (k, f) :: d) with (pre ++ [(k, f)] ++ d).
  rewrite app_assoc, IH by (now rewrite <- ?app_assoc).
  reflexivity.
Qed.

(** X4.  On an instance none of whose field names is the name of an
    attribute of the class, [values] never raises and changes nothing: it
    answers, in declaration order, every field name with
    [value or default] of its descriptor. *)
Theorem values_lists_effective_values d :
  is_odict d ->
  Forall (fun k => is_attribute k = false) (od_keys d) ->
  values d = (d, Ok (map (fun kf => (fst kf, effective (snd kf))) d)).
Proof.
  intros H Ha. unfold values, bind, _fields, get.
  exact (getattr_all_run d [] H Ha).
Qed.

Lemma values_lists_effective_values_witness :
  (is_odict hello_m
   /\ Forall (fun k => is_attribute k = false) (od_keys hello_m))
  /\ values hello_m
     = (hello_m,
        Ok [("hello", PyInt 1); ("world", PyInt 1); ("payload", PyBytes hi)]).
Proof.
  assert (Hd : is_odict hello_m).
  { unfold is_odict. simpl. repeat constructor; simpl; intuition discriminate. }
  assert (Ha : Forall (fun k => is_attribute k = false) (od_keys hello_m))
    by (repeat constructor).
  split; [split; assumption |].
  exact (values_lists_effective_values hello_m Hd Ha).
Defined.

(** A field named like an attribute is shadowed by it: for a 16-bit field
    called [size] holding 7, [values] answers the size of the message, 2;
    a field called [values] makes the property re-enter itself. *)
Example values_reads_the_attribute :
  snd (values [("size",
                {| Schemas.name := "size"; Schemas.struct := "H";
                   Schemas.length := 1; Schemas.default := PyInt 0;
                   Schemas.value := PyInt 7;
                   Schemas.match_length := false |})])
  = Ok [("size", PyInt 2)]
  /\ snd (values [("values", Schemas.new "values")]) = Raise RecursionError.
Proof. split; reflexivity. Qed.

End AccessTheorems.

(* ================================================================== *)
(** ** Further properties: construction and the key list               *)
(* ================================================================== *)

Module ConstructionTheorems.
Import DynamicStruct Shape Frame LayoutFacts EngineFacts Examples.

Lemma od_get_set {V} k' k (v : V) d :
  od_get k' (od_set k v d) = if String.eqb k' k then Some v else od_get k' d.
Proof.
  induction d as [| [k0 v0] d IH]; simpl.
  - reflexivity.
  - destruct (String.eqb_spec k k0) as [-> | Hne]; simpl.
    + now destruct (String.eqb k' k0).
    + destruct (String.eqb_spec k' k0) as [-> | _]; [| exact IH].
      destruct (String.eqb_spec k0 k) as [-> | _]; [now destruct Hne |].
      reflexivity.
Qed.

Lemma od_keys_set {V} k (v : V) d :
  od_keys (od_set k v d)
  = if od_in k d then od_keys d else od_keys d ++ [k].
Proof.
  unfold od_in. induction d as [| [k0 v0] d IH]; simpl; [reflexivity |].
  destruct (String.eqb k k0); simpl; [reflexivity |].
  rewrite IH. now destruct (od_get k d).
Qed.

Lemma od_set_is_odict {V} k (v : V) d : is_odict d -> is_odict (od_set k v d).
Proof.
  unfold is_odict. intros H. rewrite od_keys_set.
  destruct (od_in k d) eqn:E; [exact H |].
  apply List.NoDup_app; [exact H | |].
  - constructor; [intros [] | constructor].
  - intros x Hx [<- | []]. apply od_get_in in Hx. congruence.
Qed.

Lemma find_app_first {A} (p : A -> bool) l1 l2 :
  List.find p (l1 ++ l2)
  = match List.find p l1 with
    | Some x => Some x
    | None => List.find p l2
    end.
Proof.
  induction l1 as [| a l1 IH]; [reflexivity |].
  cbn [List.app List.find]. now destruct (p a).
Qed.

Lemma od_of_pairs_facts {V} (ps : list (string * V)) : forall acc,
  is_odict acc ->
  let d := fold_left (fun d kv => od_set (fst kv) (snd kv) d) ps acc in
  is_odict d
  /\ (forall k, od_get k d
                = match List.find (fun kv => String.eqb k (fst kv)) (rev ps) with
                  | Some kv => Some (snd kv)
                  | None => od_get k acc
                  end)
  /\ (forall k, In k (od_keys d) <-> In k (od_keys acc) \/ In k (map fst ps)).
Proof.
  induction ps as [| [k0 v0] ps IH]; intros acc H; cbv zeta.
  - repeat split; auto. intros [? | []]; assumption.
  - cbn [fold_left fst snd].
    destruct (IH (od_set k0 v0 acc) (od_set_is_odict _ _ _ H))
      as (H1 & H2 & H3).
    split; [exact H1 |]. split.
    + intros k. rewrite H2. cbn [rev]. rewrite find_app_first.
      destruct (List.find _ (rev ps)); [reflexivity |].
      cbn [List.find fst snd]. rewrite od_get_set.
      now destruct (String.eqb k k0).
    + intros k. rewrite H3, od_keys_set. cbn [map fst].
      destruct (od_in k0 acc) eqn:E.
      * apply od_get_in in E. cbn [In]. split; [tauto |].
        intros [? | [<- | ?]]; auto.
      * rewrite in_app_iff. cbn [In]. tauto.
Qed.

Lemma setattr_loop_keys kw : forall d,
  od_keys (fst (for_each kw (fun kv => __setattr__ (fst kv) (snd kv)) d))
  = od_keys d.
Proof.
  induction kw as [| [k v] kw IH]; intros d; [reflexivity |].
  cbn [for_each fst snd]. unfold bind at 1.
  unfold __setattr__ at 1. unfold bind at 1, _fields at 1, get at 1.
  destruct (od_in k d); [| reflexivity].
  rewrite assign_run, IH. apply od_alter_keys.
Qed.

(** The dict [__init__] builds before it looks at the keywords. *)
Lemma init_dict_facts cls :
  let d0 := od_of_pairs
              (map (fun k => (Schemas.name k, Schemas.replace k))
                   (fields cls)) in
  is_odict d0
  /\ (forall k, In k (od_keys d0) <-> In k (map Schemas.name (fields cls)))
  /\ (forall k, od_get k d0 = last_declared k (fields cls)).
Proof.
  destruct (od_of_pairs_facts
              (map (fun k => (Schemas.name k, Schemas.replace k)) (fields cls))
              [] (List.NoDup_nil _)) as (H1 & H2 & H3).
  cbv zeta in *. unfold od_of_pairs.
  split; [exact H1 |]. split.
  - intros k. rewrite H3, map_map. cbn [od_keys map In fst]. tauto.
  - intros k. rewrite H2. unfold last_declared. rewrite <- map_rev.
    induction (rev (fields cls)) as [| f fs IH]; [reflexivity |].
    cbn [map List.find fst snd]. destruct (String.eqb k (Schemas.name f)).
    + now destruct f.
    + exact IH.
Qed.

(** X5.  Construction without keywords never fails.  The instance has
    unique keys, which are the declared names; under each name sits a
    copy of the last template declared with it, so that a name declared
    twice keeps the position of its first declaration and the content of
    its last.  Keywords never change the key list. *)
Theorem construction_shape cls :
  exists m0,
    __init__ cls [] = Ok m0
    /\ is_odict m0
    /\ (forall k, In k (od_keys m0) <-> In k (map Schemas.name (fields cls)))
    /\ (forall k, od_get k m0 = last_declared k (fields cls))
    /\ (forall kwargs m, __init__ cls kwargs = Ok m -> od_keys m = od_keys m0).
Proof.
  eexists. split; [reflexivity |].
  destruct (init_dict_facts cls) as (H1 & H2 & H3). cbv zeta in *.
  split; [exact H1 |]. split; [exact H2 |]. split; [exact H3 |].
  intros kwargs m. unfold __init__.
  pose proof (setattr_loop_keys kwargs
                (od_of_pairs
                   (map (fun k => (Schemas.name k, Schemas.replace k))
                        (fields cls)))) as Hk.
  destruct (for_each kwargs
              (fun kv => __setattr__ (fst kv) (snd kv)) _)
    as [d' [[] | e]]; [| discriminate].
  now intros [= <-].
Qed.

Lemma od_get_declared (fs : list DynamicStructField) f :
  List.NoDup (map Schemas.name fs) -> In f fs ->
  od_get (Schemas.name f) (map (fun g => (Schemas.name g, g)) fs) = Some f.
Proof.
  induction fs as [| g fs IH]; intros Hn Hin; [destruct Hin |].
  destruct Hin as [-> | Hin]; cbn [map od_get].
  - now rewrite String.eqb_refl.
  - cbn [map] in Hn. inversion Hn as [| ? ? Hg Hfs]; subst.
    destruct (String.eqb_spec (Schemas.name f) (Schemas.name g)) as [E | _].
    + exfalso. apply Hg. rewrite <- E. now apply in_map.
    + now apply IH.
Qed.

(** X6.  With distinct declared names, a freshly constructed instance
    lists the templates as declared, one descriptor per template in
    declaration order, and reading any field answers its template's
    [value or default]: the default whenever the template sets no value. *)
Theorem fresh_instance_reads_defaults cls :
  List.NoDup (map Schemas.name (fields cls)) ->
  exists m,
    __init__ cls [] = Ok m
    /\ od_keys m = map Schemas.name (fields cls)
    /\ od_values m = fields cls
    /\ forall f, In f (fields cls) ->
         __getattr__ (Schemas.name f) m = (m, Ok (effective f))
         /\ (Schemas.value f = PyNone ->
             __getattr__ (Schemas.name f) m = (m, Ok (Schemas.default f))).
Proof.
  intros Hn. exists (map (fun f => (Schemas.name f, f)) (fields cls)).
  split; [now apply SchemaTheorems.init_fields |].
  split; [unfold od_keys; rewrite map_map; reflexivity |].
  split; [unfold od_values; rewrite map_map; apply map_id |].
  intros f Hin.
  assert (H : __getattr__ (Schemas.name f)
                (map (fun f => (Schemas.name f, f)) (fields cls))
              = (map (fun f => (Schemas.name f, f)) (fields cls),
                 Ok (effective f))).
  { unfold __getattr__, bind, _fields, get.
    now rewrite (od_get_declared _ _ Hn Hin). }
  split; [exact H |]. intros Hv. rewrite H. unfold effective, py_or.
  now rewrite Hv.
Qed.

Lemma fresh_instance_reads_defaults_witness :
  List.NoDup (map Schemas.name (fields HelloMessage))
  /\ exists m,
       __init__ HelloMessage [] = Ok m
       /\ __getattr__ "hello" m = (m, Ok (PyInt 1)).
Proof.
  assert (Hn : List.NoDup (map Schemas.name (fields HelloMessage))).
  { simpl. repeat constructor; simpl; intuition discriminate. }
  split; [exact Hn |].
  destruct (fresh_instance_reads_defaults HelloMessage Hn)
    as (m & Hm & _ & _ & Hf).
  exists m. split; [exact Hm |].
  exact (proj2 (Hf (hd (Schemas.new "") (fields HelloMessage))
                   (or_introl eq_refl)) eq_refl).
Defined.

(** X7.  A construction keyword that names no declared field ends the
    construction with the unknown-field error for that name, whatever
    declared keywords come before it and whatever comes after. *)
Theorem constructor_refuses_unknown_keyword cls pre name v post :
  Forall (fun kv => In (fst kv) (map Schemas.name (fields cls))) pre ->
  ~ In name (map Schemas.name (fields cls)) ->
  __init__ cls (pre ++ (name, v) :: post) = Raise (not_defined name).
Proof.
  intros Hpre Hname.
  destruct (init_dict_facts cls) as (_ & Hk0 & _). cbv zeta in Hk0.
  unfold __init__. rewrite for_each_app. unfold bind at 1.
  set (d0 := od_of_pairs _) in *.
  destruct (SchemaTheorems.setattr_loop_declared pre d0) as [d1 Hd1].
  { eapply List.Forall_impl; [| exact Hpre]. intros kv. apply Hk0. }
  pose proof (setattr_loop_keys pre d0) as Hk1. rewrite Hd1 in *.
  cbn [fst] in Hk1. cbn [for_each fst snd]. unfold bind at 1.
  unfold __setattr__ at 1. unfold bind at 1, _fields at 1, get at 1.
  destruct (od_in name d1) eqn:E; [| reflexivity].
  exfalso. apply Hname, Hk0. rewrite <- Hk1. now apply od_get_in.
Qed.

Lemma constructor_refuses_unknown_keyword_witness :
  (Forall (fun kv => In (fst kv) (map Schemas.name (fields HelloMessage)))
     [("world", PyInt 1)]
   /\ ~ In "length" (map Schemas.name (fields HelloMessage)))
  /\ __init__ HelloMessage
       [("world", PyInt 1); ("length", PyInt 3); ("hello", PyInt 2)]
     = Raise (NameError "Field 'length' is not defined").
Proof.
  assert (H1 : Forall (fun kv => In (fst kv)
                                   (map Schemas.name (fields HelloMessage)))
                 [("world", PyInt 1)]).
  { constructor; [simpl; tauto | constructor]. }
  assert (H2 : ~ In "length" (map Schemas.name (fields HelloMessage))).
  { simpl. intuition discriminate. }
  split; [split; assumption |].
  exact (constructor_refuses_unknown_keyword HelloMessage
           [("world", PyInt 1)] "length" (PyInt 3) [("hello", PyInt 2)]
           H1 H2).
Defined.

End ConstructionTheorems.

(* ================================================================== *)
(** ** Further properties: what the methods keep                       *)
(* ================================================================== *)

Module InvariantTheorems.
Import DynamicStruct Shape Frame LayoutFacts EngineFacts Examples.

Lemma bind_keeps_keys {A B} (m : Method A) (k : A -> Method B) :
  (forall s, od_keys (fst (m s)) = od_keys s) ->
  (forall a s, od_keys (fst (k a s)) = od_keys s) ->
  forall s, od_keys (fst (bind m k s)) = od_keys s.
Proof.
  intros Hm Hk s. unfold bind. specialize (Hm s).
  destruct (m s) as [s' [a | e]]; cbn [fst] in *; [| exact Hm].
  now rewrite Hk.
Qed.

Lemma for_each_keeps_keys {A} (xs : list A) (body : A -> Method unit) :
  (forall x s, od_keys (fst (body x s)) = od_keys s) ->
  forall s, od_keys (fst (for_each xs body s)) = od_keys s.
Proof.
  intros Hb. induction xs as [| x xs IH]; intros s; [reflexivity |].
  cbn [for_each]. apply bind_keeps_keys; [apply Hb | intros _; exact IH].
Qed.

Lemma assign_keeps_keys k g s : od_keys (fst (assign k g s)) = od_keys s.
Proof. rewrite assign_run. apply od_alter_keys. Qed.

Lemma field_keeps_keys k s : od_keys (fst (field k s)) = od_keys s.
Proof.
  unfold field, bind, _fields, get. now destruct (od_get k s).
Qed.

Lemma segments_od_map g d :
  (forall f, segment (g f) = segment f) ->
  map segment (od_values (od_map g d)) = map segment (od_values d).
Proof.
  intros Hg. unfold od_values, od_map. rewrite !map_map. cbn [snd].
  apply map_ext. intros [k f]. apply Hg.
Qed.

(** X8.  No method that assigns to descriptors adds, removes or reorders
    a key: [__setattr__], [_set_length], both match-length resolutions and
    [unpack], however they end, leave the key list of the instance as it
    was, and with it the uniqueness of its keys. *)
Theorem methods_keep_the_keys cls d :
  (forall name v, od_keys (fst (__setattr__ name v d)) = od_keys d)
  /\ od_keys (fst (_set_length d)) = od_keys d
  /\ od_keys (fst (_set_match_length_pack d)) = od_keys d
  /\ (forall n, od_keys (fst (_set_match_length_unpack n d)) = od_keys d)
  /\ (forall buffer validate,
        od_keys (fst (unpack cls buffer validate d)) = od_keys d
        /\ (is_odict d -> is_odict (fst (unpack cls buffer validate d)))).
Proof.
  split; [| split; [| split; [| split]]].
  - intros name v. unfold __setattr__, bind, _fields, get.
    destruct (od_in name d); [apply assign_keeps_keys | reflexivity].
  - unfold _set_length. unfold bind at 1, _fields at 1, get at 1.
    apply for_each_keeps_keys. intros k s.
    apply bind_keeps_keys; [apply field_keeps_keys |].
    intros f s'. destruct (Schemas.match_length f); [| reflexivity].
    apply bind_keeps_keys; [reflexivity | intros; apply assign_keeps_keys].
  - unfold _set_match_length_pack. unfold bind at 1, _fields at 1, get at 1.
    apply for_each_keeps_keys. intros k s.
    apply bind_keeps_keys; [apply field_keeps_keys |].
    intros f s'. destruct (Schemas.match_length f); [| reflexivity].
    apply bind_keeps_keys; [reflexivity | intros; apply assign_keeps_keys].
  - intros n. apply set_match_length_unpack_keys.
  - intros buffer validate.
    assert (H : od_keys (fst (unpack cls buffer validate d)) = od_keys d).
    { unfold unpack.
      apply bind_keeps_keys; [intros s; apply set_match_length_unpack_keys |].
      intros _ s. apply bind_keeps_keys; [reflexivity |].
      intros fmt s1. apply bind_keeps_keys; [reflexivity |].
      intros vals s2. apply bind_keeps_keys; [reflexivity |].
      intros d0 s3. apply bind_keeps_keys.
      - apply for_each_keeps_keys. intros; apply assign_keeps_keys.
      - intros _ s4. apply bind_keeps_keys; [reflexivity |].
        intros d' s5. now destruct (validate && negb (is_valid cls d')). }
    split; [exact H |]. unfold is_odict. now rewrite H.
Qed.

End InvariantTheorems.

(* ================================================================== *)
(** ** Further properties: unpacking                                   *)
(* ================================================================== *)

Module DecodeTheorems.
Import DynamicStruct Shape Frame LayoutFacts EngineFacts Examples MoreExamples.

Lemma same_declaration_refl f : same_declaration f f.
Proof. unfold same_declaration. auto. Qed.

Lemma same_schema_refl d : same_schema d d.
Proof.
  induction d as [| kf d IH]; constructor; [| exact IH].
  split; [reflexivity | apply same_declaration_refl].
Qed.

Lemma same_schema_trans d1 d2 d3 :
  same_schema d1 d2 -> same_schema d2 d3 -> same_schema d1 d3.
Proof.
  unfold same_schema. intros H12. revert d3.
  induction H12 as [| a b l1 l2 [Hk Hd] _ IH]; intros d3 H23;
    inversion H23 as [| ? c ? l3 [Hk' Hd'] H]; subst; constructor.
  - split; [congruence |]. unfold same_declaration in *.
    destruct Hd as (A1 & A2 & A3 & A4 & A5).
    destruct Hd' as (B1 & B2 & B3 & B4 & B5).
    repeat split; try congruence.
    intros Hm. rewrite B5 by congruence. now apply A5.
  - now apply IH.
Qed.

Lemma same_schema_app a a' b b' :
  same_schema a a' -> same_schema b b' -> same_schema (a ++ b) (a' ++ b').
Proof. apply Forall2_app. Qed.

Lemma same_schema_assign_values d : forall vals,
  same_schema d (assign_values d vals).
Proof.
  induction d as [| [k f] d IH]; intros [| v vals];
    try apply same_schema_refl.
  cbn [assign_values]. constructor; [| apply IH].
  split; [reflexivity |]. unfold same_declaration. cbn. auto.
Qed.

Lemma same_schema_around d1 k mf d2 n :
  Schemas.match_length mf = true ->
  same_schema (d1 ++ (k, mf) :: d2) (d1 ++ (k, Schemas.set_length n mf) :: d2).
Proof.
  intros Hm. apply same_schema_app; [apply same_schema_refl |].
  constructor; [| apply same_schema_refl].
  split; [reflexivity |]. unfold same_declaration. cbn.
  repeat split. intros E. congruence.
Qed.

Lemma resolution_keeps_schema n d :
  is_odict d -> same_schema d (fst (_set_match_length_unpack n d)).
Proof.
  intros Hd. destruct (match_fields d) as [| [k mf] [| x l]] eqn:Hm.
  - rewrite (set_match_length_unpack_none _ _ Hm). apply same_schema_refl.
  - destruct (match_fields_single _ _ _ Hm) as (d1 & d2 & -> & H1 & H2 & H3).
    rewrite (set_match_length_unpack_one _ _ _ _ _ Hd Hm). cbv zeta.
    destruct (PyStruct.calcsize _); cbn [fst].
    + change (Schemas.set_length ?a (Schemas.set_length 0 mf))
        with (Schemas.set_length a mf).
      now apply same_schema_around.
    + now apply same_schema_around.
  - rewrite set_match_length_unpack_many by (rewrite Hm; simpl; lia).
    apply same_schema_refl.
Qed.

(** The state [unpack] leaves, whatever its outcome. *)
Lemma unpack_state cls buffer validate d :
  is_odict d ->
  let dr := fst (_set_match_length_unpack (Z.of_nat (List.length buffer)) d) in
  fst (unpack cls buffer validate d) = dr
  \/ exists vals,
       PyStruct.unpack (layout (od_values dr)) buffer = Ok vals
       /\ fst (unpack cls buffer validate d) = assign_values dr vals.
Proof.
  intros Hd. cbv zeta.
  destruct (_set_match_length_unpack _ d) as [dr [[] | e]] eqn:Hr; cbn [fst].
  - rewrite (unpack_run cls buffer validate _ _ Hd Hr).
    destruct (PyStruct.unpack _ buffer) as [vals | e]; [| now left].
    right. exists vals. split; reflexivity.
  - rewrite (unpack_resolution_fails _ _ _ _ _ _ Hr). now left.
Qed.

(** X9.  Whatever buffer it is given and however it ends, [unpack] keeps
    the declaration of every field: same keys in the same order, and
    under each key the same name, encoding, default and match-length
    flag; the repeat count changes on a match-length field only.  What
    [unpack] writes is values, and the repeat count it resolves. *)
Theorem unpack_keeps_the_declaration cls buffer validate d :
  is_odict d ->
  same_schema d (fst (unpack cls buffer validate d)).
Proof.
  intros Hd.
  pose proof (resolution_keeps_schema (Z.of_nat (List.length buffer)) d Hd)
    as Hs.
  destruct (unpack_state cls buffer validate d Hd) as [-> | (vals & _ & ->)];
    [exact Hs |].
  eapply same_schema_trans; [exact Hs | apply same_schema_assign_values].
Qed.

Lemma unpack_keeps_the_declaration_witness :
  is_odict hello_m
  /\ same_schema hello_m (fst (unpack HelloMessage [x01] true hello_m))
  /\ same_schema hello_m (fst (unpack HelloMessage hello_bytes true hello_m)).
Proof.
  assert (Hd : is_odict hello_m).
  { unfold is_odict. simpl. repeat constructor; simpl; intuition discriminate. }
  split; [exact Hd |]. split.
  - exact (unpack_keeps_the_declaration HelloMessage [x01] true hello_m Hd).
  - exact (unpack_keeps_the_declaration HelloMessage hello_bytes true
             hello_m Hd).
Defined.

(** [unpack] written out, stage by stage. *)
Lemma unpack_stages cls buffer validate d :
  unpack cls buffer validate d =
  match _set_match_length_unpack (Z.of_nat (List.length buffer)) d with
  | (dr, Ok _) =>
      match PyStruct.unpack (layout (od_values dr)) buffer with
      | Ok vals =>
          match for_each (combine (od_keys dr) vals)
                  (fun kv => assign (fst kv) (Schemas.set_value (snd kv))) dr
          with
          | (d2, Ok _) =>
              (d2, if validate && negb (is_valid cls d2)
                   then Raise failed_to_validate else Ok tt)
          | (d2, Raise e) => (d2, Raise e)
          end
      | Raise e => (dr, Raise e)
      end
  | (dr, Raise e) => (dr, Raise e)
  end.
Proof.
  unfold unpack, struct, _fields. unfold bind, get, lift, ret, raise.
  destruct (_set_match_length_unpack _ d) as [dr [[] | e]]; [| reflexivity].
  cbv beta iota. fold (layout (od_values dr)).
  destruct (PyStruct.unpack _ buffer) as [vals | e]; [| reflexivity].
  cbv beta iota.
  destruct (for_each _ _ dr) as [d2 [[] | e]]; [| reflexivity].
  cbv beta iota. now destruct (validate && negb (is_valid cls d2)).
Qed.

(** X10.  The [validate] flag decides nothing but the final verdict: with
    or without validation [unpack] leaves the same instance; an error
    without validation is the same error with it; and a call that returns
    normally with validation returns normally without. *)
Theorem validate_only_gates cls buffer d :
  fst (unpack cls buffer true d) = fst (unpack cls buffer false d)
  /\ (forall e, snd (unpack cls buffer false d) = Raise e ->
                snd (unpack cls buffer true d) = Raise e)
  /\ (snd (unpack cls buffer true d) = Ok tt ->
      snd (unpack cls buffer false d) = Ok tt).
Proof.
  rewrite !unpack_stages.
  destruct (_set_match_length_unpack _ d) as [dr [[] | e]];
    [| repeat split; auto; discriminate].
  destruct (PyStruct.unpack _ buffer) as [vals | e];
    [| repeat split; auto; discriminate].
  destruct (for_each _ _ dr) as [d2 [[] | e]];
    [| repeat split; auto; discriminate].
  cbn [andb fst snd]. repeat split; intros; auto; discriminate.
Qed.

Lemma layout_assign_values d : forall vals,
  layout (od_values (assign_values d vals)) = layout (od_values d).
Proof.
  unfold layout. induction d as [| [k f] d IH]; intros [| v vals];
    try reflexivity.
  cbn [assign_values od_values map snd].
  specialize (IH vals). unfold od_values in IH.
  rewrite !concat_cons.
  change (segment (Schemas.set_value v f)) with (segment f).
  unfold endian_struct in *. rewrite !append_cons in *.
  change ("" ++ ?x)%string with x in *. injection IH as IH.
  now rewrite IH.
Qed.

(** X11.  After an [unpack] that returned normally, the size of the
    message is the length of the buffer it was given. *)
Theorem unpacked_size_is_buffer_length cls buffer validate d d' :
  is_odict d ->
  unpack cls buffer validate d = (d', Ok tt) ->
  size d' = (d', Ok (Z.of_nat (List.length buffer))).
Proof.
  intros Hd H.
  destruct (_set_match_length_unpack (Z.of_nat (List.length buffer)) d)
    as [dr [[] | e]] eqn:Hr.
  - rewrite (unpack_run cls buffer validate _ _ Hd Hr) in H.
    destruct (PyStruct.unpack _ buffer) as [vals | e] eqn:Hv;
      [| discriminate].
    cbv zeta in H. injection H as <- _.
    rewrite size_run, layout_assign_values. f_equal.
    unfold PyStruct.unpack in Hv. unfold PyStruct.calcsize.
    destruct (PyStruct.prepare_s _) as [codes | e]; [| discriminate].
    cbn [rbind] in *.
    destruct (Z.eqb_spec (Z.of_nat (List.length buffer))
                (PyStruct.total_size codes)) as [-> | _];
      [reflexivity | discriminate].
  - rewrite (unpack_resolution_fails _ _ _ _ _ _ Hr) in H. discriminate.
Qed.

Lemma unpacked_size_is_buffer_length_witness :
  is_odict hello_fresh
  /\ exists d',
       unpack HelloMessage [x05; x06; "a"; "b"; "c"]%byte true hello_fresh
       = (d', Ok tt)
       /\ size d' = (d', Ok 5).
Proof.
  assert (Hd : is_odict hello_fresh).
  { unfold is_odict. simpl. repeat constructor; simpl; intuition discriminate. }
  split; [exact Hd |]. eexists. split; [reflexivity |].
  exact (unpacked_size_is_buffer_length HelloMessage
           [x05; x06; "a"; "b"; "c"]%byte true hello_fresh _ Hd eq_refl).
Defined.

Lemma decode_codes fs : forall buf,
  Forall (fun f => one_unit f = true) fs ->
  PyStruct.unpack_codes (codes_of fs) buf = decode_fields fs buf.
Proof.
  induction fs as [| f fs IH]; intros buf H; [reflexivity |].
  inversion H as [| ? ? Hf Hfs]; subst.
  cbn [codes_of decode_fields]. unfold decode_field, field_bytes, unit_size.
  unfold one_unit in Hf. destruct (code_of f) as [e |]; [| discriminate].
  cbn [PyStruct.unpack_codes PyStruct.fmtdef PyStruct.repeat].
  unfold PyStruct.code_size. cbn [PyStruct.fmtdef PyStruct.repeat].
  destruct (PyStruct.knd e); try discriminate;
    try (apply Z.eqb_eq in Hf; rewrite Hf, Z.mul_1_l;
         change (Z.to_nat 1) with 1%nat; cbn [PyStruct.unpack_repeat List.app]);
    now rewrite IH.
Qed.

Lemma decode_fields_length fs : forall buf,
  List.length (decode_fields fs buf) = List.length fs.
Proof.
  induction fs as [| f fs IH]; intros buf; [reflexivity |].
  cbn [decode_fields List.length]. now rewrite IH.
Qed.

Lemma assign_values_reads_back d : forall vals,
  List.length vals = List.length d ->
  map Schemas.value (od_values (assign_values d vals)) = vals.
Proof.
  induction d as [| [k f] d IH]; intros [| v vals] H; try discriminate;
    [reflexivity |].
  cbn [assign_values od_values map snd Schemas.set_value Schemas.value].
  f_equal. apply IH. simpl in H. lia.
Qed.

Lemma one_unit_all_wf fs :
  Forall (fun f => one_unit f = true) fs -> Forall (fun f => wf f = true) fs.
Proof. apply List.Forall_impl. apply one_unit_wf. Qed.

(** [unpack] on a message without match-length field whose fields each
    decode to one unit, written out. *)
Lemma unpack_fixed cls buffer validate d :
  is_odict d ->
  match_fields d = [] ->
  Forall (fun f => one_unit f = true) (od_values d) ->
  is_bytes buffer ->
  unpack cls buffer validate d =
  if Z.of_nat (List.length buffer) =? layout_bytes (od_values d)
  then let d' := assign_values d (decode_fields (od_values d) buffer) in
       (d', if validate && negb (is_valid cls d')
            then Raise failed_to_validate else Ok tt)
  else (d, Raise (StructError
                    (if fits (od_values d)
                     then wrong_buffer_size (layout_bytes (od_values d))
                     else too_long))).
Proof.
  intros Hd Hm Hu Hb.
  pose proof (set_match_length_unpack_none
                (Z.of_nat (List.length buffer)) d Hm) as Hr.
  pose proof (prepare_layout _ (one_unit_all_wf _ Hu)) as Hp.
  rewrite (unpack_run cls buffer _ _ _ Hd Hr). unfold PyStruct.unpack.
  rewrite Hp.
  destruct (Z.eqb_spec (Z.of_nat (List.length buffer))
              (layout_bytes (od_values d))) as [Hlen | Hne].
  - assert (Hfit : fits (od_values d) = true)
      by (apply fits_le; unfold is_bytes in Hb; lia).
    rewrite Hfit. cbn [rbind].
    rewrite total_size_codes, Hlen, Z.eqb_refl.
    now rewrite (decode_codes _ _ Hu).
  - destruct (fits (od_values d)); [| reflexivity].
    cbn [rbind]. rewrite total_size_codes.
    destruct (Z.eqb_spec (Z.of_nat (List.length buffer))
                (layout_bytes (od_values d))) as [E | _];
      [now destruct Hne | reflexivity].
Qed.

(** X12.  A message without match-length field whose fields each decode
    to one unit: given a buffer of exactly the total field size, [unpack]
    gives every field the unit decoded from the bytes at its own offset
    and, without validation, returns normally; given a buffer of any
    other length it raises [struct.error] (for the wrong buffer size, or
    for a total field size that is no [Py_ssize_t]) and leaves the
    instance as it was. *)
Theorem fixed_size_unpack cls buffer validate d :
  is_odict d ->
  match_fields d = [] ->
  Forall (fun f => one_unit f = true) (od_values d) ->
  is_bytes buffer ->
  (Z.of_nat (List.length buffer) = layout_bytes (od_values d) ->
   exists d',
     unpack cls buffer false d = (d', Ok tt)
     /\ fst (unpack cls buffer validate d) = d'
     /\ od_keys d' = od_keys d
     /\ map Schemas.value (od_values d')
        = decode_fields (od_values d) buffer)
  /\ (Z.of_nat (List.length buffer) <> layout_bytes (od_values d) ->
      unpack cls buffer validate d
      = (d, Raise (StructError
                     (if fits (od_values d)
                      then wrong_buffer_size (layout_bytes (od_values d))
                      else too_long)))).
Proof.
  intros Hd Hm Hu Hb.
  rewrite !(unpack_fixed cls buffer _ d Hd Hm Hu Hb).
  split.
  - intros Hlen. apply Z.eqb_eq in Hlen as ->. cbv zeta.
    exists (assign_values d (decode_fields (od_values d) buffer)).
    cbn [andb fst]. repeat split.
    + apply assign_values_keys.
    + apply assign_values_reads_back. rewrite decode_fields_length.
      unfold od_values. now rewrite length_map.
  - intros Hne. now apply Z.eqb_neq in Hne as ->.
Qed.

Lemma fixed_size_unpack_witness :
  (is_odict header_m
   /\ Forall (fun f => one_unit f = true) (od_values header_m)
   /\ is_bytes header_bytes /\ is_bytes [x02; x01])
  /\ (exists d',
        unpack Header header_bytes false header_m = (d', Ok tt)
        /\ map Schemas.value (od_values d')
           = [PyInt 258; PyInt (-1); PyBytes ["a"; "b"; "c"]%byte])
  /\ unpack Header [x02; x01] true header_m
     = (header_m, Raise (StructError (wrong_buffer_size 6))).
Proof.
  assert (Hd : is_odict header_m).
  { unfold is_odict. simpl. repeat constructor; simpl; intuition discriminate. }
  assert (Hu : Forall (fun f => one_unit f = true) (od_values header_m))
    by (repeat constructor).
  assert (Hb : is_bytes header_bytes) by (vm_compute; discriminate).
  assert (Hb' : is_bytes [x02; x01]) by (vm_compute; discriminate).
  split; [repeat split; assumption |]. split.
  - destruct (proj1 (fixed_size_unpack Header header_bytes false header_m
                       Hd eq_refl Hu Hb) eq_refl) as (d' & H1 & _ & _ & H4).
    exists d'. split; [exact H1 | exact H4].
  - apply (proj2 (fixed_size_unpack Header [x02; x01] true header_m
                    Hd eq_refl Hu Hb')).
    discriminate.
Defined.

Lemma declared_is_odict (fs : list DynamicStructField) :
  List.NoDup (map Schemas.name fs) ->
  is_odict (map (fun f => (Schemas.name f, f)) fs).
Proof. unfold is_odict, od_keys. now rewrite map_map. Qed.

Lemma declared_no_match (fs : list DynamicStructField) :
  Forall (fun f => Schemas.match_length f = false) fs ->
  match_fields (map (fun f => (Schemas.name f, f)) fs) = [].
Proof.
  induction 1 as [| f fs Hf _ IH]; [reflexivity |].
  unfold match_fields in *. cbn [map List.filter snd]. now rewrite Hf.
Qed.

(** X13.  [from_buffer] on a message type with distinct names, no
    match-length field and one unit per field: a buffer of exactly the
    total field size gives a new instance with the declared names in
    order, each field holding the unit decoded at its own offset (with
    validation the instance is returned when [is_valid] accepts it and
    the validation error is raised otherwise); a buffer of any other
    length raises [struct.error] and no instance is returned. *)
Theorem fixed_size_from_buffer cls buffer :
  List.NoDup (map Schemas.name (fields cls)) ->
  Forall (fun f => Schemas.match_length f = false) (fields cls) ->
  Forall (fun f => one_unit f = true) (fields cls) ->
  is_bytes buffer ->
  (Z.of_nat (List.length buffer) = layout_bytes (fields cls) ->
   exists m,
     from_buffer cls buffer false = Ok m
     /\ od_keys m = map Schemas.name (fields cls)
     /\ map Schemas.value (od_values m) = decode_fields (fields cls) buffer
     /\ from_buffer cls buffer true
        = if is_valid cls m then Ok m else Raise failed_to_validate)
  /\ (Z.of_nat (List.length buffer) <> layout_bytes (fields cls) ->
      forall validate,
        from_buffer cls buffer validate
        = Raise (StructError
                   (if fits (fields cls)
                    then wrong_buffer_size (layout_bytes (fields cls))
                    else too_long))).
Proof.
  intros Hn Hm Hu Hb. unfold from_buffer.
  rewrite (SchemaTheorems.init_fields _ Hn). cbn [rbind].
  set (d := map (fun f => (Schemas.name f, f)) (fields cls)).
  assert (Hv : od_values d = fields cls)
    by (unfold d, od_values; rewrite map_map; apply map_id).
  assert (Hk : od_keys d = map Schemas.name (fields cls))
    by (unfold d, od_keys; now rewrite map_map).
  assert (Hd : is_odict d) by now apply declared_is_odict.
  assert (Hm' : match_fields d = []) by now apply declared_no_match.
  assert (Hu' : Forall (fun f => one_unit f = true) (od_values d))
    by now rewrite Hv.
  assert (Hrun := fun validate =>
            unpack_fixed cls buffer validate d Hd Hm' Hu' Hb).
  rewrite Hv in Hrun.
  split.
  - intros Hlen. apply Z.eqb_eq in Hlen.
    exists (assign_values d (decode_fields (fields cls) buffer)).
    rewrite !Hrun, Hlen. cbv zeta. cbn [andb]. repeat split.
    + now rewrite assign_values_keys.
    + apply assign_values_reads_back. rewrite decode_fields_length.
      unfold d. now rewrite length_map.
    + now destruct (is_valid cls _).
  - intros Hne validate. apply Z.eqb_neq in Hne.
    now rewrite Hrun, Hne.
Qed.

Lemma fixed_size_from_buffer_witness :
  (List.NoDup (map Schemas.name (fields Header))
   /\ Forall (fun f => Schemas.match_length f = false) (fields Header)
   /\ Forall (fun f => one_unit f = true) (fields Header)
   /\ is_bytes header_bytes /\ is_bytes [x02])
  /\ (exists m,
        from_buffer Header header_bytes true = Ok m
        /\ map Schemas.value (od_values m)
           = [PyInt 258; PyInt (-1); PyBytes ["a"; "b"; "c"]%byte])
  /\ from_buffer Header [x02] true = Raise (StructError (wrong_buffer_size 6)).
Proof.
  assert (Hn : List.NoDup (map Schemas.name (fields Header))).
  { simpl. repeat constructor; simpl; intuition discriminate. }
  assert (Hm : Forall (fun f => Schemas.match_length f = false)
                 (fields Header)) by (repeat constructor).
  assert (Hu : Forall (fun f => one_unit f = true) (fields Header))
    by (repeat constructor).
  assert (Hb : is_bytes header_bytes) by (vm_compute; discriminate).
  assert (Hb' : is_bytes [x02]) by (vm_compute; discriminate).
  split; [repeat split; assumption |]. split.
  - destruct (proj1 (fixed_size_from_buffer Header header_bytes Hn Hm Hu Hb)
                eq_refl) as (m & _ & _ & H3 & H4).
    exists m. split; [exact H4 | exact H3].
  - apply (proj2 (fixed_size_from_buffer Header [x02] Hn Hm Hu Hb')).
    discriminate.
Defined.

(** *** Unpacking twice *)

Lemma assign_values_idem d : forall vals,
  assign_values (assign_values d vals) vals = assign_values d vals.
Proof.
  induction d as [| [k f] d IH]; intros [| v vals]; try reflexivity.
  cbn [assign_values]. now rewrite IH.
Qed.

Lemma assign_values_split a b vals :
  assign_values (a ++ b) vals
  = assign_values a vals ++ assign_values b (drop (List.length a) vals).
Proof.
  revert vals. induction a as [| [k f] a IH]; intros vals.
  - now rewrite drop_0.
  - destruct vals as [| v vals]; cbn [List.app assign_values List.length].
    + now destruct b as [| [? ?] ?].
    + cbn [drop]. now rewrite IH.
Qed.

Lemma match_fields_assign_nil d : forall vals,
  match_fields d = [] -> match_fields (assign_values d vals) = [].
Proof.
  unfold match_fields. induction d as [| [k f] d IH]; intros [| v vals] H;
    try exact H.
  cbn [assign_values List.filter snd Schemas.set_value Schemas.match_length]
    in *.
  destruct (Schemas.match_length f); [discriminate | now apply IH].
Qed.

Lemma match_fields_around_intro d1 k x d2 :
  match_fields d1 = [] -> match_fields d2 = [] ->
  Schemas.match_length x = true ->
  match_fields (d1 ++ (k, x) :: d2) = [(k, x)].
Proof.
  intros H1 H2 Hx. rewrite match_fields_app, H1. unfold match_fields in *.
  cbn [List.filter snd List.app]. now rewrite Hx, H2.
Qed.

Lemma is_odict_assign_values d vals :
  is_odict d -> is_odict (assign_values d vals).
Proof. unfold is_odict. now rewrite assign_values_keys. Qed.

(** [unpack] on an instance with exactly one match-length field. *)
Lemma unpack_one_form cls buffer validate d1 k x d2 :
  is_odict (d1 ++ (k, x) :: d2) ->
  match_fields (d1 ++ (k, x) :: d2) = [(k, x)] ->
  unpack cls buffer validate (d1 ++ (k, x) :: d2) =
  match PyStruct.calcsize
          (layout (od_values (d1 ++ (k, Schemas.set_length 0 x) :: d2))) with
  | Raise e => (d1 ++ (k, Schemas.set_length 0 x) :: d2, Raise e)
  | Ok sz =>
      let dr := d1 ++ (k, Schemas.set_length
                            (Z.of_nat (List.length buffer) - sz) x) :: d2 in
      match PyStruct.unpack (layout (od_values dr)) buffer with
      | Raise e => (dr, Raise e)
      | Ok vals =>
          (assign_values dr vals,
           if validate && negb (is_valid cls (assign_values dr vals))
           then Raise failed_to_validate else Ok tt)
      end
  end.
Proof.
  intros Hd Hm.
  pose proof (set_match_length_unpack_one
                (Z.of_nat (List.length buffer)) _ _ _ _ Hd Hm) as Hr.
  cbv zeta in Hr.
  destruct (PyStruct.calcsize _) as [sz | e].
  - now rewrite (unpack_run cls buffer validate _ _ Hd Hr).
  - now rewrite (unpack_resolution_fails _ _ _ _ _ _ Hr).
Qed.

(** X18.  Unpacking the same buffer a second time changes nothing: the
    second call leaves the instance the first one left and ends the way
    the first one ended.  In particular the match-length repeat count
    resolved by an earlier [unpack] does not disturb a later one. *)
Theorem unpack_twice cls buffer validate d :
  is_odict d ->
  unpack cls buffer validate (fst (unpack cls buffer validate d))
  = unpack cls buffer validate d.
Proof.
  intros Hd. destruct (match_fields d) as [| [k mf] [| y l]] eqn:Hm.
  - (* no match-length field *)
    pose proof (set_match_length_unpack_none
                  (Z.of_nat (List.length buffer)) d Hm) as Hr.
    rewrite (unpack_run cls buffer validate _ _ Hd Hr).
    destruct (PyStruct.unpack _ buffer) as [vals | e] eqn:Hv; cbv zeta;
      cbn [fst].
    + pose proof (set_match_length_unpack_none
                    (Z.of_nat (List.length buffer)) _
                    (match_fields_assign_nil d vals Hm)) as Hr'.
      rewrite (unpack_run cls buffer validate _ _
                 (is_odict_assign_values _ vals Hd) Hr').
      rewrite layout_assign_values, Hv. cbv zeta.
      now rewrite assign_values_idem.
    + now rewrite (unpack_run cls buffer validate _ _ Hd Hr), Hv.
  - (* exactly one *)
    destruct (match_fields_single _ _ _ Hm) as (d1 & d2 & -> & H1 & H2 & H3).
    rewrite (unpack_one_form cls buffer validate _ _ _ _ Hd Hm).
    assert (Hform : forall x,
              Schemas.match_length x = true ->
              Schemas.set_length 0 x = Schemas.set_length 0 mf ->
              is_odict (d1 ++ (k, x) :: d2)
              /\ match_fields (d1 ++ (k, x) :: d2) = [(k, x)]).
    { intros x Hx _. split; [| now apply match_fields_around_intro].
      unfold is_odict in *. rewrite od_keys_app in *. exact Hd. }
    destruct (PyStruct.calcsize _) as [sz | e] eqn:Hc.
    + cbv zeta.
      set (m := Z.of_nat (List.length buffer) - sz).
      destruct (PyStruct.unpack _ buffer) as [vals | e] eqn:Hv; cbn [fst].
      * (* decoded: the instance is a value variant of the resolved one *)
        rewrite assign_values_split.
        set (A1 := assign_values d1 vals).
        assert (HA1 : match_fields A1 = [])
          by now apply match_fields_assign_nil.
        assert (HkA : od_keys A1 = od_keys d1) by apply assign_values_keys.
        assert (Hshape : exists x A2,
                  assign_values ((k, Schemas.set_length m mf) :: d2)
                    (drop (List.length d1) vals) = (k, x) :: A2
                  /\ Schemas.match_length x = true
                  /\ Schemas.set_length m x = x
                  /\ match_fields A2 = [] /\ od_keys A2 = od_keys d2
                  /\ layout (od_values (A1 ++ (k, Schemas.set_length 0 x) :: A2))
                     = layout (od_values
                                 (d1 ++ (k, Schemas.set_length 0 mf) :: d2))).
        { destruct (drop (List.length d1) vals) as [| v ws] eqn:Hw.
          - exists (Schemas.set_length m mf), d2. cbn [assign_values].
            repeat split; auto. unfold A1.
            pose proof (layout_assign_values
                          (d1 ++ (k, Schemas.set_length 0 mf) :: d2) vals) as L.
            rewrite assign_values_split, Hw in L. exact L.
          - exists (Schemas.set_value v (Schemas.set_length m mf)),
              (assign_values d2 ws). cbn [assign_values].
            repeat split; auto.
            + now apply match_fields_assign_nil.
            + apply assign_values_keys.
            + unfold A1.
              pose proof (layout_assign_values
                            (d1 ++ (k, Schemas.set_length 0 mf) :: d2) vals)
                as L.
              rewrite assign_values_split, Hw in L. exact L. }
        destruct Hshape as (x & A2 & Hx & Hxm & Hxl & HA2 & HkA2 & HL).
        pose proof (assign_values_split d1
                      ((k, Schemas.set_length m mf) :: d2) vals) as Hsplit.
        fold A1 in Hsplit. rewrite Hx in *.
        assert (Hd' : is_odict (A1 ++ (k, x) :: A2)).
        { unfold is_odict in *. rewrite od_keys_app in *.
          change (od_keys ((k, x) :: A2)) with (k :: od_keys A2).
          rewrite HkA, HkA2. exact Hd. }
        rewrite (unpack_one_form cls buffer validate _ _ _ _ Hd'
                   (match_fields_around_intro _ _ _ _ HA1 HA2 Hxm)).
        rewrite HL, Hc. cbv zeta. fold m. rewrite Hxl.
        rewrite <- Hsplit, layout_assign_values, Hv.
        now rewrite assign_values_idem.
      * (* the buffer was refused *)
        destruct (Hform (Schemas.set_length m mf) H3 eq_refl) as [Hd' Hm'].
        rewrite (unpack_one_form cls buffer validate _ _ _ _ Hd' Hm').
        change (Schemas.set_length 0 (Schemas.set_length m mf))
          with (Schemas.set_length 0 mf).
        rewrite Hc. cbv zeta. fold m.
        change (Schemas.set_length m (Schemas.set_length m mf))
          with (Schemas.set_length m mf).
        now rewrite Hv.
    + (* the layout has no size *)
      cbn [fst].
      destruct (Hform (Schemas.set_length 0 mf) H3 eq_refl) as [Hd' Hm'].
      rewrite (unpack_one_form cls buffer validate _ _ _ _ Hd' Hm').
      change (Schemas.set_length 0 (Schemas.set_length 0 mf))
        with (Schemas.set_length 0 mf).
      now rewrite Hc.
  - (* several match-length fields *)
    assert (Hr : _set_match_length_unpack (Z.of_nat (List.length buffer)) d
                 = (d, Raise only_one))
      by (apply set_match_length_unpack_many; rewrite Hm; simpl; lia).
    rewrite (unpack_resolution_fails _ _ _ _ _ _ Hr). cbn [fst].
    exact (unpack_resolution_fails _ _ _ _ _ _ Hr).
Qed.

Lemma unpack_twice_witness :
  is_odict hello_fresh
  /\ unpack HelloMessage hello_bytes true
       (fst (unpack HelloMessage hello_bytes true hello_fresh))
     = unpack HelloMessage hello_bytes true hello_fresh.
Proof.
  assert (Hd : is_odict hello_fresh).
  { unfold is_odict. simpl. repeat constructor; simpl; intuition discriminate. }
  split; [exact Hd |].
  exact (unpack_twice HelloMessage hello_bytes true hello_fresh Hd).
Defined.

(** *** The default hook, and messages with a trailing payload *)

(** X19.  A message type that does not override [is_valid] never fails
    validation: for every buffer and instance, [unpack] with validation
    does exactly what it does without. *)
Theorem default_hook_accepts fs buffer d :
  unpack (declare fs) buffer true d = unpack (declare fs) buffer false d.
Proof.
  rewrite !unpack_stages.
  destruct (_set_match_length_unpack _ d) as [dr [[] | e]]; [| reflexivity].
  destruct (PyStruct.unpack _ buffer) as [vals | e]; [| reflexivity].
  now destruct (for_each _ _ dr) as [d2 [[] | e]].
Qed.




End DecodeTheorems.

(* ================================================================== *)
(** ** Further properties: the length setters and the size             *)
(* ================================================================== *)

Module ResolutionTheorems.
Import DynamicStruct Shape Frame LayoutFacts EngineFacts Examples MoreExamples.

Lemma od_map_app g a b : od_map g (a ++ b) = od_map g a ++ od_map g b.
Proof. apply map_app. Qed.

Lemma od_get_map g k d : od_get k (od_map g d) = option_map g (od_get k d).
Proof.
  induction d as [| [k0 f] d IH]; [reflexivity |].
  cbn [od_map map fst snd od_get]. destruct (String.eqb k k0); [reflexivity |].
  exact IH.
Qed.

Lemma layout_value_change pre k v f rest :
  layout (od_values (pre ++ (k, Schemas.set_value v f) :: rest))
  = layout (od_values (pre ++ (k, f) :: rest)).
Proof.
  unfold layout. now rewrite !od_values_app, !map_app.
Qed.

(** The [_set_length] loop when the size is [n]. *)
Lemma set_length_loop n rest : forall pre,
  is_odict (pre ++ rest) ->
  PyStruct.calcsize (layout (od_values (pre ++ rest))) = Ok n ->
  for_each (od_keys rest) (fun k =>
    let* f := field k in
    if Schemas.match_length f
    then let* n := size in assign k (Schemas.set_value (PyInt n))
    else ret tt) (pre ++ rest)
  = (pre ++ od_map (stamp n) rest, Ok tt).
Proof.
  induction rest as [| [k f] rest IH]; intros pre Hd Hn; [reflexivity |].
  pose proof (is_odict_split _ _ _ _ Hd) as Hk.
  change (od_keys ((k, f) :: rest)) with (k :: od_keys rest).
  cbn [for_each]. unfold bind at 1. unfold bind at 1.
  rewrite (field_run k f pre rest Hk).
  cbn [od_map map fst snd]. unfold stamp at 1.
  destruct (Schemas.match_length f).
  - unfold bind at 1. rewrite size_run, Hn. unfold lift.
    rewrite assign_run, (od_alter_here _ _ _ _ _ Hk).
    change (pre ++ (k, Schemas.set_value (PyInt n) f) :: rest)
      with (pre ++ [(k, Schemas.set_value (PyInt n) f)] ++ rest).
    rewrite app_assoc, IH.
    + now rewrite <- app_assoc.
    + unfold is_odict in *. rewrite <- app_assoc.
      rewrite od_keys_app in *. exact Hd.
    + rewrite <- app_assoc. cbn [List.app].
      now rewrite layout_value_change.
  - unfold ret at 1.
    change (pre ++ (k, f) :: rest) with (pre ++ [(k, f)] ++ rest).
    rewrite app_assoc, IH; rewrite <- ?app_assoc; auto.
Qed.

(** The [_set_length] loop when the layout has no size. *)
Lemma set_length_loop_fails e rest : forall pre,
  is_odict (pre ++ rest) ->
  PyStruct.calcsize (layout (od_values (pre ++ rest))) = Raise e ->
  for_each (od_keys rest) (fun k =>
    let* f := field k in
    if Schemas.match_length f
    then let* n := size in assign k (Schemas.set_value (PyInt n))
    else ret tt) (pre ++ rest)
  = (pre ++ rest, if has_match_length rest then Raise e else Ok tt).
Proof.
  induction rest as [| [k f] rest IH]; intros pre Hd Hn; [reflexivity |].
  pose proof (is_odict_split _ _ _ _ Hd) as Hk.
  change (od_keys ((k, f) :: rest)) with (k :: od_keys rest).
  cbn [for_each]. unfold bind at 1. unfold bind at 1.
  rewrite (field_run k f pre rest Hk).
  unfold has_match_length. cbn [existsb snd].
  destruct (Schemas.match_length f); cbn [orb].
  - unfold bind at 1. now rewrite size_run, Hn.
  - unfold ret at 1.
    change (pre ++ (k, f) :: rest) with (pre ++ [(k, f)] ++ rest).
    rewrite app_assoc, IH; rewrite <- ?app_assoc; auto.
Qed.

(** X14.  [_set_length]: when the layout has a size, the value of every
    match-length field becomes that size and nothing else changes, the
    size included; when it has none, the call raises the [struct.error]
    of the size if a field is marked match-length and returns normally
    otherwise, and the instance is as it was. *)
Theorem set_length_stamps_the_size d :
  is_odict d ->
  match PyStruct.calcsize (layout (od_values d)) with
  | Ok n =>
      _set_length d = (od_map (stamp n) d, Ok tt)
      /\ snd (size (od_map (stamp n) d)) = Ok n
  | Raise e =>
      _set_length d = (d, if has_match_length d then Raise e else Ok tt)
  end.
Proof.
  intros Hd. unfold _set_length. unfold bind at 1, _fields at 1, get at 1.
  destruct (PyStruct.calcsize (layout (od_values d))) as [n | e] eqn:Hn.
  - split; [exact (set_length_loop n d [] Hd Hn) |].
    rewrite size_run. cbn [snd]. rewrite <- Hn. f_equal. unfold layout.
    rewrite InvariantTheorems.segments_od_map; [reflexivity |].
    intros f. unfold stamp. now destruct (Schemas.match_length f).
  - exact (set_length_loop_fails e d [] Hd Hn).
Qed.

Lemma set_length_stamps_the_size_witness :
  is_odict hello_m
  /\ snd (_set_length hello_m) = Ok tt
  /\ od_get "payload" (fst (_set_length hello_m))
     = Some (Schemas.set_value (PyInt 3) (bytes_field "payload")).
Proof.
  assert (Hd : is_odict hello_m).
  { unfold is_odict. simpl. repeat constructor; simpl; intuition discriminate. }
  split; [exact Hd |].
  pose proof (set_length_stamps_the_size hello_m Hd) as H.
  change (PyStruct.calcsize (layout (od_values hello_m))) with (@Ok Z 3) in H.
  destruct H as [H _]. rewrite H. split; reflexivity.
Defined.

(** The pack-side loop over descriptors whose match-length ones have a
    value with a length. *)
Lemma pack_loop_resolves rest : forall pre post,
  is_odict (pre ++ rest ++ post) ->
  Forall (fun f => sized f = true) (od_values rest) ->
  for_each (od_keys rest) (fun k =>
    let* f := field k in
    if Schemas.match_length f
    then let* n := lift (py_len (Schemas.value f)) in
         assign k (Schemas.set_length n)
    else ret tt) (pre ++ rest ++ post)
  = (pre ++ od_map resolve_pack rest ++ post, Ok tt).
Proof.
  induction rest as [| [k f] rest IH]; intros pre post Hd Hs; [reflexivity |].
  cbn [od_values map snd] in Hs. inversion Hs as [| ? ? Hf Hr]; subst.
  cbn [List.app] in *. pose proof (is_odict_split _ _ _ _ Hd) as Hk.
  change (od_keys ((k, f) :: rest)) with (k :: od_keys rest).
  cbn [for_each]. unfold bind at 1. unfold bind at 1.
  rewrite (field_run k f pre (rest ++ post) Hk).
  cbn [od_map map fst snd List.app]. unfold resolve_pack at 1.
  unfold sized in Hf.
  destruct (Schemas.match_length f); cbn [negb orb] in Hf.
  - destruct (py_len (Schemas.value f)) as [n | e]; [| discriminate].
    unfold bind at 1, lift at 1.
    rewrite assign_run, (od_alter_here _ _ _ _ _ Hk).
    change (pre ++ (k, Schemas.set_length n f) :: rest ++ post)
      with (pre ++ [(k, Schemas.set_length n f)] ++ rest ++ post).
    rewrite app_assoc, IH; [now rewrite <- app_assoc | | exact Hr].
    unfold is_odict in *. rewrite <- app_assoc.
    rewrite od_keys_app in *. exact Hd.
  - unfold ret at 1.
    change (pre ++ (k, f) :: rest ++ post)
      with (pre ++ [(k, f)] ++ rest ++ post).
    rewrite app_assoc, IH; [now rewrite <- app_assoc | | exact Hr].
    now rewrite <- app_assoc.
Qed.

(** X15.  [_set_match_length_pack], when every match-length field holds a
    value that has a length: it returns normally; afterwards the repeat
    count of each match-length field is the length of its value, and
    every other descriptor, and every value, is what it was. *)
Theorem pack_resolution_sets_value_lengths d :
  is_odict d ->
  Forall (fun f => sized f = true) (od_values d) ->
  _set_match_length_pack d = (od_map resolve_pack d, Ok tt)
  /\ forall k f,
       od_get k d = Some f ->
       exists f',
         od_get k (od_map resolve_pack d) = Some f'
         /\ Schemas.value f' = Schemas.value f
         /\ (Schemas.match_length f = true ->
             py_len (Schemas.value f) = Ok (Schemas.length f'))
         /\ (Schemas.match_length f = false -> f' = f).
Proof.
  intros Hd Hs. split.
  - unfold _set_match_length_pack. unfold bind at 1, _fields at 1, get at 1.
    pose proof (pack_loop_resolves d [] []) as H.
    rewrite !app_nil_r in H. cbn [List.app] in H. now apply H.
  - intros k f Hk. exists (resolve_pack f).
    rewrite od_get_map, Hk. split; [reflexivity |].
    assert (Hf : sized f = true).
    { rewrite Forall_forall in Hs. apply Hs. clear -Hk.
      induction d as [| [k0 f0] d IH]; [discriminate |].
      cbn in *. destruct (String.eqb k k0);
        [injection Hk as ->; now left | right; now apply IH]. }
    unfold resolve_pack, sized in *.
    destruct (Schemas.match_length f); cbn [negb orb] in Hf.
    + destruct (py_len (Schemas.value f)) as [n | e] eqn:E; [| discriminate].
      split; [reflexivity | split; [intros _; reflexivity | discriminate]].
    + split; [reflexivity | split; [discriminate | reflexivity]].
Qed.

Lemma pack_resolution_sets_value_lengths_witness :
  (is_odict hello_m /\ Forall (fun f => sized f = true) (od_values hello_m))
  /\ _set_match_length_pack hello_m = (hello_resolved, Ok tt).
Proof.
  assert (Hd : is_odict hello_m).
  { unfold is_odict. simpl. repeat constructor; simpl; intuition discriminate. }
  assert (Hs : Forall (fun f => sized f = true) (od_values hello_m))
    by (repeat constructor).
  split; [split; assumption |].
  exact (proj1 (pack_resolution_sets_value_lengths hello_m Hd Hs)).
Defined.

(** X16.  [_set_match_length_pack] takes the length of the value itself,
    not of [value or default]: at the first match-length field whose
    value has no length (a field never given a value, an integer) it
    raises the error of [len], the match-length fields before it already
    resolved and every later field untouched. *)
Theorem pack_resolution_needs_a_value d1 k mf d2 e :
  is_odict (d1 ++ (k, mf) :: d2) ->
  Forall (fun f => sized f = true) (od_values d1) ->
  Schemas.match_length mf = true ->
  py_len (Schemas.value mf) = Raise e ->
  _set_match_length_pack (d1 ++ (k, mf) :: d2)
  = (od_map resolve_pack d1 ++ (k, mf) :: d2, Raise e).
Proof.
  intros Hd Hs Hm He. unfold _set_match_length_pack.
  unfold bind at 1, _fields at 1, get at 1.
  rewrite od_keys_app. change (od_keys ((k, mf) :: d2)) with (k :: od_keys d2).
  rewrite for_each_app. unfold bind at 1.
  pose proof (pack_loop_resolves d1 [] ((k, mf) :: d2) Hd Hs) as L.
  cbn [List.app] in L. rewrite L.
  cbn [for_each]. unfold bind at 1. unfold bind at 1.
  assert (Hk : ~ In k (od_keys (od_map resolve_pack d1))).
  { unfold od_keys, od_map. rewrite map_map. cbn [fst].
    exact (is_odict_split _ _ _ _ Hd). }
  rewrite (field_run k mf _ d2 Hk), Hm.
  unfold bind at 1, lift at 1. now rewrite He.
Qed.

Lemma pack_resolution_needs_a_value_witness :
  is_odict hello_fresh
  /\ _set_match_length_pack hello_fresh
     = (hello_fresh, Raise (TypeError "object has no len()")).
Proof.
  assert (Hd : is_odict hello_fresh).
  { unfold is_odict. simpl. repeat constructor; simpl; intuition discriminate. }
  split; [exact Hd |].
  refine (pack_resolution_needs_a_value (take 2 hello_fresh) "payload"
            (bytes_field "payload") [] _ Hd _ eq_refl eq_refl).
  repeat constructor.
Defined.

(** X17.  A negative repeat count after well-formed fields, in a layout
    of ASCII characters without a null, leaves the message without a
    size: the count is printed with its sign into the layout, which
    [struct.calcsize] refuses at the sign, unless the fields before it
    have already taken the size out of [Py_ssize_t]. *)
Theorem negative_repeat_has_no_size d1 k f d2 :
  Forall (fun g => wf g = true) (od_values d1) ->
  Forall (fun g => plain g = true) (f :: od_values d2) ->
  Schemas.length f < 0 ->
  size (d1 ++ (k, f) :: d2)
  = (d1 ++ (k, f) :: d2,
     Raise (StructError (if fits (od_values d1) then bad_char else too_long))).
Proof.
  intros Hw Hp Hn. rewrite size_run. f_equal.
  unfold PyStruct.calcsize. rewrite od_values_app.
  change (od_values ((k, f) :: d2)) with (f :: od_values d2).
  now rewrite (prepare_s_negative _ _ _ Hw Hp Hn).
Qed.

Lemma negative_repeat_has_no_size_witness :
  (Forall (fun g => wf g = true) (od_values (take 1 negative_m))
   /\ Forall (fun g => plain g = true)
        [Schemas.set_length (-2) (Schemas.new "count")]
   /\ Schemas.length (Schemas.set_length (-2) (Schemas.new "count")) < 0)
  /\ size negative_m = (negative_m, Raise (StructError bad_char)).
Proof.
  assert (Hw : Forall (fun g => wf g = true) (od_values (take 1 negative_m)))
    by (repeat constructor).
  assert (Hp : Forall (fun g => plain g = true)
                 [Schemas.set_length (-2) (Schemas.new "count")])
    by (repeat constructor).
  assert (Hn : Schemas.length (Schemas.set_length (-2) (Schemas.new "count"))
               < 0) by (simpl; lia).
  split; [repeat split; assumption |].
  exact (negative_repeat_has_no_size (take 1 negative_m) "count" _ []
           Hw Hp Hn).
Defined.

End ResolutionTheorems.

(* ================================================================== *)
(** ** Further properties: construction in the store                   *)
(* ================================================================== *)

Module StoreTheorems.
Import DynamicStruct Shape Examples Objects.

(** X21.  Construction over shared templates, refused or not, leaves every
    object that existed before it as it was, the templates among them.
    When it returns, the new instance refers only to objects that did not
    exist before, and they hold what the constructor computes from the
    declaration; when it raises, it raises what the constructor raises. *)
Theorem construction_in_the_store cls templates kwargs (h : Store) :
  Forall2 (fun t f => h !! t = Some f) templates (fields cls) ->
  (forall l, is_Some (h !! l) ->
     fst (__init__ templates kwargs h) !! l = h !! l)
  /\ match snd (__init__ templates kwargs h) with
     | Ok self =>
         exists m,
           DynamicStruct.__init__ cls kwargs = Ok m
           /\ load self (fst (__init__ templates kwargs h)) = Some m
           /\ forall r, In r (od_values self) -> h !! r = None
     | Raise e => DynamicStruct.__init__ cls kwargs = Raise e
     end.
Proof.
  intros HF. split.
  - intros l Hl.
    destruct (ObjectFacts.clone_fields_refines templates (fields cls) [] h []
                HF eq_refl (List.NoDup_nil _)) as (h1 & self1 & Hc & _ & _).
    destruct (ObjectFacts.clone_fields_spec _ _ _ _ _ Hc) as (A & B).
    unfold __init__. unfold bind at 1. rewrite Hc. unfold bind at 1.
    pose proof (ObjectFacts.setattr_calls_other kwargs self1 h1 l) as Ho.
    destruct (for_each kwargs _ h1) as [h2 [[] | e]];
      unfold ret; cbn [fst] in *.
    + rewrite Ho; [now apply A |].
      intros Hin. destruct (B l Hin) as [[] | [Hn _]].
      destruct Hl as [x Hx]. congruence.
    + rewrite Ho; [now apply A |].
      intros Hin. destruct (B l Hin) as [[] | [Hn _]].
      destruct Hl as [x Hx]. congruence.
  - pose proof (ObjectFacts.init_refines cls templates kwargs h HF) as R.
    destruct (DynamicStruct.__init__ cls kwargs) as [m | e].
    + destruct R as (h' & self & E & Hload).
      destruct (ObjectFacts.init_spec _ _ _ _ _ E) as (_ & F).
      rewrite E. cbn [fst snd]. exists m.
      split; [reflexivity |]. split; [exact Hload |].
      intros r Hr. exact (proj1 (F r Hr)).
    + destruct R as (h' & E). rewrite E. reflexivity.
Qed.

Lemma construction_in_the_store_witness :
  Forall2 (fun t f => ObjectExamples.class_store !! t = Some f)
    ObjectExamples.hello_templates (fields HelloMessage)
  /\ forall l, is_Some (ObjectExamples.class_store !! l) ->
       fst (__init__ ObjectExamples.hello_templates hello_kwargs
              ObjectExamples.class_store) !! l
       = ObjectExamples.class_store !! l.
Proof.
  assert (H : Forall2 (fun t f => ObjectExamples.class_store !! t = Some f)
                ObjectExamples.hello_templates (fields HelloMessage))
    by (repeat constructor).
  split; [exact H |].
  exact (proj1 (construction_in_the_store HelloMessage
                  ObjectExamples.hello_templates hello_kwargs
                  ObjectExamples.class_store H)).
Defined.

End StoreTheorems.
